(** * Verification of src/agent/item_sync.py (ItemSyncModule)

    Shallow embedding of the CodeCommit -> AgentCore Memory item sync
    module: front-matter parsing, metadata extraction, the memory text
    format and its reverse parser, delta / full sync, and the health
    report.  Python [str] values are lists of ASCII characters. *)

From Stdlib Require Import List Ascii String Bool Arith Lia.
Import ListNotations.

(** ** Python strings *)

Notation str := (list ascii).

Definition lit (s : string) : str := list_ascii_of_string s.
Arguments lit s%_string.

Definition nl : ascii := ascii_of_nat 10.
Definition dq : ascii := ascii_of_nat 34.
Definition sq : ascii := ascii_of_nat 39.

Definition str_eqb (a b : str) : bool :=
  if list_eq_dec ascii_dec a b then true else false.

(** [s.startswith(p)] *)
Fixpoint startswith (p s : str) : bool :=
  match p, s with
  | [], _ => true
  | c :: p', d :: s' => Ascii.eqb c d && startswith p' s'
  | _ :: _, [] => false
  end.

(** [s.endswith(p)] *)
Definition endswith (p s : str) : bool := startswith (rev p) (rev s).

(** [c.isspace()] on ASCII: \t \n \v \f \r, the separators \x1c-\x1f
    and the space. *)
Definition is_space (c : ascii) : bool :=
  let n := nat_of_ascii c in
  ((9 <=? n) && (n <=? 13)) || ((28 <=? n) && (n <=? 32)).

Fixpoint lstrip (s : str) : str :=
  match s with
  | [] => []
  | c :: s' => if is_space c then lstrip s' else s
  end.

Definition rstrip (s : str) : str := rev (lstrip (rev s)).

(** [s.strip()] *)
Definition strip (s : str) : str := rstrip (lstrip s).

(** [s.split(sep)] for a one-character separator. *)
Fixpoint split_on (sep : ascii) (s : str) : list str :=
  match s with
  | [] => [[]]
  | c :: s' =>
      let rest := split_on sep s' in
      if Ascii.eqb c sep then [] :: rest
      else match rest with
           | r :: rs => (c :: r) :: rs
           | [] => [[c]]
           end
  end.

(** [sep.join(l)] *)
Fixpoint join (sep : str) (l : list str) : str :=
  match l with
  | [] => []
  | [x] => x
  | x :: xs => x ++ sep ++ join sep xs
  end.

(** [p in s] *)
Fixpoint contains (p s : str) : bool :=
  startswith p s ||
  match s with
  | [] => false
  | _ :: s' => contains p s'
  end.

(** [re.search(p, s)] for a literal pattern [p]: the text before the
    first match, i.e. [s[:m.start()]]. *)
Fixpoint search_before (p s : str) : option str :=
  if startswith p s then Some []
  else match s with
       | [] => None
       | c :: s' => option_map (cons c) (search_before p s')
       end.

(** [s.replace(old, new)] (all occurrences, left to right). *)
Fixpoint replace_fuel (fuel : nat) (old new s : str) : str :=
  match fuel with
  | O => s
  | S f =>
      match s with
      | [] => []
      | c :: s' =>
          if startswith old s
          then new ++ replace_fuel f old new (skipn (List.length old) s)
          else c :: replace_fuel f old new s'
      end
  end.

Definition replace (old new s : str) : str :=
  match old with
  | [] => s  (* not used with an empty pattern *)
  | _ => replace_fuel (List.length s) old new s
  end.

(** [path.split('/')[-1]] *)
Definition last_segment (sep : ascii) (s : str) : str :=
  last (split_on sep s) [].

Definition in_range (lo hi : nat) (c : ascii) : bool :=
  let n := nat_of_ascii c in (lo <=? n) && (n <=? hi).

(** [\w] on ASCII: [A-Za-z0-9_] *)
Definition is_word (c : ascii) : bool :=
  in_range 65 90 c || in_range 97 122 c || in_range 48 57 c
  || Ascii.eqb c "_"%char.

(** [[a-f0-9]] *)
Definition is_hex (c : ascii) : bool := in_range 48 57 c || in_range 97 102 c.

(** [re.match(r'^sb-[a-f0-9]{7}$', s)] on a [str]; [$] also matches
    just before a final newline. *)
Definition match_sb_id (s : str) : bool :=
  let h := skipn 3 s in
  startswith (lit "sb-") s && (7 <=? List.length h) && forallb is_hex (firstn 7 h)
  && match skipn 7 h with
     | [] => true
     | [c] => Ascii.eqb c nl
     | _ => false
     end.

(** Python [repr] of a [str] (ASCII). *)
Definition hex_digit (n : nat) : ascii :=
  if n <? 10 then ascii_of_nat (48 + n) else ascii_of_nat (87 + n).

Definition repr_char (q c : ascii) : str :=
  let n := nat_of_ascii c in
  if Ascii.eqb c "\"%char then lit "\\"
  else if Ascii.eqb c q then ["\"%char; q]
  else if n =? 9 then lit "\t"
  else if n =? 10 then lit "\n"
  else if n =? 13 then lit "\r"
  else if (n <? 32) || (n =? 127)
  then ["\"%char; "x"%char; hex_digit (n / 16); hex_digit (n mod 16)]
  else [c].

Definition repr_str (s : str) : str :=
  let q := if existsb (Ascii.eqb sq) s && negb (existsb (Ascii.eqb dq) s)
           then dq else sq in
  q :: flat_map (repr_char q) s ++ [q].

(** ** Python values of the front matter and exceptions *)

(** A front-matter value: a string or a list of strings. *)
Inductive yval : Type :=
| YStr (s : str)
| YList (l : list str).

(** Python [str(v)] / f-string rendering of a front-matter value. *)
Definition py_str (v : yval) : str :=
  match v with
  | YStr s => s
  | YList l => lit "[" ++ join (lit ", ") (map repr_str l) ++ lit "]"
  end.

(** Truthiness of an optional value ([None], [""] and [[]] are falsy). *)
Definition truthy (v : option yval) : bool :=
  match v with
  | Some (YStr (_ :: _)) | Some (YList (_ :: _)) => true
  | _ => false
  end.

Definition str_truthy (s : option str) : bool :=
  match s with Some (_ :: _) => true | _ => false end.

Inductive exn : Type :=
| TypeError (msg : str).

(** [str(e)] *)
Definition exn_str (e : exn) : str := match e with TypeError m => m end.

Inductive pyres (A : Type) : Type :=
| PyExc (e : exn)
| PyOk (a : A).
Arguments PyExc {A} e.
Arguments PyOk {A} a.

(** ** _parse_simple_yaml *)

(** A Python dict with insertion order: assigning an existing key keeps
    its position. *)
Definition ydict := list (str * yval).

Fixpoint dict_set (k : str) (v : yval) (d : ydict) : ydict :=
  match d with
  | [] => [(k, v)]
  | (k', v') :: d' =>
      if str_eqb k k' then (k, v) :: d' else (k', v') :: dict_set k v d'
  end.

Fixpoint dict_get (k : str) (d : ydict) : option yval :=
  match d with
  | [] => None
  | (k', v) :: d' => if str_eqb k k' then Some v else dict_get k d'
  end.

Fixpoint take_while (f : ascii -> bool) (s : str) : str :=
  match s with
  | c :: s' => if f c then c :: take_while f s' else []
  | [] => []
  end.

(** The key/value regex of [_parse_simple_yaml]: a word-character key,
    a colon, optional whitespace, then the rest of the line; returns the
    key (group 1) and the stripped rest (group 2). *)
Definition match_key_value (line : str) : option (str * str) :=
  let key := take_while is_word line in
  match key, skipn (List.length key) line with
  | _ :: _, c :: rest =>
      if Ascii.eqb c ":"%char then
        let g := lstrip rest in
        let g' := if endswith [nl] g then removelast g else g in
        if existsb (Ascii.eqb nl) g' then None else Some (key, strip g')
      else None
  | _, _ => None
  end.

(** Quote removal: [value[1:-1]] when wrapped in matching quotes. *)
Definition unquote (v : str) : str :=
  if startswith [dq] v && endswith [dq] v then removelast (tl v)
  else if startswith [sq] v && endswith [sq] v then removelast (tl v)
  else v.

(** Parser state: the dict and [current_key]; [current_list] is the list
    object stored at [result[current_key]] (it is only ever referenced
    from there), so appending to it updates that entry. *)
Definition yaml_step (st : ydict * option str) (line : str) : ydict * option str :=
  let (result, current) := st in
  if negb (str_truthy (Some (strip line))) then st
  else if startswith (lit "  - ") line then
    match current with
    | Some k =>
        let value := unquote (strip (skipn 4 line)) in
        match dict_get k result with
        | Some (YList l) => (dict_set k (YList (l ++ [value])) result, current)
        | _ => st
        end
    | None => st
    end
  else match match_key_value line with
       | Some (key, value) =>
           match value with
           | [] => (dict_set key (YList []) result, Some key)
           | _ => (dict_set key (YStr (unquote value)) result, None)
           end
       | None => st
       end.

Definition parse_simple_yaml (yaml_text : str) : ydict :=
  fst (fold_left yaml_step (split_on nl yaml_text) ([], None)).

(** ** parse_front_matter *)
Definition parse_front_matter (content : str) : option ydict :=
  if negb (startswith (lit "---" ++ [nl]) content) then None
  else
    let rest := skipn 4 content in
    match search_before ([nl; nl] ++ lit "---" ++ [nl]) rest with
    | Some yaml_block => Some (parse_simple_yaml yaml_block)
    | None =>
        match search_before ([nl] ++ lit "---" ++ [nl]) rest with
        | Some yaml_block => Some (parse_simple_yaml yaml_block)
        | None => None
        end
    end.

(** ** ItemMetadata *)
Record ItemMetadata : Type := mkItem {
  sb_id : str;
  title : yval;
  item_type : yval;
  path : str;
  tags : list str;
  status : option yval
}.

(** Message of the [TypeError] raised by [re.match] on a list. *)
Definition re_type_error : exn :=
  TypeError (lit "expected string or bytes-like object, got 'list'").

(** ** extract_item_metadata *)
Definition extract_item_metadata (file_path content : str)
  : pyres (option ItemMetadata) :=
  match parse_front_matter content with
  | None | Some [] => PyOk None
  | Some front_matter =>
      let id := dict_get (lit "id") front_matter in
      let ti := dict_get (lit "title") front_matter in
      let ty := dict_get (lit "type") front_matter in
      if negb (truthy id && truthy ti && truthy ty) then PyOk None
      else match id, ti, ty with
           | Some (YStr sid), Some t, Some it =>
               if negb (match_sb_id sid) then PyOk None
               else
                 let tg := match dict_get (lit "tags") front_matter with
                           | Some (YList l) => l
                           | _ => []
                           end in
                 let st := match it with
                           | YStr s => if str_eqb s (lit "project")
                                       then dict_get (lit "status") front_matter
                                       else None
                           | YList _ => None
                           end in
                 PyOk (Some (mkItem sid t it file_path tg st))
           | Some (YList _), _, _ => PyExc re_type_error
           | _, _, _ => PyOk None
           end
  end.

(** ** ItemMetadata.to_memory_text *)
Definition to_memory_text (m : ItemMetadata) : str :=
  let lines :=
    [lit "Item: " ++ py_str (title m);
     lit "ID: " ++ sb_id m;
     lit "Type: " ++ py_str (item_type m);
     lit "Path: " ++ path m]
    ++ match tags m with
       | [] => []
       | tg => [lit "Tags: " ++ join (lit ", ") tg]
       end
    ++ (if truthy (status m)
        then match status m with
             | Some v => [lit "Status: " ++ py_str v]
             | None => []
             end
        else []) in
  join [nl] lines.

(** ** _parse_memory_item *)
Record MemParse : Type := mkMemParse {
  mp_title : option str;
  mp_id : option str;
  mp_type : option str;
  mp_path : option str;
  mp_tags : list str;
  mp_status : option str
}.

Definition mem_parse_init : MemParse := mkMemParse None None None None [] None.

Definition mem_line (st : MemParse) (line : str) : MemParse :=
  let 'mkMemParse ti i ty p tg s := st in
  if startswith (lit "Item: ") line
  then mkMemParse (Some (strip (skipn 6 line))) i ty p tg s
  else if startswith (lit "ID: ") line
  then mkMemParse ti (Some (strip (skipn 4 line))) ty p tg s
  else if startswith (lit "Type: ") line
  then mkMemParse ti i (Some (strip (skipn 6 line))) p tg s
  else if startswith (lit "Path: ") line
  then mkMemParse ti i ty (Some (strip (skipn 6 line))) tg s
  else if startswith (lit "Tags: ") line
  then let tags_str := strip (skipn 6 line) in
       mkMemParse ti i ty p
         (map strip (filter (fun t => str_truthy (Some (strip t)))
                            (split_on ","%char tags_str))) s
  else if startswith (lit "Status: ") line
  then mkMemParse ti i ty p tg (Some (strip (skipn 8 line)))
  else st.

Definition sync_marker_text : str := lit "Last synced commit:".

Definition parse_memory_item (content : str) : option ItemMetadata :=
  if contains sync_marker_text content then None
  else
    let st := fold_left mem_line (split_on nl (strip content)) mem_parse_init in
    if negb (str_truthy (mp_title st) && str_truthy (mp_id st)
             && str_truthy (mp_type st) && str_truthy (mp_path st))
    then None
    else match mp_title st, mp_id st, mp_type st, mp_path st with
         | Some t, Some i, Some ty, Some p =>
             if negb (match_sb_id i) then None
             else Some (mkItem i (YStr t) (YStr ty) p (mp_tags st)
                               (option_map YStr (mp_status st)))
         | _, _, _, _ => None
         end.

(** ** External services and the call log *)

(** One entry of a GetDifferences response: the paths of [afterBlob] and
    [beforeBlob] (absent when the blob is missing) and [changeType]. *)
Record Difference : Type := mkDifference {
  after_blob : option str;
  before_blob : option str;
  change_type_of : option str
}.

(** A GetFolder response. *)
Inductive FolderResp : Type :=
| FolderFiles (absolute_paths : list str)
| FolderDoesNotExist
| FolderFailed.

(** Behaviour of CodeCommit, AgentCore Memory and SSM during one call.
    [None] stands for a request that raises. *)
Record Env : Type := mkEnv {
  cc_branch : option str;                        (* get_branch commitId *)
  cc_differences : str -> str -> option (list Difference);
  cc_folder : str -> str -> FolderResp;          (* folderPath, commit *)
  cc_file : str -> str -> option str;            (* filePath, commit *)
  memory_client_init : pyres bool;               (* the memory_client property *)
  mem_batch_ok : str -> str -> bool;             (* requestIdentifier, text *)
  mem_list : option (list str);                  (* record texts *)
  ssm_get_ok : bool;
  ssm_put_ok : bool
}.

Inductive Call : Type :=
| CallGetBranch
| CallGetParameter
| CallPutParameter (value : str)
| CallGetDifferences (before after : str)
| CallGetFolder (folder commit : str)
| CallGetFile (file_path commit : str)
| CallBatchCreate (namespace request_id text : str)
| CallListRecords (namespace : str)
| CallMarkDeleted (actor_id sb_id : str).

(** Mutable state: the SSM sync-marker parameter and the calls made. *)
Record World : Type := mkWorld {
  ssm_param : option str;
  calls : list Call
}.

(** ** A state and exception monad *)
Definition M (A : Type) : Type := Env -> World -> World * pyres A.

Definition ret {A} (a : A) : M A := fun _ w => (w, PyOk a).

Definition bind {A B} (m : M A) (k : A -> M B) : M B :=
  fun env w =>
    match m env w with
    | (w', PyOk a) => k a env w'
    | (w', PyExc e) => (w', PyExc e)
    end.

Notation "x <- c1 ;; c2" := (bind c1 (fun x => c2))
  (at level 61, c1 at next level, right associativity).

Definition ask {A} (f : Env -> A) : M A := fun env w => (w, PyOk (f env)).

Definition lift {A} (r : pyres A) : M A := fun _ w => (w, r).

(** The [memory_client] property.  [PyOk false]: [MEMORY_AVAILABLE] is
    false and the property returns [None]; [PyOk true]: a client;
    [PyExc e]: the [MemoryClient(...)] constructor raises [e].  A client
    once built is cached, and a failed construction leaves the attribute
    [None] so the next access tries again: under one [Env] every access
    has the same outcome. *)
Definition memory_client : M bool := fun env w => (w, memory_client_init env).

Definition log (c : Call) : M unit :=
  fun _ w => (mkWorld (ssm_param w) (calls w ++ [c]), PyOk tt).

(** [try: m except Exception as e: h(e)] *)
Definition try_catch {A} (m : M A) (h : exn -> M A) : M A :=
  fun env w =>
    match m env w with
    | (w', PyExc e) => h e env w'
    | r => r
    end.

(** The outcome of [m] with its exception, if any, as a value. *)
Definition attempt {A} (m : M A) : M (pyres A) :=
  fun env w => let (w', r) := m env w in (w', PyOk r).

(** ** Result records *)
Record SyncResult : Type := mkSyncResult {
  success : bool;
  items_synced : nat;
  items_deleted : nat;
  new_commit_id : option str;
  error : option str
}.

Record HealthReport : Type := mkHealthReport {
  codecommit_count : nat;
  memory_count : nat;
  in_sync : bool;
  last_sync_timestamp : option str;
  last_sync_commit_id : option str;
  missing_in_memory : list str;
  extra_in_memory : list str
}.

Record ChangedFile : Type := mkChangedFile {
  cf_path : str;
  cf_change_type : str
}.

Definition ITEM_FOLDERS : list str :=
  [lit "10-ideas/"; lit "20-decisions/"; lit "30-projects/"].

Definition opt_str_eqb (a b : option str) : bool :=
  match a, b with
  | Some x, Some y => str_eqb x y
  | None, None => true
  | _, _ => false
  end.

(** ** SSM sync marker *)
Definition get_sync_marker : M (option str) :=
  _ <- log CallGetParameter ;;
  fun env w =>
    (w, PyOk (if ssm_get_ok env
              then match ssm_param w with
                   | Some value =>
                       if str_eqb value (lit "initial") then None else Some value
                   | None => None  (* ParameterNotFound *)
                   end
              else None)).

Definition set_sync_marker (commit_id : str) : M bool :=
  _ <- log (CallPutParameter commit_id) ;;
  fun env w =>
    if ssm_put_ok env
    then (mkWorld (Some commit_id) (calls w), PyOk true)
    else (w, PyOk false).

(** ** CodeCommit *)
Definition get_codecommit_head : M (option str) :=
  _ <- log CallGetBranch ;; ask cc_branch.

Definition diff_entry (d : Difference) : option ChangedFile :=
  let entry :=
    match after_blob d, before_blob d with
    | Some p, _ =>
        Some (p, if opt_str_eqb (change_type_of d) (Some (lit "A"))
                 then lit "A" else lit "M")
    | None, Some p => Some (p, lit "D")
    | None, None => None
    end in
  match entry with
  | Some (p, ct) =>
      if existsb (fun folder => startswith folder p) ITEM_FOLDERS
         && endswith (lit ".md") p
      then Some (mkChangedFile p ct) else None
  | None => None
  end.

Fixpoint filter_some {A B} (f : A -> option B) (l : list A) : list B :=
  match l with
  | [] => []
  | x :: xs =>
      match f x with
      | Some y => y :: filter_some f xs
      | None => filter_some f xs
      end
  end.

(** [folder.rstrip('/')] *)
Definition rstrip_slash (s : str) : str :=
  rev ((fix drop (l : str) : str :=
          match l with
          | c :: l' => if Ascii.eqb c "/"%char then drop l' else l
          | [] => []
          end) (rev s)).

Fixpoint get_all_item_files_loop (commit_id : str) (folders : list str)
  : M (list ChangedFile) :=
  match folders with
  | [] => ret []
  | folder :: rest =>
      let fp := rstrip_slash folder in
      _ <- log (CallGetFolder fp commit_id) ;;
      resp <- ask (fun env => cc_folder env fp commit_id) ;;
      later <- get_all_item_files_loop commit_id rest ;;
      ret (match resp with
           | FolderFiles files =>
               map (fun p => mkChangedFile p (lit "A"))
                   (filter (fun p => endswith (lit ".md") p
                                     && negb (endswith (lit ".gitkeep") p)) files)
           | FolderDoesNotExist | FolderFailed => []
           end ++ later)
  end.

Definition get_all_item_files (commit_id : str) : M (list ChangedFile) :=
  get_all_item_files_loop commit_id ITEM_FOLDERS.

Definition get_changed_files (old_commit : option str) (new_commit : str)
  : M (list ChangedFile) :=
  match old_commit with
  | None => get_all_item_files new_commit
  | Some old =>
      _ <- log (CallGetDifferences old new_commit) ;;
      resp <- ask (fun env => cc_differences env old new_commit) ;;
      match resp with
      | Some differences => ret (filter_some diff_entry differences)
      | None => ret []  (* "Warning: Failed to get changed files" *)
      end
  end.

Definition get_file_content (file_path commit_id : str) : M (option str) :=
  _ <- log (CallGetFile file_path commit_id) ;;
  ask (fun env => cc_file env file_path commit_id).

(** ** AgentCore Memory *)
Definition items_namespace (actor_id : str) : str := lit "/items/" ++ actor_id.

Definition store_item_in_memory (actor_id : str) (item : ItemMetadata) : M bool :=
  avail <- memory_client ;;
  if negb avail then ret false
  else
    let item_text := to_memory_text item in
    _ <- log (CallBatchCreate (items_namespace actor_id) (sb_id item) item_text) ;;
    ask (fun env => mem_batch_ok env (sb_id item) item_text).

Definition delete_item_from_memory (actor_id sb : str) : M bool :=
  _ <- log (CallMarkDeleted actor_id sb) ;; ret true.

(** ** Syncing one added or modified file (body of both sync loops) *)
Definition sync_file (actor_id path head_commit : str) : M bool :=
  content <- get_file_content path head_commit ;;
  match content with
  | Some ((_ :: _) as c) =>
      metadata <- lift (extract_item_metadata path c) ;;
      match metadata with
      | Some m => store_item_in_memory actor_id m
      | None => ret false
      end
  | _ => ret false
  end.

(** The sb_id guessed from a deleted path. *)
Definition deleted_sb_id (path : str) : str :=
  replace (lit ".md") [] (last_segment "/"%char path).

Fixpoint delta_loop (actor_id head_commit : str) (files : list ChangedFile)
  (synced deleted : nat) : M (nat * nat) :=
  match files with
  | [] => ret (synced, deleted)
  | file_info :: rest =>
      let p := cf_path file_info in
      if str_eqb (cf_change_type file_info) (lit "D") then
        let sb_id_match := deleted_sb_id p in
        if startswith (lit "sb-") sb_id_match then
          ok <- delete_item_from_memory actor_id sb_id_match ;;
          delta_loop actor_id head_commit rest synced
                     (if ok then S deleted else deleted)
        else delta_loop actor_id head_commit rest synced deleted
      else
        ok <- sync_file actor_id p head_commit ;;
        delta_loop actor_id head_commit rest
                   (if ok then S synced else synced) deleted
  end.

Fixpoint full_loop (actor_id head_commit : str) (files : list ChangedFile)
  (synced : nat) : M nat :=
  match files with
  | [] => ret synced
  | file_info :: rest =>
      ok <- sync_file actor_id (cf_path file_info) head_commit ;;
      full_loop actor_id head_commit rest (if ok then S synced else synced)
  end.

Definition sync_failure (msg : str) : SyncResult :=
  mkSyncResult false 0 0 None (Some msg).

(** ** sync_items *)
Definition sync_items_body (actor_id : str) : M SyncResult :=
  head <- get_codecommit_head ;;
  match head with
  | Some ((_ :: _) as head_commit) =>
      last_sync_commit <- get_sync_marker ;;
      if str_truthy last_sync_commit
         && negb (opt_str_eqb last_sync_commit (Some head_commit)) then
        changed_files <- get_changed_files last_sync_commit head_commit ;;
        counts <- delta_loop actor_id head_commit changed_files 0 0 ;;
        _ <- set_sync_marker head_commit ;;
        ret (mkSyncResult true (fst counts) (snd counts) (Some head_commit) None)
      else if opt_str_eqb last_sync_commit (Some head_commit) then
        ret (mkSyncResult true 0 0 (Some head_commit) None)
      else
        all_files <- get_all_item_files head_commit ;;
        synced <- full_loop actor_id head_commit all_files 0 ;;
        _ <- set_sync_marker head_commit ;;
        ret (mkSyncResult true synced 0 (Some head_commit) None)
  | _ => ret (sync_failure (lit "Failed to get CodeCommit HEAD commit"))
  end.

Definition sync_items (actor_id : str) : M SyncResult :=
  try_catch (sync_items_body actor_id)
            (fun e => ret (sync_failure (exn_str e))).

(** ** sync_single_item *)
Definition sync_single_item (actor_id file_path content : str) : M SyncResult :=
  try_catch
    (metadata <- lift (extract_item_metadata file_path content) ;;
     match metadata with
     | None => ret (sync_failure (lit "Failed to extract metadata from " ++ file_path))
     | Some m =>
         ok <- store_item_in_memory actor_id m ;;
         if ok then ret (mkSyncResult true 1 0 None None)
         else ret (sync_failure (lit "Failed to store item " ++ sb_id m
                                 ++ lit " in Memory"))
     end)
    (fun e => ret (sync_failure (exn_str e))).

(** ** Health check *)

(** The file loop of [get_all_codecommit_items]; an exception ends the
    scan and the items gathered so far are returned. *)
Fixpoint codecommit_items_loop (head_commit : str) (files : list ChangedFile)
  (items : list ItemMetadata) : M (list ItemMetadata) :=
  match files with
  | [] => ret items
  | file_info :: rest =>
      let p := cf_path file_info in
      content <- get_file_content p head_commit ;;
      match content with
      | Some ((_ :: _) as c) =>
          r <- attempt (lift (extract_item_metadata p c)) ;;
          match r with
          | PyExc _ => ret items
          | PyOk (Some m) => codecommit_items_loop head_commit rest (items ++ [m])
          | PyOk None => codecommit_items_loop head_commit rest items
          end
      | _ => codecommit_items_loop head_commit rest items
      end
  end.

Definition get_all_codecommit_items : M (list ItemMetadata) :=
  head <- get_codecommit_head ;;
  match head with
  | Some ((_ :: _) as head_commit) =>
      all_files <- get_all_item_files head_commit ;;
      codecommit_items_loop head_commit all_files []
  | _ => ret []
  end.

Definition get_all_memory_items (actor_id : str) : M (list ItemMetadata) :=
  avail <- memory_client ;;
  if negb avail then ret []
  else
    _ <- log (CallListRecords (items_namespace actor_id)) ;;
    resp <- ask mem_list ;;
    match resp with
    | Some texts => ret (filter_some parse_memory_item texts)
    | None => ret []
    end.

(** [set(a) - set(b)] as a duplicate-free list (the order of a Python
    set is unspecified). *)
Definition set_diff (a b : list str) : list str :=
  filter (fun i => negb (existsb (str_eqb i) b))
         (nodup (list_eq_dec ascii_dec) a).

(** The report computed from the two enumerations (lines 754-782). *)
Definition health_core (codecommit_items memory_items : list ItemMetadata)
  (head_commit : option str) : HealthReport :=
  let codecommit_sb_ids := map sb_id codecommit_items in
  let memory_sb_ids := map sb_id memory_items in
  let missing := firstn 10 (set_diff codecommit_sb_ids memory_sb_ids) in
  let extra := firstn 10 (set_diff memory_sb_ids codecommit_sb_ids) in
  let sync := (List.length missing =? 0) && (List.length extra =? 0) in
  mkHealthReport (List.length codecommit_items) (List.length memory_items)
                 sync None head_commit missing extra.

Definition failed_health_report : HealthReport :=
  mkHealthReport 0 0 false None None [] [].

Definition get_health_report (actor_id : str) : M HealthReport :=
  try_catch
    (codecommit_items <- get_all_codecommit_items ;;
     memory_items <- get_all_memory_items actor_id ;;
     head_commit <- get_codecommit_head ;;
     ret (health_core codecommit_items memory_items head_commit))
    (fun _ => ret failed_health_report).

(** The lines [to_memory_text] emits, as its source lists them. *)
Definition memory_text_lines (m : ItemMetadata) : list str :=
  [lit "Item: " ++ py_str (title m);
   lit "ID: " ++ sb_id m;
   lit "Type: " ++ py_str (item_type m);
   lit "Path: " ++ path m]
  ++ (match tags m with
      | [] => []
      | tg => [lit "Tags: " ++ join (lit ", ") tg]
      end)
  ++ (if truthy (status m)
      then match status m with
           | Some v => [lit "Status: " ++ py_str v]
           | None => []
           end
      else []).

(* -------------------------------------------------------------------- *)
(** * Callers: src/agent/sync_handler.py and src/agent/classifier.py *)

(** The response dict both callers return. *)
Record Response : Type := mkResponse {
  r_success : bool;
  r_items_synced : nat;
  r_items_deleted : nat;
  r_error : option str;
  r_health_report : option HealthReport
}.

(** [_error_response] *)
Definition error_response (error_message : str) : Response :=
  mkResponse false 0 0 (Some error_message) None.

(** [_success_response] *)
Definition success_response (result : SyncResult) : Response :=
  mkResponse (success result) (items_synced result) (items_deleted result)
             (error result) None.

(** [a == b] on an optional string against a literal. *)
Definition is_op (op : option str) (name : string) : bool :=
  opt_str_eqb op (Some (lit name)).

(** The value of a string field the caller has already checked. *)
Definition field_str (v : option str) : str :=
  match v with Some s => s | None => [] end.

Module SyncHandler.

(** The Lambda event: [event.get(k)] of its string fields ([None] when the
    key is absent); [force_full_sync] is read but never used. *)
Record Event : Type := mkEvent {
  operation : option str;
  actor_id : option str;
  item_path : option str;
  item_content : option str;
  sb_id : option str;
  force_full_sync : bool
}.

Definition handle_sync_item (event : Event) : M Response :=
  let actor := field_str (actor_id event) in
  if negb (str_truthy (item_path event))
  then ret (error_response (lit "Missing required field: item_path"))
  else if negb (str_truthy (item_content event))
  then ret (error_response (lit "Missing required field: item_content"))
  else
    try_catch
      (result <- sync_single_item actor (field_str (item_path event))
                                  (field_str (item_content event)) ;;
       ret (success_response result))
      (fun e => ret (error_response (lit "Failed to sync item: " ++ exn_str e))).

Definition handle_sync_all (event : Event) : M Response :=
  let actor := field_str (actor_id event) in
  let _force := force_full_sync event in
  try_catch
    (result <- sync_items actor ;; ret (success_response result))
    (fun e => ret (error_response (lit "Failed to complete sync: " ++ exn_str e))).

Definition handle_delete_item (event : Event) : M Response :=
  let actor := field_str (actor_id event) in
  if negb (str_truthy (sb_id event))
  then ret (error_response (lit "Missing required field: sb_id"))
  else
    try_catch
      (ok <- delete_item_from_memory actor (field_str (sb_id event)) ;;
       ret (mkResponse ok 0 (if ok then 1 else 0) None None))
      (fun e => ret (error_response (lit "Failed to delete item: " ++ exn_str e))).

Definition handle_health_check (event : Event) : M Response :=
  let actor := field_str (actor_id event) in
  try_catch
    (health_report <- get_health_report actor ;;
     ret (mkResponse true 0 0 None (Some health_report)))
    (fun e => ret (error_response (lit "Failed to complete health check: " ++ exn_str e))).

(** The operations [handler] routes. *)
Definition known_op (op : option str) : bool :=
  is_op op "sync_item" || is_op op "sync_all" || is_op op "delete_item"
  || is_op op "health_check".

(** [handler(event, context)] with the module-level [MEMORY_ID]. *)
Definition handler (memory_id : str) (event : Event) : M Response :=
  let op := operation event in
  if negb (str_truthy op)
  then ret (error_response (lit "Missing required field: operation"))
  else if negb (str_truthy (actor_id event))
  then ret (error_response (lit "Missing required field: actor_id"))
  else if negb (str_truthy (Some memory_id))
  then ret (error_response (lit "MEMORY_ID environment variable not set"))
  else if is_op op "sync_item" then handle_sync_item event
  else if is_op op "sync_all" then handle_sync_all event
  else if is_op op "delete_item" then handle_delete_item event
  else if is_op op "health_check" then handle_health_check event
  else ret (error_response (lit "Unknown operation: " ++ field_str op)).

End SyncHandler.

Module Classifier.

(** The [sync_operation] payload: [payload.get(k)] of its string fields
    ([None] when the key is absent) and the truthiness of
    [payload.get('force_full_sync', False)]. *)
Record Payload : Type := mkPayload {
  sync_operation : option str;
  actor_id : option str;
  item_path : option str;
  item_content : option str;
  commit_id : option str;
  sb_id : option str;
  force_full_sync : bool
}.

(** [sync_single_item] takes three arguments besides [self]; the call
    [sync_module.sync_single_item(actor_id, item_path, item_content,
    commit_id)] raises this [TypeError] before the method body runs. *)
Definition sync_single_item_arity_error : exn :=
  TypeError (lit "ItemSyncModule.sync_single_item() takes 4 positional arguments but 5 were given").

Definition handle_health_check (actor : str) : M Response :=
  try_catch
    (health_report <- get_health_report actor ;;
     ret (mkResponse true 0 0 None (Some health_report)))
    (fun e => ret (error_response (lit "Health check failed: " ++ exn_str e))).

Definition handle_sync_item (actor : str) (payload : Payload) : M Response :=
  if negb (str_truthy (item_path payload)) || negb (str_truthy (item_content payload))
  then ret (error_response (lit "Missing item_path or item_content"))
  else
    try_catch
      (result <- lift (PyExc sync_single_item_arity_error) ;;
       ret (success_response result))
      (fun e => ret (error_response (lit "Sync item failed: " ++ exn_str e))).

Definition handle_sync_all (actor : str) (payload : Payload) : M Response :=
  try_catch
    (_ <- (if force_full_sync payload
           then _ <- set_sync_marker (lit "initial") ;; ret tt
           else ret tt) ;;
     result <- sync_items actor ;;
     ret (success_response result))
    (fun e => ret (error_response (lit "Full sync failed: " ++ exn_str e))).

Definition handle_delete_item (actor : str) (payload : Payload) : M Response :=
  if negb (str_truthy (sb_id payload))
  then ret (error_response (lit "Missing sb_id"))
  else
    try_catch
      (ok <- delete_item_from_memory actor (field_str (sb_id payload)) ;;
       ret (mkResponse ok 0 (if ok then 1 else 0) None None))
      (fun e => ret (error_response (lit "Delete item failed: " ++ exn_str e))).

(** [handle_sync_operation(payload)] with the module-level
    [ITEM_SYNC_AVAILABLE]. *)
Definition handle_sync_operation (item_sync_available : bool) (payload : Payload)
  : M Response :=
  if negb item_sync_available
  then ret (error_response (lit "ItemSyncModule not available"))
  else
    let op := sync_operation payload in
    let actor := match actor_id payload with
                 | Some a => a
                 | None => lit "anonymous"
                 end in
    if negb (str_truthy op)
    then ret (error_response (lit "Missing sync_operation field"))
    else if is_op op "health_check" then handle_health_check actor
    else if is_op op "sync_item" then handle_sync_item actor payload
    else if is_op op "sync_all" then handle_sync_all actor payload
    else if is_op op "delete_item" then handle_delete_item actor payload
    else ret (error_response (lit "Unknown sync_operation: " ++ field_str op)).

(** The file loop of [read_items_from_codecommit]: unlike
    [get_all_codecommit_items] it has no [try] of its own, so an exception
    of [extract_item_metadata] leaves the loop. *)
Fixpoint read_items_loop (head_commit : str) (files : list ChangedFile)
  (items : list ItemMetadata) : M (list ItemMetadata) :=
  match files with
  | [] => ret items
  | file_info :: rest =>
      content <- get_file_content (cf_path file_info) head_commit ;;
      match content with
      | Some ((_ :: _) as c) =>
          metadata <- lift (extract_item_metadata (cf_path file_info) c) ;;
          match metadata with
          | Some m => read_items_loop head_commit rest (items ++ [m])
          | None => read_items_loop head_commit rest items
          end
      | _ => read_items_loop head_commit rest items
      end
  end.

(** [read_items_from_codecommit()] with the module-level
    [ITEM_SYNC_AVAILABLE]; the [ItemSyncModule] constructor only stores
    its arguments (its clients are created lazily). *)
Definition read_items_from_codecommit (item_sync_available : bool) : M (list ItemMetadata) :=
  if negb item_sync_available then ret []
  else
    try_catch
      (head_commit <- get_codecommit_head ;;
       match head_commit with
       | Some ((_ :: _) as h) =>
           all_files <- get_all_item_files h ;;
           read_items_loop h all_files []
       | _ => ret []
       end)
      (fun _ => ret []).

(** [ensure_memory_initialized(actor_id)] with the module-level
    [ITEM_SYNC_AVAILABLE] and [MEMORY_ID]; what it prints is not
    modelled. *)
Definition ensure_memory_initialized (item_sync_available : bool) (memory_id actor : str)
  : M bool :=
  if negb item_sync_available || negb (str_truthy (Some memory_id))
  then ret false
  else
    try_catch
      (result <- sync_items actor ;;
       ret (success result))
      (fun _ => ret false).

(** [run_delta_sync(actor_id)], under the same module-level settings. *)
Definition run_delta_sync (item_sync_available : bool) (memory_id actor : str) : M unit :=
  if negb item_sync_available || negb (str_truthy (Some memory_id))
  then ret tt
  else
    try_catch
      (_ <- sync_items actor ;;
       ret tt)
      (fun _ => ret tt).

End Classifier.

(** ** Frame properties of monadic code *)

(** [m] leaves the SSM parameter alone whenever PutParameter fails. *)
Definition keeps_marker {A} (m : M A) : Prop :=
  forall env w, ssm_put_ok env = false -> ssm_param (fst (m env w)) = ssm_param w.

(** [m] never raises. *)
Definition no_raise {A} (m : M A) : Prop :=
  forall env w, exists w' a, m env w = (w', PyOk a).

(** [R env w w'] holds between the world before and after every run of [m]. *)
Definition stays {A} (R : Env -> World -> World -> Prop) (m : M A) : Prop :=
  forall env w, R env w (fst (m env w)).

(** The world after logging [c]. *)
Definition logged (w : World) (c : Call) : World :=
  mkWorld (ssm_param w) (calls w ++ [c]).

(** The SSM parameter is left alone. *)
Definition marker_fixed (_ : Env) (w w' : World) : Prop := ssm_param w' = ssm_param w.

(** Only calls satisfying [P] are appended to the log. *)
Definition logs_only (P : Call -> Prop) (_ : Env) (w w' : World) : Prop :=
  exists new, calls w' = calls w ++ new /\ Forall P new.

(** Calls that stay within one actor's items: a BatchCreate only in the
    actor's namespace, a deletion only for the actor, and no listing. *)
Definition actor_call (actor : str) (c : Call) : Prop :=
  match c with
  | CallBatchCreate ns _ _ => ns = items_namespace actor
  | CallMarkDeleted a _ => a = actor
  | CallListRecords _ => False
  | _ => True
  end.

(** Calls that change nothing in CodeCommit, Memory or SSM. *)
Definition read_only_call (c : Call) : Prop :=
  match c with
  | CallPutParameter _ | CallBatchCreate _ _ _ | CallMarkDeleted _ _ => False
  | _ => True
  end.

(** Calls other than a CodeCommit GetDifferences (a delta comparison). *)
Definition no_diff_call (c : Call) : Prop :=
  match c with
  | CallGetDifferences _ _ => False
  | _ => True
  end.

(** Calls other than a CodeCommit GetFolder (a listing of an item folder). *)
Definition no_folder_call (c : Call) : Prop :=
  match c with
  | CallGetFolder _ _ => False
  | _ => True
  end.

(** The number of Memory writes and of deletion marks in a call list. *)
Definition count_batch (l : list Call) : nat :=
  List.length (filter (fun c => match c with CallBatchCreate _ _ _ => true | _ => false end) l).

Definition count_marked (l : list Call) : nat :=
  List.length (filter (fun c => match c with CallMarkDeleted _ _ => true | _ => false end) l).

(** ** Round-trip conditions on a metadata value *)

(** A field value that survives the memory text format: non-empty, no
    surrounding whitespace, no newline, and not containing the sync-marker
    text. *)
Definition clean_field (v : str) : bool :=
  match v with
  | [] => false
  | c :: _ => negb (is_space c) && negb (is_space (last v c))
  end && negb (existsb (Ascii.eqb nl) v) && negb (contains sync_marker_text v).

(** A tag must also be free of commas, the separator of the Tags line. *)
Definition tag_ok (t : str) : bool :=
  clean_field t && negb (existsb (Ascii.eqb ","%char) t).

(** A title (as rendered) or path that its line carries back: no
    newline, not blank, and not containing the sync-marker text. *)
Definition line_ok (v : str) : bool :=
  negb (existsb (Ascii.eqb nl) v) && negb (forallb is_space v) &&
  negb (contains sync_marker_text v).

Definition round_trip_safe (m : ItemMetadata) : bool :=
  clean_field (sb_id m) && match_sb_id (sb_id m) &&
  line_ok (py_str (title m)) &&
  match item_type m with YStr t => clean_field t | YList _ => false end &&
  line_ok (path m) && forallb tag_ok (tags m) &&
  match status m with
  | None => true
  | Some (YStr s) => clean_field s
  | Some (YList _) => false
  end.

(** [v.strip() == v] for a non-empty [v]. *)
Definition stripped (v : str) : Prop := v <> [] /\ lstrip v = v /\ rstrip v = v.

(** A front-matter value with no newline in it. *)
Definition yval_free (v : yval) : Prop :=
  match v with
  | YStr s => ~ In nl s
  | YList l => Forall (fun s => ~ In nl s) l
  end.

(** ** Concrete inputs used by the witnesses and counterexamples *)

Definition actor0 : str := lit "user-1".
Definition head0 : str := lit "c0ffee1c0ffee1".
Definition old0 : str := lit "bead0015bead00".

(** A repository whose only behaviour that matters is the HEAD, the
    differences between any two commits and the file contents. *)
Definition env_with (branch : option str) (diffs : option (list Difference))
  (files : str -> option str) (put_ok : bool) : Env :=
  mkEnv branch (fun _ _ => diffs) (fun _ _ => FolderDoesNotExist)
        (fun p _ => files p) (PyOk true) (fun _ _ => true) (Some []) true put_ok.

Definition no_files : str -> option str := fun _ => None.

Definition world_at (marker : option str) : World := mkWorld marker [].

(** A file name following the repository's naming convention. *)
Definition deleted_path0 : str := lit "10-ideas/2025-01-20__title__sb-1234567.md".

Definition lines (l : list string) : str := join [nl] (map lit l).

(** Front matter whose [id] is a one-element list. *)
Definition header_list_id : str :=
  lines ["---"; "id:"; "  - sb-1234567"; "title: T"; "type: idea"; "---"; ""]%string.

(** Front matter with a tag containing a comma. *)
Definition header_comma_tag : str :=
  lines ["---"; "id: sb-1234567"; "title: T"; "type: idea"; "tags:"; "  - a,b";
         "---"; ""]%string.

(** A stored memory record of an idea that carries a status line. *)
Definition record_idea_status : str :=
  lines ["Item: t"; "ID: sb-0000000"; "Type: idea"; "Path: 10-ideas/x.md";
         "Status: active"]%string.

(** Health check where the HEAD lookup and the record listing both fail. *)
Definition env_health_down : Env :=
  mkEnv None (fun _ _ => None) (fun _ _ => FolderFailed) (fun _ _ => None)
        (PyOk true) (fun _ _ => true) None true true.

(** An exception raised by the [MemoryClient(...)] constructor. *)
Definition client_error0 : exn := TypeError (lit "Unable to locate credentials").

(** Health check where building the Memory client raises. *)
Definition env_client_raises : Env :=
  mkEnv (Some head0) (fun _ _ => None) (fun _ _ => FolderDoesNotExist)
        (fun _ _ => None) (PyExc client_error0) (fun _ _ => true) (Some []) true true.

(** Two disjoint item sets of equal size. *)
Definition item_with_id (i : string) : ItemMetadata :=
  mkItem (lit i) (YStr (lit "t")) (YStr (lit "idea")) (lit "10-ideas/x.md") [] None.

Definition items_a : list ItemMetadata :=
  [item_with_id "sb-0000001"; item_with_id "sb-0000002"].
Definition items_b : list ItemMetadata :=
  [item_with_id "sb-0000003"; item_with_id "sb-0000004"].

(** The project of the spec's single-item scenario. *)
Definition item_project : ItemMetadata :=
  mkItem (lit "sb-1234567") (YStr (lit "Home Renovation")) (YStr (lit "project"))
         (lit "30-projects/2025-01-20__home-renovation__sb-1234567.md")
         [lit "home"; lit "budget"] (Some (YStr (lit "active"))).

(** An idea whose title is a list and whose path ends in a space. *)
Definition item_list_title : ItemMetadata :=
  mkItem (lit "sb-abcdef0") (YList [lit "a"; lit "b"]) (YStr (lit "idea"))
         (lit "10-ideas/x.md ") [lit "t"] None.

(* -------------------------------------------------------------------- *)
(** * Basic facts *)

Lemma str_eqb_true (a b : str) : str_eqb a b = true <-> a = b.
Proof.
  unfold str_eqb; destruct (list_eq_dec ascii_dec a b); split; congruence.
Qed.

Lemma str_eqb_refl (a : str) : str_eqb a a = true.
Proof. apply str_eqb_true; reflexivity. Qed.

Lemma str_eqb_false (a b : str) : str_eqb a b = false <-> a <> b.
Proof.
  unfold str_eqb; destruct (list_eq_dec ascii_dec a b); split; congruence.
Qed.

(** * C1: the watermark-equals-head fast path *)

(** C1. When [sync_items] reads a sync marker equal to the current HEAD,
    the only calls made are the HEAD lookup and the marker read: no
    GetDifferences, no GetFile, no memory write or deletion, no marker
    write; the result is a success with zero counts and
    [new_commit_id = head]. *)
Theorem sync_items_marker_at_head_no_calls
  (env : Env) (w : World) (actor_id h : str)
  (Hhead : cc_branch env = Some h) (Hne : h <> [])
  (Hget : ssm_get_ok env = true) (Hmark : ssm_param w = Some h)
  (Hinit : str_eqb h (lit "initial") = false) :
  sync_items actor_id env w =
    (mkWorld (ssm_param w) (calls w ++ [CallGetBranch; CallGetParameter]),
     PyOk (mkSyncResult true 0 0 (Some h) None)).
Proof.
  destruct h as [|c h']; [congruence|].
  destruct w as [p cs]; simpl in Hmark; subst p.
  unfold sync_items, try_catch, sync_items_body, bind, get_codecommit_head,
    get_sync_marker, log, ask, ret; simpl.
  rewrite Hhead, Hget; simpl in Hinit |- *.
  rewrite Hinit; simpl; rewrite str_eqb_refl; simpl.
  rewrite <- app_assoc; reflexivity.
Qed.


Lemma sync_items_marker_at_head_no_calls_witness :
  cc_branch (env_with (Some head0) None no_files true) = Some head0 /\
  ssm_param (world_at (Some head0)) = Some head0 /\
  sync_items actor0 (env_with (Some head0) None no_files true) (world_at (Some head0)) =
    (mkWorld (Some head0) ([] ++ [CallGetBranch; CallGetParameter]),
     PyOk (mkSyncResult true 0 0 (Some head0) None)).
Proof.
  split; [reflexivity|]. split; [reflexivity|].
  apply (sync_items_marker_at_head_no_calls
           (env_with (Some head0) None no_files true) (world_at (Some head0))
           actor0 head0); [reflexivity | discriminate | reflexivity
                           | reflexivity | reflexivity].
Defined.

(** * C2: a failing GetDifferences during delta sync *)

(** C2 (counterexample). The marker [old0] differs from HEAD and
    GetDifferences raises; [sync_items] still reports success and writes
    HEAD as the new marker. *)
Lemma sync_items_diff_failure_moves_marker :
  sync_items actor0 (env_with (Some head0) None no_files true) (world_at (Some old0)) =
    (mkWorld (Some head0)
       [CallGetBranch; CallGetParameter; CallGetDifferences old0 head0;
        CallPutParameter head0],
     PyOk (mkSyncResult true 0 0 (Some head0) None)).
Proof. reflexivity. Qed.

(** C2 (amended). When the marker [old] exists and differs from HEAD [h]
    and GetDifferences raises, [get_changed_files] yields no file, so
    [sync_items] processes nothing, writes [h] as the marker (which takes
    effect when the SSM write succeeds) and returns a success with zero
    counts and [new_commit_id = h]. *)
Theorem sync_items_diff_failure_is_empty_delta
  (env : Env) (w : World) (actor_id h old : str)
  (Hhead : cc_branch env = Some h) (Hne : h <> [])
  (Hget : ssm_get_ok env = true) (Hmark : ssm_param w = Some old)
  (Hold : old <> []) (Hinit : str_eqb old (lit "initial") = false)
  (Hdiff_head : old <> h) (Hdiff : cc_differences env old h = None) :
  sync_items actor_id env w =
    (mkWorld (if ssm_put_ok env then Some h else Some old)
       (calls w ++ [CallGetBranch; CallGetParameter; CallGetDifferences old h;
                    CallPutParameter h]),
     PyOk (mkSyncResult true 0 0 (Some h) None)).
Proof.
  destruct h as [|c h']; [congruence|].
  destruct old as [|c' o']; [congruence|].
  destruct w as [p cs]; simpl in Hmark; subst p.
  apply str_eqb_false in Hdiff_head.
  unfold sync_items, try_catch, sync_items_body, bind, get_codecommit_head,
    get_sync_marker, log, ask, ret; simpl.
  rewrite Hhead, Hget; simpl in Hinit |- *.
  rewrite Hinit; simpl; rewrite Hdiff_head; simpl.
  unfold get_changed_files, set_sync_marker, bind, log, ask, ret; simpl.
  rewrite Hdiff; simpl.
  destruct (ssm_put_ok env); simpl; rewrite <- !app_assoc; reflexivity.
Qed.

Lemma sync_items_diff_failure_is_empty_delta_witness :
  sync_items actor0 (env_with (Some head0) None no_files false) (world_at (Some old0)) =
    (mkWorld (if ssm_put_ok (env_with (Some head0) None no_files false)
              then Some head0 else Some old0)
       (calls (world_at (Some old0)) ++
        [CallGetBranch; CallGetParameter; CallGetDifferences old0 head0;
         CallPutParameter head0]),
     PyOk (mkSyncResult true 0 0 (Some head0) None)).
Proof.
  apply sync_items_diff_failure_is_empty_delta;
    [reflexivity | discriminate | reflexivity | reflexivity | discriminate
    | reflexivity | discriminate | reflexivity].
Defined.

(** * C10: a reported success does not imply the marker moved *)

Section MarkerFrame.

Lemma keeps_ret {A} (a : A) : keeps_marker (ret a).
Proof. intros env w _; reflexivity. Qed.

Lemma keeps_ask {A} (f : Env -> A) : keeps_marker (ask f).
Proof. intros env w _; reflexivity. Qed.

Lemma keeps_lift {A} (r : pyres A) : keeps_marker (lift r).
Proof. intros env w _; reflexivity. Qed.

Lemma keeps_log (c : Call) : keeps_marker (log c).
Proof. intros env w _; reflexivity. Qed.

Lemma keeps_bind {A B} (m : M A) (k : A -> M B) :
  keeps_marker m -> (forall a, keeps_marker (k a)) -> keeps_marker (bind m k).
Proof.
  intros Hm Hk env w Hput; unfold bind.
  specialize (Hm env w Hput).
  destruct (m env w) as [w' [e|a]]; simpl in *; [assumption|].
  rewrite Hk by assumption; assumption.
Qed.

Lemma keeps_try_catch {A} (m : M A) (h : exn -> M A) :
  keeps_marker m -> (forall e, keeps_marker (h e)) -> keeps_marker (try_catch m h).
Proof.
  intros Hm Hh env w Hput; unfold try_catch.
  specialize (Hm env w Hput).
  destruct (m env w) as [w' [e|a]]; simpl in *; [|assumption].
  rewrite Hh by assumption; assumption.
Qed.

Lemma keeps_attempt {A} (m : M A) : keeps_marker m -> keeps_marker (attempt m).
Proof.
  intros Hm env w Hput; unfold attempt.
  specialize (Hm env w Hput); destruct (m env w); exact Hm.
Qed.

Lemma keeps_if {A} (b : bool) (m1 m2 : M A) :
  keeps_marker m1 -> keeps_marker m2 -> keeps_marker (if b then m1 else m2).
Proof. destruct b; auto. Qed.

Create HintDb keeps.
#[local] Hint Resolve keeps_ret keeps_ask keeps_lift keeps_log keeps_bind
  keeps_try_catch keeps_attempt keeps_if : keeps.

Ltac keeps_step :=
  repeat (intros;
          match goal with
          | |- keeps_marker (bind _ _) => apply keeps_bind
          | |- keeps_marker (try_catch _ _) => apply keeps_try_catch
          | |- keeps_marker (if _ then _ else _) => apply keeps_if
          | |- keeps_marker (match ?x with _ => _ end) => destruct x
          | _ => eauto with keeps
          end).

Lemma keeps_set_sync_marker (v : str) : keeps_marker (set_sync_marker v).
Proof.
  unfold set_sync_marker; apply keeps_bind; [apply keeps_log|].
  intros _ env w Hput; rewrite Hput; reflexivity.
Qed.

Lemma keeps_get_sync_marker : keeps_marker get_sync_marker.
Proof.
  unfold get_sync_marker; apply keeps_bind; [apply keeps_log|].
  intros _ env w _; reflexivity.
Qed.

#[local] Hint Resolve keeps_set_sync_marker keeps_get_sync_marker : keeps.

Lemma keeps_store (a : str) (m : ItemMetadata) : keeps_marker (store_item_in_memory a m).
Proof. unfold store_item_in_memory; keeps_step. Qed.

Lemma keeps_sync_file (a p h : str) : keeps_marker (sync_file a p h).
Proof.
  unfold sync_file, get_file_content; keeps_step; apply keeps_store.
Qed.

#[local] Hint Resolve keeps_store keeps_sync_file : keeps.

Lemma keeps_delta_loop (a h : str) (fs : list ChangedFile) (s d : nat) :
  keeps_marker (delta_loop a h fs s d).
Proof.
  revert s d; induction fs as [|f fs IH]; intros s d; simpl; [apply keeps_ret|].
  unfold delete_item_from_memory; keeps_step.
Qed.

Lemma keeps_full_loop (a h : str) (fs : list ChangedFile) (s : nat) :
  keeps_marker (full_loop a h fs s).
Proof.
  revert s; induction fs as [|f fs IH]; intros s; simpl; keeps_step.
Qed.

Lemma keeps_all_item_files_loop (c : str) (fs : list str) :
  keeps_marker (get_all_item_files_loop c fs).
Proof. induction fs; simpl; keeps_step. Qed.

#[local] Hint Resolve keeps_delta_loop keeps_full_loop keeps_all_item_files_loop : keeps.

Lemma keeps_get_changed_files (o : option str) (n : str) :
  keeps_marker (get_changed_files o n).
Proof. unfold get_changed_files, get_all_item_files; keeps_step. Qed.

#[local] Hint Resolve keeps_get_changed_files : keeps.

Lemma keeps_sync_items (a : str) : keeps_marker (sync_items a).
Proof.
  unfold sync_items, sync_items_body, get_codecommit_head, get_all_item_files;
    keeps_step.
Qed.

End MarkerFrame.

Lemma bind_ok {A B} (m : M A) (k : A -> M B) env w w' (b : B) :
  bind m k env w = (w', PyOk b) ->
  exists w1 a, m env w = (w1, PyOk a) /\ k a env w1 = (w', PyOk b).
Proof.
  unfold bind; destruct (m env w) as [w1 [e|a]]; intros H; [discriminate|].
  eauto.
Qed.

Ltac inv_binds :=
  repeat match goal with
         | H : bind _ _ _ _ = (_, PyOk _) |- _ =>
             let w := fresh "w" in let a := fresh "a" in
             let H1 := fresh "Hstep" in
             apply bind_ok in H; destruct H as (w & a & H1 & H)
         | H : ret _ _ _ = (_, PyOk _) |- _ =>
             unfold ret in H; inversion H; subst; clear H
         end.

(** Every successful result of [sync_items] names the HEAD read at its
    start. *)
Lemma sync_items_success_commit (env : Env) (w w' : World) (a : str) (r : SyncResult) :
  sync_items a env w = (w', PyOk r) -> success r = true ->
  new_commit_id r = cc_branch env.
Proof.
  unfold sync_items, try_catch.
  destruct (sync_items_body a env w) as [w1 [e|r1]] eqn:E; intros H Hs.
  - unfold ret in H; inversion H; subst; discriminate.
  - inversion H; subst; clear H.
    unfold sync_items_body in E. inv_binds.
    unfold get_codecommit_head, bind, log, ask in Hstep; simpl in Hstep.
    inversion Hstep; subst; clear Hstep.
    destruct (cc_branch env) as [[|c h]|]; inv_binds; try discriminate;
      repeat match goal with
             | H : (if ?b then _ else _) _ _ = _ |- _ => destruct b
             end; inv_binds; reflexivity.
Qed.

(** C10. If the SSM write of the marker fails, no run of [sync_items]
    moves the marker, and a run that reports success still reports the
    HEAD it read as [new_commit_id]: success does not imply that the
    marker was advanced. *)
Theorem sync_items_success_without_marker_advance
  (env : Env) (w w' : World) (actor_id : str) (r : SyncResult)
  (Hput : ssm_put_ok env = false)
  (Hrun : sync_items actor_id env w = (w', PyOk r)) :
  ssm_param w' = ssm_param w /\
  (success r = true -> new_commit_id r = cc_branch env).
Proof.
  split.
  - pose proof (keeps_sync_items actor_id env w Hput) as K.
    rewrite Hrun in K; exact K.
  - apply (sync_items_success_commit env w w' actor_id r Hrun).
Qed.

(** A concrete run: the marker [old0] differs from HEAD, the delta is
    processed and reported as a success at [head0], and the marker is
    still [old0] afterwards. *)
Lemma sync_items_success_without_marker_advance_witness :
  match sync_items actor0 (env_with (Some head0) (Some []) no_files false)
          (world_at (Some old0)) with
  | (w', PyOk r) =>
      success r = true /\ new_commit_id r = Some head0 /\
      ssm_param w' = Some old0 /\ old0 <> head0
  | (_, PyExc _) => False
  end.
Proof.
  destruct (sync_items actor0 (env_with (Some head0) (Some []) no_files false)
              (world_at (Some old0))) as [w' [e|r]] eqn:E.
  - vm_compute in E; discriminate.
  - destruct (sync_items_success_without_marker_advance
                (env_with (Some head0) (Some []) no_files false)
                (world_at (Some old0)) w' actor0 r eq_refl E) as [Hm Hc].
    assert (Hs : success r = true) by (vm_compute in E; inversion E; reflexivity).
    split; [exact Hs|]. split; [exact (Hc Hs)|]. split; [exact Hm|].
    discriminate.
Defined.

(** * C3: failures during the health check *)

Section NoRaise.

Lemma no_raise_ret {A} (a : A) : no_raise (ret a).
Proof. intros env w; eexists _, _; reflexivity. Qed.

Lemma no_raise_ask {A} (f : Env -> A) : no_raise (ask f).
Proof. intros env w; eexists _, _; reflexivity. Qed.

Lemma no_raise_log (c : Call) : no_raise (log c).
Proof. intros env w; eexists _, _; reflexivity. Qed.

Lemma no_raise_attempt {A} (m : M A) : no_raise (attempt m).
Proof.
  intros env w; unfold attempt; destruct (m env w); eexists _, _; reflexivity.
Qed.

Lemma no_raise_bind {A B} (m : M A) (k : A -> M B) :
  no_raise m -> (forall a, no_raise (k a)) -> no_raise (bind m k).
Proof.
  intros Hm Hk env w; unfold bind.
  destruct (Hm env w) as (w1 & a & ->); apply Hk.
Qed.

Lemma no_raise_if {A} (b : bool) (m1 m2 : M A) :
  no_raise m1 -> no_raise m2 -> no_raise (if b then m1 else m2).
Proof. destruct b; auto. Qed.

Create HintDb noraise.
#[local] Hint Resolve no_raise_ret no_raise_ask no_raise_log no_raise_attempt
  no_raise_bind no_raise_if : noraise.

Ltac no_raise_step :=
  repeat (intros;
          match goal with
          | |- no_raise (bind _ _) => apply no_raise_bind
          | |- no_raise (if _ then _ else _) => apply no_raise_if
          | |- no_raise (match ?x with _ => _ end) => destruct x
          | _ => eauto with noraise
          end).

Lemma no_raise_all_item_files_loop (c : str) (fs : list str) :
  no_raise (get_all_item_files_loop c fs).
Proof. induction fs; simpl; no_raise_step. Qed.

#[local] Hint Resolve no_raise_all_item_files_loop : noraise.

Lemma no_raise_codecommit_items_loop (h : str) (fs : list ChangedFile)
  (items : list ItemMetadata) : no_raise (codecommit_items_loop h fs items).
Proof.
  revert items; induction fs as [|f fs IH]; intros items; simpl;
    unfold get_file_content; no_raise_step.
Qed.

#[local] Hint Resolve no_raise_codecommit_items_loop : noraise.

Lemma no_raise_get_all_codecommit_items : no_raise get_all_codecommit_items.
Proof.
  unfold get_all_codecommit_items, get_codecommit_head, get_all_item_files;
    no_raise_step.
Qed.

Lemma get_all_memory_items_client_ok (a : str) (env : Env) (w : World) (b : bool) :
  memory_client_init env = PyOk b ->
  exists w' B, get_all_memory_items a env w = (w', PyOk B) /\
               (mem_list env = None \/ b = false -> B = []).
Proof.
  intros Hc; unfold get_all_memory_items, memory_client, bind, log, ask, ret.
  rewrite Hc; destruct b; cbv beta iota zeta delta [negb].
  - destruct (mem_list env) as [texts|] eqn:El.
    + eexists _, _; split; [reflexivity|].
      intros [H|H]; discriminate.
    + eexists _, _; split; [reflexivity|]; intros _; reflexivity.
  - eexists _, _; split; [reflexivity|]; intros _; reflexivity.
Qed.

Lemma get_all_memory_items_client_raises (a : str) (env : Env) (w : World) (e : exn) :
  memory_client_init env = PyExc e -> get_all_memory_items a env w = (w, PyExc e).
Proof.
  intros Hc; unfold get_all_memory_items, memory_client, bind; rewrite Hc; reflexivity.
Qed.

End NoRaise.

(** C3 (counterexample). HEAD lookup and record listing both fail: the
    report has zero counts but [in_sync = true]. *)
Lemma health_report_failed_enumerations_in_sync :
  snd (get_health_report actor0 env_health_down (world_at None)) =
    PyOk (mkHealthReport 0 0 true None None [] []).
Proof. reflexivity. Qed.

(** C3 (amended).  [get_health_report] never raises: it always returns a
    report.  When building the Memory client raises (the [memory_client]
    property is read outside the [try] of [get_all_memory_items]), the
    exception reaches the [except] of [get_health_report], which returns
    the zero report with [in_sync = false].  Every other enumeration
    failure is absorbed by the two enumeration helpers, which return what
    they could read (nothing on the source side when the HEAD lookup
    fails, nothing on the index side when the listing fails or no client
    is configured), and the report is [health_core] of those partial
    enumerations. *)
Theorem get_health_report_absorbs_failures (env : Env) (w : World) (actor_id : str) :
  (forall e, memory_client_init env = PyExc e ->
     get_health_report actor_id env w =
       (fst (get_all_codecommit_items env w), PyOk failed_health_report)) /\
  (forall b, memory_client_init env = PyOk b ->
     exists w1 w2 A B,
       get_all_codecommit_items env w = (w1, PyOk A) /\
       get_all_memory_items actor_id env w1 = (w2, PyOk B) /\
       get_health_report actor_id env w =
         (mkWorld (ssm_param w2) (calls w2 ++ [CallGetBranch]),
          PyOk (health_core A B (cc_branch env))) /\
       (str_truthy (cc_branch env) = false -> A = []) /\
       (mem_list env = None \/ b = false -> B = [])).
Proof.
  destruct (no_raise_get_all_codecommit_items env w) as (w1 & A & HA).
  split.
  - intros e Hc.
    unfold get_health_report, try_catch, bind at 1.
    rewrite HA. unfold bind at 1.
    rewrite (get_all_memory_items_client_raises actor_id env w1 e Hc).
    reflexivity.
  - intros b Hc.
    destruct (get_all_memory_items_client_ok actor_id env w1 b Hc) as (w2 & B & HB & HBe).
    exists w1, w2, A, B.
    split; [exact HA|]. split; [exact HB|]. split.
    + unfold get_health_report, try_catch, bind at 1.
      rewrite HA. unfold bind at 1. rewrite HB. reflexivity.
    + split; [|exact HBe].
      intros Hh. unfold get_all_codecommit_items, get_codecommit_head, bind, log,
        ask in HA; simpl in HA.
      destruct (cc_branch env) as [[|c h]|]; simpl in Hh; try discriminate;
        unfold ret in HA; inversion HA; reflexivity.
Qed.

Lemma get_health_report_absorbs_failures_witness :
  get_health_report actor0 env_client_raises (world_at None) =
    (fst (get_all_codecommit_items env_client_raises (world_at None)),
     PyOk failed_health_report) /\
  exists w1 w2 A B,
    get_all_codecommit_items env_health_down (world_at None) = (w1, PyOk A) /\
    get_all_memory_items actor0 env_health_down w1 = (w2, PyOk B) /\
    get_health_report actor0 env_health_down (world_at None) =
      (mkWorld (ssm_param w2) (calls w2 ++ [CallGetBranch]),
       PyOk (health_core A B (cc_branch env_health_down))) /\
    (str_truthy (cc_branch env_health_down) = false -> A = []) /\
    (mem_list env_health_down = None \/ true = false -> B = []).
Proof.
  split.
  - exact (proj1 (get_health_report_absorbs_failures env_client_raises (world_at None)
                    actor0) client_error0 eq_refl).
  - exact (proj2 (get_health_report_absorbs_failures env_health_down (world_at None)
                    actor0) true eq_refl).
Defined.

(** * C4: reconciliation accuracy *)

Lemma existsb_str_eqb_In (i : str) (l : list str) :
  existsb (str_eqb i) l = true <-> In i l.
Proof.
  rewrite existsb_exists; split.
  - intros (x & Hx & He); apply str_eqb_true in He; subst; exact Hx.
  - intros H; exists i; split; [exact H | apply str_eqb_refl].
Qed.

Lemma set_diff_In (a b : list str) (i : str) :
  In i (set_diff a b) <-> In i a /\ ~ In i b.
Proof.
  unfold set_diff; rewrite filter_In, nodup_In, negb_true_iff.
  split.
  - intros [Ha Hb]; split; [exact Ha|].
    intros Hin; apply existsb_str_eqb_In in Hin; congruence.
  - intros [Ha Hb]; split; [exact Ha|].
    destruct (existsb (str_eqb i) b) eqn:E; [|reflexivity].
    apply existsb_str_eqb_In in E; contradiction.
Qed.

Lemma set_diff_NoDup (a b : list str) : NoDup (set_diff a b).
Proof. unfold set_diff; apply NoDup_filter, NoDup_nodup. Qed.

Lemma set_diff_nil (a b : list str) :
  set_diff a b = [] <-> forall i, In i a -> In i b.
Proof.
  split.
  - intros H i Ha. destruct (in_dec (list_eq_dec ascii_dec) i b) as [Hb|Hb];
      [exact Hb|].
    assert (Hd : In i (set_diff a b)) by (apply set_diff_In; auto).
    rewrite H in Hd; contradiction.
  - intros H. destruct (set_diff a b) as [|x l] eqn:E; [reflexivity|].
    assert (Hx : In x (set_diff a b)) by (rewrite E; left; reflexivity).
    apply set_diff_In in Hx as [Ha Hb]. exfalso; apply Hb, H, Ha.
Qed.

Lemma firstn_10_length_zero (l : list str) :
  (List.length (firstn 10 l) =? 0) = true <-> l = [].
Proof. destruct l; simpl; split; congruence. Qed.

(** C4. The health report lists [A \ B] and [B \ A] by sb_id, each a
    duplicate-free enumeration of the true difference cut to its first
    10 entries; the counts are the sizes of the two item collections;
    [in_sync] holds exactly when both true differences are empty, i.e.
    when the two id sets are equal, so equal counts over disjoint non-empty
    id sets give [in_sync = false]. *)
Theorem health_core_set_differences (A B : list ItemMetadata) (h : option str) :
  let ida := map sb_id A in
  let idb := map sb_id B in
  let r := health_core A B h in
  (forall i, In i (set_diff ida idb) <-> In i ida /\ ~ In i idb) /\
  (forall i, In i (set_diff idb ida) <-> In i idb /\ ~ In i ida) /\
  NoDup (set_diff ida idb) /\ NoDup (set_diff idb ida) /\
  missing_in_memory r = firstn 10 (set_diff ida idb) /\
  extra_in_memory r = firstn 10 (set_diff idb ida) /\
  codecommit_count r = List.length A /\ memory_count r = List.length B /\
  (in_sync r = true <-> set_diff ida idb = [] /\ set_diff idb ida = []) /\
  (in_sync r = true <-> forall i, In i ida <-> In i idb) /\
  (List.length A = List.length B -> A <> [] ->
   (forall i, In i ida -> ~ In i idb) -> in_sync r = false).
Proof.
  intros ida idb r.
  assert (Hsync : in_sync r = true <-> set_diff ida idb = [] /\ set_diff idb ida = []).
  { unfold r, health_core; cbn -[firstn set_diff List.length].
    rewrite andb_true_iff, !firstn_10_length_zero; reflexivity. }
  assert (Hsync' : in_sync r = true <-> forall i, In i ida <-> In i idb).
  { rewrite Hsync, !set_diff_nil; split.
    - intros [H1 H2] i; split; auto.
    - intros H; split; intros i; apply H. }
  split; [intros i; apply set_diff_In|].
  split; [intros i; apply set_diff_In|].
  split; [apply set_diff_NoDup|]. split; [apply set_diff_NoDup|].
  split; [reflexivity|]. split; [reflexivity|].
  split; [reflexivity|]. split; [reflexivity|].
  split; [exact Hsync|]. split; [exact Hsync'|].
  - intros Hlen Hne Hdis.
    destruct (in_sync r) eqn:E; [|reflexivity].
    destruct A as [|x A']; [congruence|].
    assert (Hx : In (sb_id x) ida) by (left; reflexivity).
    pose proof (proj1 Hsync' eq_refl (sb_id x)) as Hiff.
    exfalso; exact (Hdis (sb_id x) Hx (proj1 Hiff Hx)).
Qed.

Lemma health_core_set_differences_witness :
  List.length items_a = List.length items_b /\ items_a <> [] /\
  (forall i, In i (map sb_id items_a) -> ~ In i (map sb_id items_b)) /\
  in_sync (health_core items_a items_b (Some head0)) = false.
Proof.
  assert (Hdis : forall i, In i (map sb_id items_a) -> ~ In i (map sb_id items_b)).
  { intros i Ha Hb; simpl in Ha, Hb.
    destruct Ha as [<-|[<-|[]]]; destruct Hb as [Hb|[Hb|[]]]; discriminate. }
  split; [reflexivity|]. split; [discriminate|]. split; [exact Hdis|].
  destruct (health_core_set_differences items_a items_b (Some head0))
    as (_ & _ & _ & _ & _ & _ & _ & _ & _ & _ & H).
  apply H; [reflexivity | discriminate | exact Hdis].
Defined.

(** * C6, C8: a list-valued [id] in the front matter *)

(** C6. [extract_item_metadata] raises on front matter whose [id] is a
    YAML list: [re.match] receives a list and raises [TypeError] instead
    of the function returning [None]. *)
Theorem extract_item_metadata_raises_on_list_id :
  extract_item_metadata (lit "10-ideas/a.md") header_list_id = PyExc re_type_error.
Proof. reflexivity. Qed.

(** C8. [sync_single_item] on that content returns a failed result
    whose [error] is the raw exception text [str(e)]. *)
Theorem sync_single_item_error_is_raw_exception :
  sync_single_item actor0 (lit "10-ideas/a.md") header_list_id
    (env_with (Some head0) None no_files true) (world_at None) =
    (world_at None,
     PyOk (mkSyncResult false 0 0 None
             (Some (lit "expected string or bytes-like object, got 'list'")))).
Proof. reflexivity. Qed.

(** * C7: sb_id of a deleted file *)

(** C7. Delta sync over a single deleted file named by the repository's
    convention ([<date>__<slug>__sb-1234567.md]): the basename without
    [.md] does not start with [sb-], so no deletion is recorded and
    [items_deleted = 0]; a deleted [30-projects/sb-xyz.md], whose name
    is no sb_id, is marked deleted under the id [sb-xyz]. *)
Theorem sync_items_skips_conventional_deleted_file :
  (sync_items actor0
    (env_with (Some head0)
       (Some [mkDifference None (Some (lit "30-projects/sb-xyz.md")) (Some (lit "D"))])
       no_files true)
    (world_at (Some old0)) =
    (mkWorld (Some head0)
       [CallGetBranch; CallGetParameter; CallGetDifferences old0 head0;
        CallMarkDeleted actor0 (lit "sb-xyz"); CallPutParameter head0],
     PyOk (mkSyncResult true 0 1 (Some head0) None))) /\
  sync_items actor0
    (env_with (Some head0)
       (Some [mkDifference None (Some deleted_path0) (Some (lit "D"))])
       no_files true)
    (world_at (Some old0)) =
    (mkWorld (Some head0)
       [CallGetBranch; CallGetParameter; CallGetDifferences old0 head0;
        CallPutParameter head0],
     PyOk (mkSyncResult true 0 0 (Some head0) None)).
Proof. split; reflexivity. Qed.

(** * Lines of the memory text *)

Lemma split_on_nonnil (c : ascii) (s : str) : split_on c s <> [].
Proof.
  destruct s as [|d s]; simpl; [discriminate|].
  destruct (Ascii.eqb d c); [discriminate|].
  destruct (split_on c s); discriminate.
Qed.

Lemma split_on_app_free (c : ascii) (x y : str) :
  ~ In c x ->
  split_on c (x ++ y) = (x ++ hd [] (split_on c y)) :: tl (split_on c y).
Proof.
  induction x as [|d x IH]; intros Hx; simpl.
  - destruct (split_on c y) eqn:E; [exfalso; exact (split_on_nonnil c y E)|].
    reflexivity.
  - assert (Hd : Ascii.eqb d c = false).
    { apply Ascii.eqb_neq; intros ->; apply Hx; left; reflexivity. }
    rewrite Hd, IH by (intros H; apply Hx; right; exact H); reflexivity.
Qed.

Lemma split_on_join (c : ascii) (ls : list str) :
  ls <> [] -> Forall (fun l => ~ In c l) ls ->
  split_on c (join [c] ls) = ls.
Proof.
  induction ls as [|l ls IH]; intros Hne Hf; [congruence|].
  inversion Hf as [|? ? Hl Hls]; subst.
  destruct ls as [|l' ls'].
  - simpl join. rewrite <- (app_nil_r l), split_on_app_free by exact Hl.
    simpl; rewrite !app_nil_r; reflexivity.
  - change (join [c] (l :: l' :: ls')) with (l ++ [c] ++ join [c] (l' :: ls')).
    rewrite split_on_app_free by exact Hl.
    change ([c] ++ join [c] (l' :: ls')) with (c :: join [c] (l' :: ls')).
    cbn [split_on]. rewrite Ascii.eqb_refl. cbn [hd tl].
    rewrite app_nil_r, IH by (discriminate || exact Hls). reflexivity.
Qed.

Lemma not_in_app (c : ascii) (x y : str) : ~ In c x -> ~ In c y -> ~ In c (x ++ y).
Proof. intros Hx Hy H; apply in_app_or in H as [H|H]; auto. Qed.

Lemma join_free (c : ascii) (sep : str) (ls : list str) :
  ~ In c sep -> Forall (fun l => ~ In c l) ls -> ~ In c (join sep ls).
Proof.
  intros Hsep; induction ls as [|l ls IH]; intros Hf; [intros []|].
  inversion Hf as [|? ? Hl Hls]; subst.
  destruct ls as [|l' ls']; [exact Hl|].
  change (join sep (l :: l' :: ls')) with (l ++ sep ++ join sep (l' :: ls')).
  repeat apply not_in_app; auto.
Qed.

(** C9 (counterexample). [_parse_memory_item] accepts a record of type
    [idea] with a status; rendering that metadata value again gives a
    [Status:] line for a non-project type. *)
Lemma idea_metadata_with_status_line :
  match parse_memory_item record_idea_status with
  | Some m =>
      item_type m = YStr (lit "idea") /\
      existsb (startswith (lit "Status: ")) (split_on nl (to_memory_text m)) = true
  | None => False
  end.
Proof. vm_compute. split; reflexivity. Qed.

Ltac destruct_matches_in H :=
  repeat match type of H with
         | context [match ?x with _ => _ end] => destruct x eqn:?; simpl in H
         end.

(** Extraction drops the status of every item whose type is not the
    string [project]. *)
Lemma extract_non_project_no_status (p c : str) (m : ItemMetadata) :
  extract_item_metadata p c = PyOk (Some m) ->
  item_type m <> YStr (lit "project") -> status m = None.
Proof.
  unfold extract_item_metadata; intros H Hty.
  destruct_matches_in H; try discriminate;
    inversion H; subst; clear H; simpl in *; try reflexivity.
  all: exfalso; apply Hty; f_equal; apply str_eqb_true; assumption.
Qed.

(** C9 (amended). When no field holds a newline, the lines of
    [to_memory_text m] are exactly Item, ID, Type, Path, then a Tags line
    iff [tags] is non-empty, then a Status line iff [status] is truthy
    (non-empty); the type is not consulted.  Metadata extracted from a
    header has no status unless its type is [project], so its text has no
    Status line then. *)
Theorem to_memory_text_line_structure (m : ItemMetadata)
  (Hti : ~ In nl (py_str (title m))) (Hid : ~ In nl (sb_id m))
  (Hty : ~ In nl (py_str (item_type m))) (Hp : ~ In nl (path m))
  (Htags : Forall (fun t => ~ In nl t) (tags m))
  (Hst : forall v, status m = Some v -> ~ In nl (py_str v)) :
  split_on nl (to_memory_text m) = memory_text_lines m /\
  (forall p c m', extract_item_metadata p c = PyOk (Some m') ->
   item_type m' <> YStr (lit "project") ->
   status m' = None /\
   memory_text_lines m' =
     [lit "Item: " ++ py_str (title m'); lit "ID: " ++ sb_id m';
      lit "Type: " ++ py_str (item_type m'); lit "Path: " ++ path m']
     ++ match tags m' with
        | [] => []
        | tg => [lit "Tags: " ++ join (lit ", ") tg]
        end).
Proof.
  split.
  - unfold to_memory_text; fold (memory_text_lines m).
    apply split_on_join; [discriminate|].
    assert (Hfree : forall q v, ~ In nl q -> ~ In nl v -> ~ In nl (q ++ v))
      by (intros; apply not_in_app; assumption).
    unfold memory_text_lines.
    repeat apply Forall_cons; try (apply Hfree; [simpl; intuition discriminate|];
                                   assumption).
    apply Forall_app; split.
    + destruct (tags m) eqn:Et; [constructor|].
      constructor; [|constructor].
      apply Hfree; [simpl; intuition discriminate|].
      apply join_free; [simpl; intuition discriminate|]. exact Htags.
    + destruct (truthy (status m)); [|constructor].
      destruct (status m) as [v|] eqn:Es; [|constructor].
      constructor; [|constructor].
      apply Hfree; [simpl; intuition discriminate|]. apply Hst; reflexivity.
  - intros p c m' Hx Hnp.
    pose proof (extract_non_project_no_status p c m' Hx Hnp) as Hs.
    split; [exact Hs|].
    unfold memory_text_lines; rewrite Hs, app_nil_r; reflexivity.
Qed.

Lemma to_memory_text_line_structure_witness :
  split_on nl (to_memory_text item_project) = memory_text_lines item_project /\
  (forall p c m', extract_item_metadata p c = PyOk (Some m') ->
   item_type m' <> YStr (lit "project") ->
   status m' = None /\
   memory_text_lines m' =
     [lit "Item: " ++ py_str (title m'); lit "ID: " ++ sb_id m';
      lit "Type: " ++ py_str (item_type m'); lit "Path: " ++ path m']
     ++ match tags m' with
        | [] => []
        | tg => [lit "Tags: " ++ join (lit ", ") tg]
        end).
Proof.
  apply to_memory_text_line_structure;
    [ vm_compute; intros H; repeat (destruct H as [H|H]; [discriminate H|]); exact H ..
    | repeat constructor; vm_compute; intros H;
      repeat (destruct H as [H|H]; [discriminate H|]); exact H
    | intros v Hv; injection Hv as <-; vm_compute; intros H;
      repeat (destruct H as [H|H]; [discriminate H|]); exact H ].
Defined.

(* -------------------------------------------------------------------- *)
(** * C5: round trip through the memory text *)

Lemma lstrip_length (s : str) : List.length (lstrip s) <= List.length s.
Proof.
  induction s as [|c s IH]; simpl; [lia|].
  destruct (is_space c); simpl; lia.
Qed.

Lemma lstrip_fixed_head (c : ascii) (s : str) :
  lstrip (c :: s) = c :: s -> is_space c = false.
Proof.
  simpl; destruct (is_space c) eqn:E; [|reflexivity].
  intros H; pose proof (lstrip_length s) as L; rewrite H in L; simpl in L; lia.
Qed.

Lemma lstrip_app (a b : str) : lstrip a = a -> a <> [] -> lstrip (a ++ b) = a ++ b.
Proof.
  destruct a as [|c a]; [congruence|].
  intros H _; apply lstrip_fixed_head in H; simpl; rewrite H; reflexivity.
Qed.

Lemma rstrip_app (x v : str) : rstrip v = v -> v <> [] -> rstrip (x ++ v) = x ++ v.
Proof.
  unfold rstrip; intros H Hne.
  assert (Hl : lstrip (rev v) = rev v).
  { rewrite <- (rev_involutive (lstrip (rev v))), H; reflexivity. }
  rewrite rev_app_distr, lstrip_app, rev_app_distr, !rev_involutive; [reflexivity|exact Hl|].
  intros E; apply Hne; rewrite <- (rev_involutive v), E; reflexivity.
Qed.

Lemma strip_stripped (v : str) : stripped v -> strip v = v.
Proof. intros (_ & Hl & Hr); unfold strip; rewrite Hl; exact Hr. Qed.

Lemma stripped_app (a sep b : str) : stripped a -> stripped b -> stripped (a ++ sep ++ b).
Proof.
  intros (Ha & Hla & _) (Hb & _ & Hrb); repeat split.
  - destruct a; [congruence|discriminate].
  - apply lstrip_app; assumption.
  - rewrite app_assoc; apply rstrip_app; assumption.
Qed.

Lemma stripped_join (sep : str) (ls : list str) :
  Forall stripped ls -> ls <> [] -> stripped (join sep ls).
Proof.
  induction ls as [|l ls IH]; intros Hf Hne; [congruence|].
  inversion Hf as [|? ? Hl Hls]; subst.
  destruct ls as [|l' ls]; [exact Hl|].
  change (join sep (l :: l' :: ls)) with (l ++ sep ++ join sep (l' :: ls)).
  apply stripped_app; [exact Hl|apply IH; [exact Hls|discriminate]].
Qed.

Lemma clean_field_stripped (v : str) : clean_field v = true -> stripped v.
Proof.
  unfold clean_field; destruct v as [|c v']; [discriminate|].
  rewrite !andb_true_iff, !negb_true_iff; intros [[[Hc Hlast] _] _].
  assert (Hl : lstrip (c :: v') = c :: v') by (simpl; rewrite Hc; reflexivity).
  repeat split; [discriminate|exact Hl|].
  set (v := c :: v') in *.
  assert (Hne : v <> []) by discriminate.
  rewrite (app_removelast_last c Hne).
  apply rstrip_app; [|discriminate].
  unfold rstrip; cbn [rev app lstrip]; rewrite Hlast; reflexivity.
Qed.

Lemma clean_field_no_nl (v : str) : clean_field v = true -> ~ In nl v.
Proof.
  unfold clean_field; rewrite !andb_true_iff, !negb_true_iff; intros [[_ H] _] Hin.
  assert (E : existsb (Ascii.eqb nl) v = true).
  { apply existsb_exists; exists nl; split; [exact Hin|apply Ascii.eqb_refl]. }
  congruence.
Qed.

Lemma clean_field_no_marker (v : str) :
  clean_field v = true -> contains sync_marker_text v = false.
Proof. unfold clean_field; rewrite !andb_true_iff, !negb_true_iff; tauto. Qed.

Lemma strip_space (v : str) : strip (" "%char :: v) = strip v.
Proof. reflexivity. Qed.

Lemma startswith_before_free (c : ascii) (p z y : str) :
  ~ In c p -> startswith p (z ++ c :: y) = true -> startswith p z = true.
Proof.
  revert z; induction p as [|e p IH]; intros z Hc H; [reflexivity|].
  destruct z as [|d z]; simpl in H |- *; rewrite andb_true_iff in *.
  - destruct H as [He _]; apply Ascii.eqb_eq in He; subst.
    exfalso; apply Hc; left; reflexivity.
  - destruct H as [He Hs]; split; [exact He|].
    apply (IH z); [intros Hin; apply Hc; right; exact Hin|exact Hs].
Qed.

Lemma contains_around_sep (c : ascii) (p x y : str) :
  ~ In c p -> contains p (x ++ c :: y) = true ->
  contains p x = true \/ contains p y = true.
Proof.
  intros Hc; induction x as [|d x IH]; intros H.
  - simpl in H; apply orb_true_iff in H as [H|H]; [|right; exact H].
    destruct p as [|e p]; [left; reflexivity|].
    simpl in H; apply andb_true_iff in H as [He _]; apply Ascii.eqb_eq in He; subst.
    exfalso; apply Hc; left; reflexivity.
  - change (d :: x ++ c :: y) with ((d :: x) ++ c :: y) in H.
    simpl in H; apply orb_true_iff in H as [H|H].
    + left; simpl; apply orb_true_iff; left.
      exact (startswith_before_free c p (d :: x) y Hc H).
    + destruct (IH H) as [Hx|Hy]; [left|right; exact Hy].
      simpl; rewrite Hx, orb_true_r; reflexivity.
Qed.

Lemma contains_skip_prefix (a : ascii) (p q v : str) :
  ~ In a q -> contains (a :: p) (q ++ v) = true -> contains (a :: p) v = true.
Proof.
  induction q as [|d q IH]; intros Ha H; [exact H|].
  simpl in H; apply orb_true_iff in H as [H|H].
  - apply andb_true_iff in H as [He _]; apply Ascii.eqb_eq in He; subst.
    exfalso; apply Ha; left; reflexivity.
  - apply IH; [intros Hin; apply Ha; right; exact Hin|exact H].
Qed.

Lemma contains_prefix_false (a : ascii) (p q v : str) :
  ~ In a q -> contains (a :: p) v = false -> contains (a :: p) (q ++ v) = false.
Proof.
  intros Ha Hv; destruct (contains (a :: p) (q ++ v)) eqn:E; [|reflexivity].
  rewrite (contains_skip_prefix a p q v Ha E) in Hv; discriminate.
Qed.

Lemma contains_join_false (c a : ascii) (p q : str) (ls : list str) :
  ~ In c (a :: p) -> ~ In a q ->
  Forall (fun l => contains (a :: p) l = false) ls ->
  contains (a :: p) (join (c :: q) ls) = false.
Proof.
  intros Hc Ha; induction ls as [|l ls IH]; intros Hf; [reflexivity|].
  inversion Hf as [|? ? Hl Hls]; subst.
  destruct ls as [|l' ls]; [exact Hl|].
  change (join (c :: q) (l :: l' :: ls)) with (l ++ c :: (q ++ join (c :: q) (l' :: ls))).
  destruct (contains (a :: p) (l ++ c :: (q ++ join (c :: q) (l' :: ls)))) eqn:E;
    [|reflexivity].
  destruct (contains_around_sep c _ _ _ Hc E) as [E'|E'].
  - rewrite Hl in E'; discriminate.
  - apply contains_skip_prefix in E'; [|exact Ha].
    rewrite (IH Hls) in E'; discriminate.
Qed.

Lemma split_on_join_sep (c : ascii) (q : str) (ls : list str) :
  ~ In c q -> Forall (fun l => ~ In c l) ls ->
  split_on c (join (c :: q) ls) =
  match ls with [] => [[]] | l :: r => l :: map (app q) r end.
Proof.
  intros Hq; induction ls as [|l ls IH]; intros Hf; [reflexivity|].
  inversion Hf as [|? ? Hl Hls]; subst.
  destruct ls as [|l' ls].
  - simpl; rewrite <- (app_nil_r l) at 1.
    rewrite split_on_app_free by exact Hl; rewrite app_nil_r; reflexivity.
  - change (join (c :: q) (l :: l' :: ls)) with (l ++ c :: (q ++ join (c :: q) (l' :: ls))).
    rewrite split_on_app_free by exact Hl.
    cbn [split_on]; rewrite Ascii.eqb_refl; cbn [hd tl].
    rewrite split_on_app_free by exact Hq.
    rewrite (IH Hls); cbn [hd tl map]; rewrite app_nil_r; reflexivity.
Qed.

Lemma stripped_prefix (c : ascii) (q v : str) :
  is_space c = false -> stripped v -> stripped ((c :: q) ++ v).
Proof.
  intros Hc (Hv & _ & Hr); repeat split.
  - discriminate.
  - apply lstrip_app; [simpl; rewrite Hc; reflexivity|discriminate].
  - apply rstrip_app; assumption.
Qed.

Lemma tag_ok_props (t : str) : tag_ok t = true -> clean_field t = true /\ ~ In ","%char t.
Proof.
  unfold tag_ok; rewrite andb_true_iff, negb_true_iff; intros [Hc Hn]; split; [exact Hc|].
  intros Hin.
  assert (E : existsb (Ascii.eqb ","%char) t = true).
  { apply existsb_exists; exists ","%char; split; [exact Hin|apply Ascii.eqb_refl]. }
  congruence.
Qed.

Lemma tags_ok_Forall (tg : list str) :
  forallb tag_ok tg = true -> Forall (fun t => clean_field t = true /\ ~ In ","%char t) tg.
Proof.
  intros H; apply Forall_forall; intros t Ht.
  apply tag_ok_props; rewrite forallb_forall in H; exact (H t Ht).
Qed.

Lemma mem_line_item a b c d e f (v : str) :
  mem_line (mkMemParse a b c d e f) (lit "Item: " ++ v) = mkMemParse (Some (strip v)) b c d e f.
Proof. reflexivity. Qed.

Lemma mem_line_id a b c d e f (v : str) :
  mem_line (mkMemParse a b c d e f) (lit "ID: " ++ v) = mkMemParse a (Some (strip v)) c d e f.
Proof. reflexivity. Qed.

Lemma mem_line_type a b c d e f (v : str) :
  mem_line (mkMemParse a b c d e f) (lit "Type: " ++ v) = mkMemParse a b (Some (strip v)) d e f.
Proof. reflexivity. Qed.

Lemma mem_line_path a b c d e f (v : str) :
  mem_line (mkMemParse a b c d e f) (lit "Path: " ++ v) = mkMemParse a b c (Some (strip v)) e f.
Proof. reflexivity. Qed.

Lemma mem_line_tags a b c d e f (v : str) :
  mem_line (mkMemParse a b c d e f) (lit "Tags: " ++ v) =
  mkMemParse a b c d
    (map strip (filter (fun t => str_truthy (Some (strip t)))
                       (split_on ","%char (strip v)))) f.
Proof. reflexivity. Qed.

Lemma mem_line_status a b c d e f (v : str) :
  mem_line (mkMemParse a b c d e f) (lit "Status: " ++ v) = mkMemParse a b c d e (Some (strip v)).
Proof. reflexivity. Qed.

Lemma tags_of_spaced (r : list str) :
  Forall stripped r ->
  map strip (filter (fun t => str_truthy (Some (strip t))) (map (app [" "%char]) r)) = r.
Proof.
  induction r as [|x r IH]; intros Hf; [reflexivity|].
  inversion Hf as [|? ? Hx Hr]; subst.
  change (map (app [" "%char]) (x :: r)) with ((" "%char :: x) :: map (app [" "%char]) r).
  cbn [filter]; rewrite strip_space, (strip_stripped x Hx).
  destruct x as [|y x]; [destruct Hx as [Hne _]; congruence|].
  change (str_truthy (Some (y :: x))) with true; cbn [map].
  rewrite strip_space, (strip_stripped _ Hx), (IH Hr); reflexivity.
Qed.

Lemma tags_of_join (tg : list str) :
  Forall (fun t => clean_field t = true /\ ~ In ","%char t) tg -> tg <> [] ->
  map strip (filter (fun t => str_truthy (Some (strip t)))
                    (split_on ","%char (strip (join (lit ", ") tg)))) = tg.
Proof.
  intros Hf Hne.
  assert (Hs : Forall stripped tg).
  { eapply Forall_impl; [|exact Hf]; intros t [Ht _]; apply clean_field_stripped, Ht. }
  rewrite (strip_stripped _ (stripped_join _ _ Hs Hne)).
  change (lit ", ") with (","%char :: [" "%char]).
  rewrite split_on_join_sep;
    [|simpl; intuition discriminate
     |eapply Forall_impl; [|exact Hf]; intros t [_ Ht]; exact Ht].
  destruct tg as [|x r]; [congruence|].
  inversion Hs as [|? ? Hx Hr]; subst.
  destruct x as [|y x]; [destruct Hx as [Hx0 _]; congruence|].
  cbn [filter map]; rewrite (strip_stripped _ Hx).
  change (str_truthy (Some (y :: x))) with true; cbn [map].
  rewrite (strip_stripped _ Hx), (tags_of_spaced r Hr); reflexivity.
Qed.

Ltac not_in_lit :=
  let H := fresh "H" in
  intro H; vm_compute in H; repeat (destruct H as [H|H]; [discriminate H|]); exact H.

Lemma line_ok_props (v : str) :
  line_ok v = true ->
  ~ In nl v /\ forallb is_space v = false /\ contains sync_marker_text v = false.
Proof.
  unfold line_ok; rewrite !andb_true_iff, !negb_true_iff; intros [[Hn Hb] Hm].
  split; [|split; assumption].
  intros Hin.
  assert (E : existsb (Ascii.eqb nl) v = true).
  { apply existsb_exists; exists nl; split; [exact Hin|apply Ascii.eqb_refl]. }
  congruence.
Qed.

Lemma forallb_space_lstrip (v : str) : forallb is_space (lstrip v) = forallb is_space v.
Proof.
  induction v as [|c v IH]; [reflexivity|].
  cbn [lstrip forallb]; destruct (is_space c) eqn:E; [exact IH|].
  cbn [forallb]; rewrite E; reflexivity.
Qed.

Lemma forallb_space_rev (v : str) : forallb is_space (rev v) = forallb is_space v.
Proof.
  induction v as [|c v IH]; [reflexivity|].
  cbn [rev forallb]; rewrite forallb_app, IH; cbn [forallb].
  rewrite andb_true_r, andb_comm; reflexivity.
Qed.

Lemma forallb_space_rstrip (v : str) : forallb is_space (rstrip v) = forallb is_space v.
Proof. unfold rstrip; rewrite forallb_space_rev, forallb_space_lstrip, forallb_space_rev; reflexivity. Qed.

Lemma strip_cons (v : str) : forallb is_space v = false -> exists c r, strip v = c :: r.
Proof.
  intros H; unfold strip; rewrite <- forallb_space_lstrip, <- forallb_space_rstrip in H.
  destruct (rstrip (lstrip v)) as [|c r]; [discriminate H|eauto].
Qed.

Lemma rstrip_nonempty (v : str) : forallb is_space v = false -> rstrip v <> [].
Proof. intros H E; rewrite <- forallb_space_rstrip, E in H; discriminate H. Qed.

Lemma stripped_rstrip_ne (v : str) : stripped v -> rstrip v <> [].
Proof. intros (Hne & _ & Hr); rewrite Hr; exact Hne. Qed.

Lemma stripped_rstrip (v : str) : stripped v -> rstrip v = v.
Proof. intros (_ & _ & Hr); exact Hr. Qed.

Lemma lstrip_app_gen (x y : str) : lstrip x <> [] -> lstrip (x ++ y) = lstrip x ++ y.
Proof.
  induction x as [|c x IH]; cbn [lstrip app]; [congruence|].
  destruct (is_space c); [exact IH|intros _; reflexivity].
Qed.

Lemma rstrip_app_gen (x v : str) : rstrip v <> [] -> rstrip (x ++ v) = x ++ rstrip v.
Proof.
  unfold rstrip; intros H.
  rewrite rev_app_distr, lstrip_app_gen, rev_app_distr, rev_involutive; [reflexivity|].
  intros E; apply H; rewrite E; reflexivity.
Qed.

Lemma In_lstrip (c : ascii) (v : str) : In c (lstrip v) -> In c v.
Proof.
  induction v as [|d v IH]; cbn [lstrip]; [tauto|].
  destruct (is_space d); [intros H; right; exact (IH H)|tauto].
Qed.

Lemma In_rstrip (c : ascii) (v : str) : In c (rstrip v) -> In c v.
Proof.
  unfold rstrip; intros H.
  apply in_rev, In_lstrip in H.
  apply in_rev; exact H.
Qed.

Lemma join_nl_last_nonempty (x : list str) (l : str) : l <> [] -> join [nl] (x ++ [l]) <> [].
Proof.
  intros H; destruct x as [|a x]; [exact H|].
  change ((a :: x) ++ [l]) with (a :: (x ++ [l])).
  destruct (x ++ [l]) as [|b r] eqn:E; [destruct x; discriminate E|].
  change (join [nl] (a :: b :: r)) with (a ++ [nl] ++ join [nl] (b :: r)).
  intros F; apply app_eq_nil in F as [_ F]; discriminate F.
Qed.

Lemma rstrip_join_last (x : list str) (l : str) :
  rstrip l <> [] -> rstrip (join [nl] (x ++ [l])) = join [nl] (x ++ [rstrip l]).
Proof.
  intros H; induction x as [|a x IH]; [reflexivity|].
  destruct x as [|b x].
  - change (join [nl] ([a] ++ [l])) with (a ++ [nl] ++ l).
    change (join [nl] ([a] ++ [rstrip l])) with (a ++ [nl] ++ rstrip l).
    rewrite app_assoc, rstrip_app_gen by exact H; rewrite app_assoc; reflexivity.
  - change (join [nl] ((a :: b :: x) ++ [l]))
      with (a ++ [nl] ++ join [nl] ((b :: x) ++ [l])).
    change (join [nl] ((a :: b :: x) ++ [rstrip l]))
      with (a ++ [nl] ++ join [nl] ((b :: x) ++ [rstrip l])).
    rewrite app_assoc, rstrip_app_gen.
    + rewrite IH, app_assoc; reflexivity.
    + rewrite IH; apply join_nl_last_nonempty, H.
Qed.

(** Stripping the stored text only touches the end of its last line. *)
Lemma strip_lines (L : list str) (a : ascii) (l0 : str) :
  hd [] L = a :: l0 -> is_space a = false -> rstrip (last L []) <> [] ->
  strip (join [nl] L) = join [nl] (removelast L ++ [rstrip (last L [])]).
Proof.
  intros Hh Ha Hl.
  assert (HL : L <> []) by (intros ->; discriminate Hh).
  assert (E : exists s, join [nl] L = a :: s).
  { destruct L as [|x [|y r]]; [discriminate Hh| |]; cbn [hd] in Hh; subst x;
      eexists; reflexivity. }
  destruct E as [s E]; unfold strip; rewrite E; cbn [lstrip]; rewrite Ha, <- E.
  rewrite (app_removelast_last [] HL) at 1.
  apply rstrip_join_last, Hl.
Qed.

Lemma prefix_no_marker (q v : str) :
  ~ In "L"%char q -> contains sync_marker_text v = false ->
  contains sync_marker_text (q ++ v) = false.
Proof. intros Hq Hv; apply contains_prefix_false; assumption. Qed.

Lemma lines_no_marker (L : list str) :
  Forall (fun l => contains sync_marker_text l = false) L ->
  contains sync_marker_text (join [nl] L) = false.
Proof.
  change sync_marker_text with ("L"%char :: lit "ast synced commit:").
  change [nl] with (nl :: []).
  apply contains_join_false; [not_in_lit|intros []].
Qed.

Lemma tags_stripped (tg : list str) :
  Forall (fun t => clean_field t = true /\ ~ In ","%char t) tg -> tg <> [] ->
  stripped (join (lit ", ") tg).
Proof.
  intros Hf Hne; apply stripped_join; [|exact Hne].
  eapply Forall_impl; [|exact Hf]; intros v [Hv _]; exact (clean_field_stripped v Hv).
Qed.

Lemma tags_no_marker (tg : list str) :
  Forall (fun t => clean_field t = true /\ ~ In ","%char t) tg ->
  contains sync_marker_text (join (lit ", ") tg) = false.
Proof.
  intros Hf; change sync_marker_text with ("L"%char :: lit "ast synced commit:").
  apply contains_join_false; [not_in_lit|not_in_lit|].
  eapply Forall_impl; [|exact Hf]; intros v [Hv _]; exact (clean_field_no_marker v Hv).
Qed.

Lemma tags_no_nl (tg : list str) :
  Forall (fun t => clean_field t = true /\ ~ In ","%char t) tg ->
  ~ In nl (join (lit ", ") tg).
Proof.
  intros Hf; apply join_free; [not_in_lit|].
  eapply Forall_impl; [|exact Hf]; intros v [Hv _]; exact (clean_field_no_nl v Hv).
Qed.

Lemma rstrip_line_ne (c : ascii) (q v : str) : rstrip v <> [] -> rstrip ((c :: q) ++ v) <> [].
Proof. intros H; rewrite rstrip_app_gen by exact H; discriminate. Qed.

Ltac each_line tac :=
  repeat (apply Forall_cons; [cbv beta; tac|]); apply Forall_nil.

(** The id, type, tags and status of a metadata value come back from its
    stored text; the title and path only need to survive as non-blank
    single lines without the sync-marker text. *)
Lemma round_trip_core (m : ItemMetadata) (ty : str) (st : option str) :
  item_type m = YStr ty -> status m = option_map YStr st ->
  clean_field (sb_id m) = true -> match_sb_id (sb_id m) = true ->
  line_ok (py_str (title m)) = true -> clean_field ty = true ->
  line_ok (path m) = true -> forallb tag_ok (tags m) = true ->
  (forall s, st = Some s -> clean_field s = true) ->
  exists t' p', parse_memory_item (to_memory_text m) =
    Some (mkItem (sb_id m) (YStr t') (YStr ty) p' (tags m) (option_map YStr st)).
Proof.
  destruct m as [i ti ty0 p tg st0]; cbn [sb_id title item_type path tags status].
  intros -> -> Hi Hsb Ht Hty Hp Htg Hst.
  destruct (line_ok_props _ Ht) as (Htn & Htb & Htm).
  destruct (line_ok_props _ Hp) as (Hpn & Hpb & Hpm).
  pose proof (clean_field_no_marker _ Hi) as Him.
  pose proof (clean_field_no_marker _ Hty) as Hym.
  pose proof (clean_field_no_nl _ Hi) as Hin.
  pose proof (clean_field_no_nl _ Hty) as Hyn.
  pose proof (clean_field_stripped _ Hi) as His.
  pose proof (clean_field_stripped _ Hty) as Hys.
  pose proof (tags_ok_Forall tg Htg) as Htg'.
  set (m := mkItem i ti (YStr ty) p tg (option_map YStr st)).
  change (to_memory_text m) with (join [nl] (memory_text_lines m)).
  unfold m, memory_text_lines; cbn [title item_type sb_id path tags status py_str].
  unfold parse_memory_item.
  destruct i as [|ci i]; [discriminate Hi|].
  destruct ty as [|cy ty]; [discriminate Hty|].
  destruct st as [s|].
  1: pose proof (Hst s eq_refl) as Hsc;
     pose proof (clean_field_no_marker _ Hsc) as Hsm;
     pose proof (clean_field_no_nl _ Hsc) as Hsn;
     pose proof (clean_field_stripped _ Hsc) as Hss;
     destruct s as [|c0 s]; [discriminate Hsc|].
  all: destruct tg as [|g gs].
  all: cbn [option_map truthy py_str app].
  (* the text does not contain the sync marker *)
  all: rewrite lines_no_marker by
         (each_line ltac:(apply prefix_no_marker; [not_in_lit|];
                          first [assumption|apply tags_no_marker; assumption])).
  (* stripping the text only strips the end of its last line *)
  all: erewrite (strip_lines _ "I"%char) by
         first [ reflexivity
               | cbn [last]; apply rstrip_line_ne;
                 first [ apply rstrip_nonempty; assumption
                       | apply stripped_rstrip_ne;
                         first [assumption|apply tags_stripped; [assumption|discriminate]] ] ].
  all: cbn [removelast last app].
  all: rewrite rstrip_app_gen by
         first [ apply rstrip_nonempty; assumption
               | apply stripped_rstrip_ne;
                 first [assumption|apply tags_stripped; [assumption|discriminate]] ].
  all: rewrite ?stripped_rstrip by
         first [assumption|apply tags_stripped; [assumption|discriminate]].
  (* splitting on newlines gives back the lines *)
  all: rewrite split_on_join by
         first
           [ discriminate
           | each_line ltac:(apply not_in_app; [not_in_lit|];
               first
                 [ assumption
                 | let H := fresh "H" in intros H; apply In_rstrip in H; contradiction
                 | apply tags_no_nl; assumption ]) ].
  (* the parser state after all lines *)
  all: cbn [fold_left]; unfold mem_parse_init.
  all: rewrite mem_line_item, mem_line_id, mem_line_type, mem_line_path,
         ?mem_line_tags, ?mem_line_status.
  all: rewrite (strip_stripped _ His), (strip_stripped _ Hys).
  all: try rewrite (tags_of_join (g :: gs) Htg' ltac:(discriminate)).
  all: try rewrite (strip_stripped _ Hss).
  all: repeat match goal with
       | |- context [strip ?v] =>
           let c := fresh "c" in let r := fresh "r" in let E := fresh "E" in
           let Hb := fresh "Hb" in
           assert (Hb : forallb is_space v = false)
             by (rewrite ?forallb_space_rstrip; assumption);
           destruct (strip_cons v Hb) as (c & r & E); rewrite E
       end.
  all: cbn [str_truthy negb andb mp_title mp_id mp_type mp_path mp_tags mp_status].
  all: rewrite Hsb; eexists _, _; reflexivity.
Qed.

(** C5 (counterexample).  A header whose single tag contains a comma is
    extracted with the tag ["a,b"]; the text stored for it has the line
    [Tags: a,b], which the parser splits into the two tags ["a"] and ["b"]. *)
Lemma comma_tag_round_trip_splits :
  exists m,
    extract_item_metadata (lit "10-ideas/x.md") header_comma_tag = PyOk (Some m) /\
    tags m = [lit "a,b"] /\
    exists m', parse_memory_item (to_memory_text m) = Some m' /\
               tags m' = [lit "a"; lit "b"].
Proof.
  eexists; split; [vm_compute; reflexivity|].
  split; [reflexivity|].
  eexists; split; [vm_compute; reflexivity|reflexivity].
Qed.

(** C5 (amended).  Parsing the stored text of a metadata value gives back
    its id, type, tags (in order) and status when the id matches the id
    pattern; the type is a string; the type, the id, every tag and a
    present status are non-empty, carry no surrounding whitespace or
    newline and do not contain the sync-marker text; no tag contains a
    comma; and the title (as rendered) and the path are single lines that
    are not blank and do not contain the sync-marker text. *)
Theorem memory_text_round_trip (m : ItemMetadata) (Hsafe : round_trip_safe m = true) :
  exists m', parse_memory_item (to_memory_text m) = Some m' /\
    sb_id m' = sb_id m /\ item_type m' = item_type m /\
    tags m' = tags m /\ status m' = status m.
Proof.
  unfold round_trip_safe in Hsafe; repeat rewrite andb_true_iff in Hsafe.
  destruct Hsafe as ((((((Hi & Hsb) & Ht) & Hty) & Hp) & Htg) & Hst).
  destruct (item_type m) as [y|] eqn:Ey; [|discriminate Hty].
  destruct (status m) as [[s|]|] eqn:Es; [|discriminate Hst|].
  - assert (Hs : forall s', Some s = Some s' -> clean_field s' = true)
      by (intros s' E; injection E as <-; exact Hst).
    destruct (round_trip_core m y (Some s) Ey Es Hi Hsb Ht Hty Hp Htg Hs) as (t' & p' & E).
    eexists; split; [exact E|]; repeat split.
  - assert (Hs : forall s', @None str = Some s' -> clean_field s' = true)
      by (intros s' E; discriminate E).
    destruct (round_trip_core m y None Ey Es Hi Hsb Ht Hty Hp Htg Hs) as (t' & p' & E).
    eexists; split; [exact E|]; repeat split.
Qed.

Lemma memory_text_round_trip_witness :
  round_trip_safe item_list_title = true /\
  exists m', parse_memory_item (to_memory_text item_list_title) = Some m' /\
    sb_id m' = sb_id item_list_title /\ item_type m' = item_type item_list_title /\
    tags m' = tags item_list_title /\ status m' = status item_list_title.
Proof.
  split; [vm_compute; reflexivity|].
  apply memory_text_round_trip; vm_compute; reflexivity.
Defined.

(* ==================================================================== *)
(** * Further properties of the module and its callers *)

(** ** Frame reasoning over the monad *)

Section Stays.

Variable R : Env -> World -> World -> Prop.
Hypothesis R_refl : forall env w, R env w w.
Hypothesis R_trans : forall env w1 w2 w3, R env w1 w2 -> R env w2 w3 -> R env w1 w3.

Lemma stays_ret {A} (a : A) : stays R (ret a).
Proof. intros env w; apply R_refl. Qed.

Lemma stays_ask {A} (f : Env -> A) : stays R (ask f).
Proof. intros env w; apply R_refl. Qed.

Lemma stays_lift {A} (r : pyres A) : stays R (lift r).
Proof. intros env w; apply R_refl. Qed.

Lemma stays_log (c : Call) : (forall env w, R env w (logged w c)) -> stays R (log c).
Proof. intros H env w; apply H. Qed.

Lemma stays_bind {A B} (m : M A) (k : A -> M B) :
  stays R m -> (forall a, stays R (k a)) -> stays R (bind m k).
Proof.
  intros Hm Hk env w; unfold bind.
  specialize (Hm env w); destruct (m env w) as [w' [e|a]]; simpl in *; [exact Hm|].
  eapply R_trans; [exact Hm|apply Hk].
Qed.

Lemma stays_try_catch {A} (m : M A) (h : exn -> M A) :
  stays R m -> (forall e, stays R (h e)) -> stays R (try_catch m h).
Proof.
  intros Hm Hh env w; unfold try_catch.
  specialize (Hm env w); destruct (m env w) as [w' [e|a]]; simpl in *; [|exact Hm].
  eapply R_trans; [exact Hm|apply Hh].
Qed.

Lemma stays_attempt {A} (m : M A) : stays R m -> stays R (attempt m).
Proof.
  intros Hm env w; unfold attempt.
  specialize (Hm env w); destruct (m env w) as [w' r]; exact Hm.
Qed.

Ltac stays_tac :=
  repeat match goal with
  | |- stays _ (bind _ _) => apply stays_bind; [|intro]
  | |- stays _ (try_catch _ _) => apply stays_try_catch; [|intro]
  | |- stays _ (attempt _) => apply stays_attempt
  | |- stays _ (ret _) => apply stays_ret
  | |- stays _ (ask _) => apply stays_ask
  | |- stays _ (lift _) => apply stays_lift
  | |- stays _ (log _) => apply stays_log; intros
  | |- stays _ (if ?b then _ else _) => destruct b
  | |- stays _ (match ?x with _ => _ end) => destruct x
  end.

Hypothesis R_branch : forall env w, R env w (logged w CallGetBranch).
Hypothesis R_param : forall env w, R env w (logged w CallGetParameter).
Hypothesis R_diff : forall env w b a, R env w (logged w (CallGetDifferences b a)).
Hypothesis R_folder : forall env w f c, R env w (logged w (CallGetFolder f c)).
Hypothesis R_file : forall env w p c, R env w (logged w (CallGetFile p c)).
Variable actor : str.
Hypothesis R_batch :
  forall env w i t, R env w (logged w (CallBatchCreate (items_namespace actor) i t)).
Hypothesis R_mark : forall env w i, R env w (logged w (CallMarkDeleted actor i)).
Hypothesis R_list : forall env w, R env w (logged w (CallListRecords (items_namespace actor))).
Hypothesis R_put :
  forall env w v, R env w (logged w (CallPutParameter v)) /\
                  R env w (mkWorld (Some v) (calls w)).

Lemma stays_get_sync_marker : stays R get_sync_marker.
Proof.
  unfold get_sync_marker; stays_tac; auto.
Qed.

Lemma stays_set_sync_marker (v : str) : stays R (set_sync_marker v).
Proof.
  unfold set_sync_marker; stays_tac; [apply R_put|].
  intros env w; simpl; destruct (ssm_put_ok env); simpl; [apply R_put|apply R_refl].
Qed.

Lemma stays_get_codecommit_head : stays R get_codecommit_head.
Proof. unfold get_codecommit_head; stays_tac; auto. Qed.

Lemma stays_get_all_item_files (c : str) : stays R (get_all_item_files c).
Proof.
  unfold get_all_item_files; induction ITEM_FOLDERS as [|f fs IH]; simpl; stays_tac; auto.
Qed.

Lemma stays_get_changed_files (o : option str) (n : str) : stays R (get_changed_files o n).
Proof. destruct o; [unfold get_changed_files; stays_tac; auto|apply stays_get_all_item_files]. Qed.

Lemma stays_get_file_content (p c : str) : stays R (get_file_content p c).
Proof. unfold get_file_content; stays_tac; auto. Qed.

Lemma stays_store (m : ItemMetadata) : stays R (store_item_in_memory actor m).
Proof. unfold store_item_in_memory; stays_tac; auto. Qed.

Lemma stays_delete (i : str) : stays R (delete_item_from_memory actor i).
Proof. unfold delete_item_from_memory; stays_tac; auto. Qed.

Lemma stays_sync_file (p h : str) : stays R (sync_file actor p h).
Proof.
  unfold sync_file; apply stays_bind; [apply stays_get_file_content|intros content].
  stays_tac; apply stays_store.
Qed.

Lemma stays_delta_loop (h : str) (fs : list ChangedFile) (s d : nat) :
  stays R (delta_loop actor h fs s d).
Proof.
  revert s d; induction fs as [|f fs IH]; intros s d; simpl; stays_tac;
    auto using stays_delete, stays_sync_file.
Qed.

Lemma stays_full_loop (h : str) (fs : list ChangedFile) (s : nat) :
  stays R (full_loop actor h fs s).
Proof.
  revert s; induction fs as [|f fs IH]; intros s; simpl; stays_tac; auto using stays_sync_file.
Qed.

Lemma stays_sync_items : stays R (sync_items actor).
Proof.
  unfold sync_items, sync_items_body.
  apply stays_try_catch; [|intros; apply stays_ret].
  apply stays_bind; [apply stays_get_codecommit_head|intros head].
  stays_tac;
    auto using stays_get_sync_marker, stays_get_changed_files, stays_delta_loop,
      stays_set_sync_marker, stays_get_all_item_files, stays_full_loop.
Qed.

Lemma stays_sync_single_item (p c : str) : stays R (sync_single_item actor p c).
Proof. unfold sync_single_item; stays_tac; auto using stays_store. Qed.

Lemma stays_codecommit_items_loop (h : str) (fs : list ChangedFile) (items : list ItemMetadata) :
  stays R (codecommit_items_loop h fs items).
Proof.
  revert items; induction fs as [|f fs IH]; intros items; simpl; stays_tac;
    auto using stays_get_file_content.
Qed.

Lemma stays_get_all_codecommit_items : stays R get_all_codecommit_items.
Proof.
  unfold get_all_codecommit_items; stays_tac;
    auto using stays_get_codecommit_head, stays_get_all_item_files, stays_codecommit_items_loop.
Qed.

Lemma stays_get_all_memory_items : stays R (get_all_memory_items actor).
Proof. unfold get_all_memory_items; stays_tac; auto. Qed.

Lemma stays_get_health_report : stays R (get_health_report actor).
Proof.
  unfold get_health_report; stays_tac;
    auto using stays_get_all_codecommit_items, stays_get_all_memory_items,
      stays_get_codecommit_head.
Qed.

End Stays.

(** ** Instances: the SSM parameter *)

Ltac frame_hyps :=
  intros; unfold marker_fixed in *; simpl in *; congruence.

Lemma mf_get_sync_marker : stays marker_fixed get_sync_marker.
Proof. apply stays_get_sync_marker; frame_hyps. Qed.

Lemma mf_get_codecommit_head : stays marker_fixed get_codecommit_head.
Proof. apply stays_get_codecommit_head; frame_hyps. Qed.

Lemma mf_get_changed_files (o : option str) (n : str) :
  stays marker_fixed (get_changed_files o n).
Proof. apply stays_get_changed_files; frame_hyps. Qed.

Lemma mf_get_all_item_files (c : str) : stays marker_fixed (get_all_item_files c).
Proof. apply stays_get_all_item_files; frame_hyps. Qed.

Lemma mf_delta_loop (a h : str) (fs : list ChangedFile) (s d : nat) :
  stays marker_fixed (delta_loop a h fs s d).
Proof. apply stays_delta_loop; frame_hyps. Qed.

Lemma mf_full_loop (a h : str) (fs : list ChangedFile) (s : nat) :
  stays marker_fixed (full_loop a h fs s).
Proof. apply stays_full_loop; frame_hyps. Qed.

Lemma mf_sync_single_item (a p c : str) : stays marker_fixed (sync_single_item a p c).
Proof. apply stays_sync_single_item; frame_hyps. Qed.

Lemma mf_get_health_report (a : str) : stays marker_fixed (get_health_report a).
Proof. apply stays_get_health_report; frame_hyps. Qed.

Create HintDb mfixed.
#[local] Hint Resolve mf_get_sync_marker mf_get_codecommit_head mf_get_changed_files
  mf_get_all_item_files mf_delta_loop mf_full_loop : mfixed.

Lemma run_marker {A} (m : M A) env w :
  stays marker_fixed m -> ssm_param (fst (m env w)) = ssm_param w.
Proof. intros H; exact (H env w). Qed.

Ltac marker_run :=
  repeat (cbv beta iota zeta;
    match goal with
    | |- context [?m ?env0 ?w0] =>
        is_var env0;
        let Hm := fresh "Hm" in
        assert (Hm : ssm_param (fst (m env0 w0)) = ssm_param w0)
          by (apply run_marker; eauto with mfixed);
        let w1 := fresh "w" in let e1 := fresh "e" in let a1 := fresh "a" in
        destruct (m env0 w0) as [w1 [e1|a1]]; simpl in Hm
    | |- context [if ?b then _ else _] => destruct b
    end).

(** The sync marker is only ever written with the HEAD commit read at the
    start of the run: after [sync_items] it holds its old value or that
    HEAD (the latter only when the SSM write succeeded). *)
Theorem sync_items_marker_only_head (actor : str) (env : Env) (w : World) :
  ssm_param (fst (sync_items actor env w)) = ssm_param w \/
  (ssm_param (fst (sync_items actor env w)) = cc_branch env /\ ssm_put_ok env = true).
Proof.
  unfold sync_items, try_catch.
  enough (H : ssm_param (fst (sync_items_body actor env w)) = ssm_param w \/
              (ssm_param (fst (sync_items_body actor env w)) = cc_branch env /\
               ssm_put_ok env = true))
    by (destruct (sync_items_body actor env w) as [w1 [e|r]]; exact H).
  unfold sync_items_body, get_codecommit_head, set_sync_marker, bind, log, ask, ret.
  cbv beta iota zeta.
  destruct (cc_branch env) as [[|c h]|] eqn:Eb; cbn [fst ssm_param]; [left; reflexivity| |left; reflexivity].
  destruct (ssm_put_ok env) eqn:Ep;
    marker_run; cbn [fst ssm_param] in *; first [left; congruence|right; split; congruence].
Qed.

(** ** Instances: the call log *)

Lemma lo_refl (P : Call -> Prop) env w : logs_only P env w w.
Proof. exists []; rewrite app_nil_r; split; [reflexivity|constructor]. Qed.

Lemma lo_trans (P : Call -> Prop) env w1 w2 w3 :
  logs_only P env w1 w2 -> logs_only P env w2 w3 -> logs_only P env w1 w3.
Proof.
  intros (n1 & E1 & F1) (n2 & E2 & F2); exists (n1 ++ n2); split.
  - rewrite E2, E1, app_assoc; reflexivity.
  - apply Forall_app; split; assumption.
Qed.

Lemma lo_logged (P : Call -> Prop) env w c : P c -> logs_only P env w (logged w c).
Proof. intros H; exists [c]; split; [reflexivity|constructor; [exact H|constructor]]. Qed.

Lemma lo_set (P : Call -> Prop) env w v : logs_only P env w (mkWorld (Some v) (calls w)).
Proof. exists []; rewrite app_nil_r; split; [reflexivity|constructor]. Qed.

Ltac lo_hyps :=
  first
    [ intros; apply lo_refl
    | intros ? ? ? ? H1 H2; exact (lo_trans _ _ _ _ _ H1 H2)
    | intros; split; [apply lo_logged; simpl; auto|apply lo_set]
    | intros; apply lo_logged; simpl; auto ].

(** Every call [sync_items actor] makes stays within [actor]'s items: its
    Memory writes go to the namespace [/items/actor], its deletion marks
    name [actor], and it never lists Memory records. *)
Theorem sync_items_stays_in_actor_namespace (actor : str) (env : Env) (w : World) :
  exists new, calls (fst (sync_items actor env w)) = calls w ++ new /\
              Forall (actor_call actor) new.
Proof. apply (stays_sync_items (logs_only (actor_call actor))); lo_hyps. Qed.

(** [get_health_report] is read-only: it writes nothing to Memory or SSM,
    marks nothing deleted, and leaves the sync marker as it was. *)
Theorem get_health_report_read_only (actor : str) (env : Env) (w : World) :
  (exists new, calls (fst (get_health_report actor env w)) = calls w ++ new /\
               Forall read_only_call new) /\
  ssm_param (fst (get_health_report actor env w)) = ssm_param w.
Proof.
  split.
  - apply (stays_get_health_report (logs_only read_only_call)); lo_hyps.
  - apply run_marker, mf_get_health_report.
Qed.

(** [sync_single_item] never raises and never touches CodeCommit or SSM:
    it makes at most one call, a Memory write in [/items/actor]; its result
    has no commit id and no deletions, and it succeeds exactly when it
    reports one synced item. *)
Theorem sync_single_item_only_writes_memory (actor p c : str) (env : Env) (w : World) :
  exists new r,
    sync_single_item actor p c env w = (mkWorld (ssm_param w) (calls w ++ new), PyOk r) /\
    List.length new <= 1 /\
    Forall (fun call => exists i t, call = CallBatchCreate (items_namespace actor) i t) new /\
    new_commit_id r = None /\ items_deleted r = 0 /\
    (success r = true <-> items_synced r = 1).
Proof.
  unfold sync_single_item, store_item_in_memory, memory_client, try_catch, bind, lift,
    ret, ask, log.
  destruct (extract_item_metadata p c) as [e|[m|]]; cbv beta iota zeta delta [negb fst snd];
    [| destruct (memory_client_init env) as [e|b]; cbv beta iota zeta delta [negb fst snd] |];
    repeat (match goal with |- context [if ?b then _ else _] => destruct b end;
            cbv beta iota zeta delta [negb fst snd]).
  all: first
    [ exists []; eexists; rewrite app_nil_r; split; [destruct w; reflexivity|]
    | eexists [_]; eexists; split; [reflexivity|] ].
  all: repeat split; simpl; auto; try discriminate; repeat constructor; eauto.
Qed.

(** ** The callers *)

(** [sync_handler.handler] rejects an event whose operation or actor_id
    is missing or empty, or whose operation is not one of the four it
    routes, and also any event when MEMORY_ID is empty: it returns an
    error response without calling any service. *)
Theorem handler_rejects_without_calls (memory_id : str) (event : SyncHandler.Event)
  (env : Env) (w : World)
  (Hbad : str_truthy (SyncHandler.operation event) && str_truthy (SyncHandler.actor_id event)
          && str_truthy (Some memory_id) && SyncHandler.known_op (SyncHandler.operation event)
          = false) :
  exists msg, SyncHandler.handler memory_id event env w = (w, PyOk (error_response msg)).
Proof.
  unfold SyncHandler.handler, SyncHandler.known_op in *.
  destruct (str_truthy (SyncHandler.operation event)); [|eexists; reflexivity].
  destruct (str_truthy (SyncHandler.actor_id event)); [|eexists; reflexivity].
  destruct (str_truthy (Some memory_id)); [|eexists; reflexivity].
  cbn [negb andb orb] in *; subst.
  destruct (is_op _ "sync_item"); [discriminate|].
  destruct (is_op _ "sync_all"); [discriminate|].
  destruct (is_op _ "delete_item"); [discriminate|].
  destruct (is_op _ "health_check"); [discriminate|].
  eexists; reflexivity.
Qed.

Lemma handler_rejects_without_calls_witness :
  exists msg,
    SyncHandler.handler (lit "mem-1")
      (SyncHandler.mkEvent (Some (lit "resync")) (Some (lit "user-1")) None None None false)
      (env_with (Some head0) None no_files true) (world_at None)
    = (world_at None, PyOk (error_response msg)).
Proof. apply handler_rejects_without_calls; reflexivity. Defined.

(** Both callers report a deletion request with a non-empty sb_id as a
    success with one deleted item; the only effect is the deletion mark
    (a log line), nothing is removed from Memory. *)
Theorem delete_item_always_reported_deleted (memory_id : str)
  (event : SyncHandler.Event) (payload : Classifier.Payload) (env : Env) (w : World)
  (Hmem : memory_id <> [])
  (Hop : SyncHandler.operation event = Some (lit "delete_item"))
  (Hactor : str_truthy (SyncHandler.actor_id event) = true)
  (Hsb : str_truthy (SyncHandler.sb_id event) = true)
  (Hop' : Classifier.sync_operation payload = Some (lit "delete_item"))
  (Hsb' : str_truthy (Classifier.sb_id payload) = true) :
  SyncHandler.handler memory_id event env w =
    (logged w (CallMarkDeleted (field_str (SyncHandler.actor_id event))
                               (field_str (SyncHandler.sb_id event))),
     PyOk (mkResponse true 0 1 None None)) /\
  Classifier.handle_sync_operation true payload env w =
    (logged w (CallMarkDeleted (match Classifier.actor_id payload with
                                | Some a => a
                                | None => lit "anonymous"
                                end)
                               (field_str (Classifier.sb_id payload))),
     PyOk (mkResponse true 0 1 None None)).
Proof.
  split.
  - unfold SyncHandler.handler, SyncHandler.handle_delete_item; rewrite Hop, Hactor, Hsb.
    destruct memory_id as [|c m]; [congruence|].
    reflexivity.
  - unfold Classifier.handle_sync_operation, Classifier.handle_delete_item.
    rewrite Hop', Hsb'; reflexivity.
Qed.

Lemma delete_item_always_reported_deleted_witness :
  let env := env_with (Some head0) None no_files true in
  let ev := SyncHandler.mkEvent (Some (lit "delete_item")) (Some (lit "user-1")) None None
                                (Some (lit "sb-1234567")) false in
  let pl := Classifier.mkPayload (Some (lit "delete_item")) None None None None
                                 (Some (lit "sb-1234567")) false in
  SyncHandler.handler (lit "mem-1") ev env (world_at None) =
    (logged (world_at None) (CallMarkDeleted (lit "user-1") (lit "sb-1234567")),
     PyOk (mkResponse true 0 1 None None)) /\
  Classifier.handle_sync_operation true pl env (world_at None) =
    (logged (world_at None) (CallMarkDeleted (lit "anonymous") (lit "sb-1234567")),
     PyOk (mkResponse true 0 1 None None)).
Proof.
  intros env ev pl.
  exact (delete_item_always_reported_deleted (lit "mem-1") ev pl env (world_at None)
           ltac:(discriminate) eq_refl eq_refl eq_refl eq_refl eq_refl).
Defined.

(** A routed health check through [sync_handler.handler] always reports
    success with no error, whatever the report says, including the report
    of a health check whose every service call failed. *)
Theorem handler_health_check_always_succeeds (memory_id : str) (event : SyncHandler.Event)
  (env : Env) (w : World)
  (Hmem : memory_id <> [])
  (Hop : SyncHandler.operation event = Some (lit "health_check"))
  (Hactor : str_truthy (SyncHandler.actor_id event) = true) :
  exists hr,
    SyncHandler.handler memory_id event env w =
      (fst (get_health_report (field_str (SyncHandler.actor_id event)) env w),
       PyOk (mkResponse true 0 0 None (Some hr))).
Proof.
  assert (E : exists w1 hr,
    get_health_report (field_str (SyncHandler.actor_id event)) env w = (w1, PyOk hr)).
  { unfold get_health_report, try_catch.
    match goal with |- context [match ?t with _ => _ end] => destruct t as [w1 [e|hr]] end;
      unfold ret; eauto. }
  destruct E as (w1 & hr & E); exists hr.
  unfold SyncHandler.handler; cbv zeta; rewrite Hop, Hactor.
  destruct memory_id as [|c m]; [congruence|].
  change (str_truthy (Some (c :: m))) with true.
  change (str_truthy (Some (lit "health_check"))) with true.
  change (is_op (Some (lit "health_check")) "sync_item") with false.
  change (is_op (Some (lit "health_check")) "sync_all") with false.
  change (is_op (Some (lit "health_check")) "delete_item") with false.
  change (is_op (Some (lit "health_check")) "health_check") with true.
  cbv beta iota delta [negb].
  unfold SyncHandler.handle_health_check, try_catch, bind, ret.
  rewrite E; reflexivity.
Qed.

Lemma handler_health_check_always_succeeds_witness :
  exists hr,
    SyncHandler.handler (lit "mem-1")
      (SyncHandler.mkEvent (Some (lit "health_check")) (Some (lit "user-1")) None None None false)
      env_health_down (world_at None) =
      (fst (get_health_report (lit "user-1") env_health_down (world_at None)),
       PyOk (mkResponse true 0 0 None (Some hr))).
Proof. apply handler_health_check_always_succeeds; [discriminate|reflexivity|reflexivity]. Defined.

(** The classifier's [sync_item] operation never syncs: with a path and
    content present, the call to [sync_single_item] passes one argument
    too many and raises, so the response is a failure and no service is
    called. *)
Theorem classifier_sync_item_always_fails (payload : Classifier.Payload) (env : Env) (w : World)
  (Hop : Classifier.sync_operation payload = Some (lit "sync_item"))
  (Hpath : str_truthy (Classifier.item_path payload) = true)
  (Hcontent : str_truthy (Classifier.item_content payload) = true) :
  Classifier.handle_sync_operation true payload env w =
    (w, PyOk (error_response (lit "Sync item failed: "
                              ++ exn_str Classifier.sync_single_item_arity_error))).
Proof.
  unfold Classifier.handle_sync_operation; rewrite Hop.
  cbn -[exn_str lit]; unfold Classifier.handle_sync_item; rewrite Hpath, Hcontent.
  reflexivity.
Qed.

Lemma classifier_sync_item_always_fails_witness :
  Classifier.handle_sync_operation true
    (Classifier.mkPayload (Some (lit "sync_item")) (Some (lit "user-1"))
       (Some (lit "10-ideas/a.md")) (Some header_comma_tag) None None false)
    (env_with (Some head0) None no_files true) (world_at None) =
  (world_at None, PyOk (error_response (lit "Sync item failed: "
                                        ++ exn_str Classifier.sync_single_item_arity_error))).
Proof. apply classifier_sync_item_always_fails; reflexivity. Defined.

(** [handle_sync_operation] rejects a payload without calling any service
    when the item sync module is unavailable, when [sync_operation] is
    missing or empty, or when it names none of the four operations. *)
Theorem classifier_rejects_without_calls (available : bool) (payload : Classifier.Payload)
  (env : Env) (w : World)
  (Hbad : available && str_truthy (Classifier.sync_operation payload)
          && SyncHandler.known_op (Classifier.sync_operation payload) = false) :
  exists msg, Classifier.handle_sync_operation available payload env w =
              (w, PyOk (error_response msg)).
Proof.
  unfold Classifier.handle_sync_operation, SyncHandler.known_op in *.
  destruct available; [|eexists; reflexivity].
  destruct (str_truthy (Classifier.sync_operation payload)); [|eexists; reflexivity].
  cbn [negb andb orb] in *.
  destruct (is_op _ "sync_item"); [discriminate|].
  destruct (is_op _ "sync_all"); [discriminate|].
  destruct (is_op _ "delete_item"); [discriminate|].
  destruct (is_op _ "health_check"); [discriminate|].
  eexists; reflexivity.
Qed.

Lemma classifier_rejects_without_calls_witness :
  exists msg,
    Classifier.handle_sync_operation false
      (Classifier.mkPayload (Some (lit "sync_all")) None None None None None true)
      (env_with (Some head0) None no_files true) (world_at None) =
    (world_at None, PyOk (error_response msg)).
Proof. apply classifier_rejects_without_calls; reflexivity. Defined.

(** ** The full-sync path *)

Lemma nd_get_all_item_files (c : str) : stays (logs_only no_diff_call) (get_all_item_files c).
Proof. apply stays_get_all_item_files; lo_hyps. Qed.

Lemma nd_full_loop (actor h : str) (fs : list ChangedFile) (s : nat) :
  stays (logs_only no_diff_call) (full_loop actor h fs s).
Proof. apply stays_full_loop; lo_hyps. Qed.

Create HintDb nodiff.
#[local] Hint Resolve nd_get_all_item_files nd_full_loop : nodiff.

Lemma run_stays {A} (R : Env -> World -> World -> Prop) (m : M A) env w :
  stays R m -> R env w (fst (m env w)).
Proof. intros H; exact (H env w). Qed.

Ltac nd_run :=
  repeat (cbv beta iota zeta;
    match goal with
    | |- context [?m ?env0 ?w0] =>
        is_var env0;
        let Hn := fresh "Hn" in
        assert (Hn : logs_only no_diff_call env0 w0 (fst (m env0 w0)))
          by (apply run_stays; eauto with nodiff);
        let w1 := fresh "w" in let e1 := fresh "e" in let a1 := fresh "a" in
        destruct (m env0 w0) as [w1 [e1|a1]]; simpl in Hn
    | |- context [if ?b then _ else _] => destruct b
    end).

Ltac lo_finish :=
  unfold logs_only in *;
  repeat match goal with H : exists _, _ |- _ => destruct H as (? & ? & ?) end;
  cbn [calls ssm_param] in *;
  repeat match goal with E : calls ?x = _ |- _ => is_var x; rewrite E in *; clear E end;
  eexists; split;
  [ rewrite <- ?app_assoc; reflexivity
  | repeat first [ apply Forall_app; split | apply Forall_cons; [exact I|]
                 | apply Forall_nil | assumption ] ].

(** When there is no usable marker (none stored, the value ["initial"],
    or GetParameter failing), [sync_items] takes the full-sync path: it
    never asks CodeCommit for differences and reports no deletions. *)
Lemma sync_items_full_path (actor : str) (env : Env) (w : World)
  (Hm : ssm_param w = None \/ ssm_param w = Some (lit "initial") \/ ssm_get_ok env = false) :
  logs_only no_diff_call env w (fst (sync_items actor env w)) /\
  exists res, snd (sync_items actor env w) = PyOk res /\ items_deleted res = 0.
Proof.
  unfold sync_items, try_catch, sync_items_body, get_codecommit_head, get_sync_marker,
    set_sync_marker, bind, log, ask, ret.
  cbv beta iota zeta.
  destruct (cc_branch env) as [[|c h]|]; cbn [fst snd];
    [split; [lo_finish|eexists; split; reflexivity]| |
     split; [lo_finish|eexists; split; reflexivity]].
  assert (Hv : (if ssm_get_ok env
                then match ssm_param w with
                     | Some value => if str_eqb value (lit "initial") then None else Some value
                     | None => None
                     end
                else None) = None)
    by (destruct Hm as [H|[H|H]]; rewrite H; [destruct (ssm_get_ok env)|destruct (ssm_get_ok env)|];
        reflexivity).
  cbn [ssm_param calls]; rewrite Hv.
  cbv beta iota zeta delta [str_truthy opt_str_eqb andb negb].
  nd_run; cbn [fst snd]; (split; [lo_finish|eexists; split; reflexivity]).
Qed.

(** ** Front matter *)

Lemma startswith_app_self (p y : str) : startswith p (p ++ y) = true.
Proof. induction p as [|a p IH]; simpl; [reflexivity|]. rewrite Ascii.eqb_refl; exact IH. Qed.

Lemma startswith_app_long (p s t : str) :
  List.length p <= List.length s -> startswith p (s ++ t) = startswith p s.
Proof.
  revert s; induction p as [|a p IH]; intros [|b s] H; simpl in *; try reflexivity; [lia|].
  rewrite IH; [reflexivity|lia].
Qed.

Lemma search_before_unfold (p s : str) :
  search_before p s =
  if startswith p s then Some []
  else match s with
       | [] => None
       | c :: s' => option_map (cons c) (search_before p s')
       end.
Proof. destruct s; reflexivity. Qed.

Lemma contains_unfold (p s : str) :
  contains p s = startswith p s || match s with [] => false | _ :: s' => contains p s' end.
Proof. destruct s; reflexivity. Qed.

Lemma startswith_contains (p s : str) : startswith p s = true -> contains p s = true.
Proof. intros H; rewrite contains_unfold, H; reflexivity. Qed.

Lemma contains_drop_head (a : ascii) (p s : str) :
  contains (a :: p) s = true -> contains p s = true.
Proof.
  induction s as [|c s IH]; rewrite contains_unfold; [simpl; intros H; discriminate|].
  intros H; apply orb_true_iff in H as [H|H]; rewrite contains_unfold; apply orb_true_iff; right.
  - simpl in H; apply andb_true_iff in H as [_ H]; apply startswith_contains; exact H.
  - apply IH; exact H.
Qed.

(** [re.search] finds nothing exactly when the pattern does not occur. *)
Lemma search_before_none (p s : str) : search_before p s = None <-> contains p s = false.
Proof.
  induction s as [|c s IH]; rewrite search_before_unfold, contains_unfold.
  - destruct (startswith p []); simpl; split; congruence.
  - destruct (startswith p (c :: s)); simpl; [split; congruence|].
    split.
    + intros H; apply IH; destruct (search_before p s); [discriminate|reflexivity].
    + intros H; apply IH in H; rewrite H; reflexivity.
Qed.

(** The match found is the first occurrence of the pattern. *)
Lemma search_before_first (q : str) (a : ascii) (x y : str) :
  contains (q ++ [a]) (x ++ q) = false ->
  search_before (q ++ [a]) (x ++ (q ++ [a]) ++ y) = Some x.
Proof.
  induction x as [|c x IH]; intros H.
  - rewrite app_nil_l, search_before_unfold, startswith_app_self; reflexivity.
  - rewrite contains_unfold in H; cbn [app] in H.
    apply orb_false_iff in H as [H1 H2].
    rewrite search_before_unfold.
    replace ((c :: x) ++ (q ++ [a]) ++ y) with ((c :: x ++ q) ++ (a :: y))
      by (simpl; rewrite <- !app_assoc; reflexivity).
    rewrite startswith_app_long by (simpl; rewrite !length_app; simpl; lia).
    rewrite H1; cbn [app].
    replace ((x ++ q) ++ a :: y) with (x ++ (q ++ [a]) ++ y)
      by (rewrite <- !app_assoc; reflexivity).
    rewrite (IH H2); reflexivity.
Qed.

Lemma fm_prefix (x : str) : startswith (lit "---" ++ [nl]) (lit "---" ++ [nl] ++ x) = true.
Proof. reflexivity. Qed.

Lemma fm_rest (x : str) : skipn 4 (lit "---" ++ [nl] ++ x) = x.
Proof. reflexivity. Qed.

(** [parse_front_matter] closes the header at the first blank-line
    delimiter ["\n\n---\n"] wherever it occurs, and reads everything
    before it as YAML. A standard ["\n---\n"] closing line that comes
    earlier does not end the header in that case, so body lines before a
    later blank-line delimiter are parsed as front matter. *)
Theorem parse_front_matter_blank_line_close (b body : str)
  (Hfirst : contains ([nl; nl] ++ lit "---" ++ [nl]) (b ++ [nl; nl] ++ lit "---") = false) :
  parse_front_matter (lit "---" ++ [nl] ++ b ++ [nl; nl] ++ lit "---" ++ [nl] ++ body)
  = Some (parse_simple_yaml b).
Proof.
  unfold parse_front_matter; rewrite fm_prefix, fm_rest; cbn [negb].
  change (search_before ([nl; nl] ++ lit "---" ++ [nl]) (b ++ [nl; nl] ++ lit "---" ++ [nl] ++ body))
    with (search_before (([nl; nl] ++ lit "---") ++ [nl])
                        (b ++ (([nl; nl] ++ lit "---") ++ [nl]) ++ body)).
  rewrite search_before_first; [reflexivity|exact Hfirst].
Qed.

Lemma parse_front_matter_blank_line_close_witness :
  let b := lit "title: A" ++ [nl] ++ lit "---" ++ [nl] ++ lit "status: draft" in
  contains ([nl; nl] ++ lit "---" ++ [nl]) (b ++ [nl; nl] ++ lit "---") = false /\
  parse_front_matter (lit "---" ++ [nl] ++ b ++ [nl; nl] ++ lit "---" ++ [nl] ++ lit "Body")
  = Some (parse_simple_yaml b) /\
  parse_simple_yaml b = [(lit "title", YStr (lit "A")); (lit "status", YStr (lit "draft"))].
Proof.
  intros b.
  assert (H : contains ([nl; nl] ++ lit "---" ++ [nl]) (b ++ [nl; nl] ++ lit "---") = false)
    by reflexivity.
  split; [exact H|split; [exact (parse_front_matter_blank_line_close b (lit "Body") H)|]].
  reflexivity.
Defined.

(** Without a blank-line delimiter anywhere after the opening line,
    [parse_front_matter] closes the header at the first ["\n---\n"]. *)
Theorem parse_front_matter_standard_close (b body : str)
  (Hnone : contains ([nl; nl] ++ lit "---" ++ [nl])
                    (b ++ [nl] ++ lit "---" ++ [nl] ++ body) = false)
  (Hfirst : contains ([nl] ++ lit "---" ++ [nl]) (b ++ [nl] ++ lit "---") = false) :
  parse_front_matter (lit "---" ++ [nl] ++ b ++ [nl] ++ lit "---" ++ [nl] ++ body)
  = Some (parse_simple_yaml b).
Proof.
  unfold parse_front_matter; rewrite fm_prefix, fm_rest; cbn [negb].
  apply search_before_none in Hnone; rewrite Hnone.
  change (search_before ([nl] ++ lit "---" ++ [nl]) (b ++ [nl] ++ lit "---" ++ [nl] ++ body))
    with (search_before (([nl] ++ lit "---") ++ [nl])
                        (b ++ (([nl] ++ lit "---") ++ [nl]) ++ body)).
  rewrite search_before_first; [reflexivity|exact Hfirst].
Qed.

Lemma parse_front_matter_standard_close_witness :
  let b := lit "id: sb-1234567" ++ [nl] ++ lit "title: T" in
  let body := lit "Body" ++ [nl] ++ lit "---" in
  contains ([nl; nl] ++ lit "---" ++ [nl]) (b ++ [nl] ++ lit "---" ++ [nl] ++ body) = false /\
  contains ([nl] ++ lit "---" ++ [nl]) (b ++ [nl] ++ lit "---") = false /\
  parse_front_matter (lit "---" ++ [nl] ++ b ++ [nl] ++ lit "---" ++ [nl] ++ body)
  = Some (parse_simple_yaml b).
Proof.
  intros b body.
  assert (H1 : contains ([nl; nl] ++ lit "---" ++ [nl])
                        (b ++ [nl] ++ lit "---" ++ [nl] ++ body) = false) by reflexivity.
  assert (H2 : contains ([nl] ++ lit "---" ++ [nl]) (b ++ [nl] ++ lit "---") = false)
    by reflexivity.
  exact (conj H1 (conj H2 (parse_front_matter_standard_close b body H1 H2))).
Defined.

(** [parse_front_matter] returns [None] exactly when the content does not
    start with ["---\n"] or no ["\n---\n"] follows that opening line; it
    never fails on a header it has delimited. *)
Theorem parse_front_matter_none_iff (content : str) :
  parse_front_matter content = None <->
  startswith (lit "---" ++ [nl]) content = false \/
  contains ([nl] ++ lit "---" ++ [nl]) (skipn 4 content) = false.
Proof.
  unfold parse_front_matter.
  destruct (startswith (lit "---" ++ [nl]) content); cbn [negb]; [|split; auto].
  split.
  - destruct (search_before ([nl; nl] ++ lit "---" ++ [nl]) (skipn 4 content)); [discriminate|].
    destruct (search_before ([nl] ++ lit "---" ++ [nl]) (skipn 4 content)) eqn:E;
      [discriminate|].
    intros _; right; apply search_before_none; exact E.
  - intros [H|H]; [discriminate|].
    assert (H2 : contains ([nl; nl] ++ lit "---" ++ [nl]) (skipn 4 content) = false).
    { destruct (contains ([nl; nl] ++ lit "---" ++ [nl]) (skipn 4 content)) eqn:E;
        [|reflexivity].
      rewrite (contains_drop_head nl ([nl] ++ lit "---" ++ [nl]) _ E) in H; discriminate. }
    apply search_before_none in H, H2; rewrite H2, H; reflexivity.
Qed.

(** ** The YAML subset of [_parse_simple_yaml] *)

Lemma split_on_app_sep (c : ascii) (x y : str) :
  split_on c (x ++ c :: y) = split_on c x ++ split_on c y.
Proof.
  induction x as [|d x IH]; simpl.
  - rewrite Ascii.eqb_refl; reflexivity.
  - rewrite IH; destruct (Ascii.eqb d c); [reflexivity|].
    destruct (split_on c x) eqn:E; [exfalso; exact (split_on_nonnil c x E)|reflexivity].
Qed.

Lemma split_on_free (c : ascii) (s : str) : ~ In c s -> split_on c s = [s].
Proof.
  intros H; rewrite <- (app_nil_r s) at 1; rewrite split_on_app_free by exact H.
  simpl; rewrite app_nil_r; reflexivity.
Qed.

Lemma word_not_space (c : ascii) : is_word c = true -> is_space c = false.
Proof. intros H; destruct c as [[] [] [] [] [] [] [] []]; first [reflexivity | discriminate H]. Qed.

Lemma word_not_blank (c : ascii) : is_word c = true -> Ascii.eqb " "%char c = false.
Proof. intros H; destruct (Ascii.eqb_spec " "%char c) as [<-|]; [discriminate H|reflexivity]. Qed.

Lemma word_not_nl (k : str) : forallb is_word k = true -> ~ In nl k.
Proof.
  intros Hw Hin; apply (proj1 (forallb_forall _ _) Hw) in Hin; vm_compute in Hin; discriminate Hin.
Qed.

Lemma in_lstrip (x : ascii) (s : str) : In x (lstrip s) -> In x s.
Proof.
  induction s as [|c s IH]; simpl; [auto|].
  destruct (is_space c); [intros H; right; auto|auto].
Qed.

Lemma lstrip_keeps (x : ascii) (s : str) : In x s -> is_space x = false -> In x (lstrip s).
Proof.
  induction s as [|c s IH]; simpl; [auto|].
  intros [->|H] Hx; [rewrite Hx; left; reflexivity|].
  destruct (is_space c); [apply IH; auto|right; exact H].
Qed.

(** A string with a non-whitespace character does not strip to [""]. *)
Lemma strip_nonempty (x : ascii) (s : str) : In x s -> is_space x = false -> strip s <> [].
Proof.
  intros H Hx E; unfold strip, rstrip in E.
  apply (f_equal (@rev ascii)) in E; rewrite rev_involutive in E; simpl in E.
  assert (H1 : In x (lstrip (rev (lstrip s)))).
  { apply lstrip_keeps; [rewrite <- in_rev; apply lstrip_keeps; assumption|exact Hx]. }
  rewrite E in H1; destruct H1.
Qed.

Lemma lstrip_idem (s : str) : lstrip (lstrip s) = lstrip s.
Proof.
  induction s as [|c s IH]; simpl; [reflexivity|].
  destruct (is_space c) eqn:E; [exact IH|simpl; rewrite E; reflexivity].
Qed.

Lemma endswith_single (a : ascii) (s : str) : endswith [a] s = true -> In a s.
Proof.
  unfold endswith; destruct (rev s) as [|b r] eqn:E; simpl; [discriminate|].
  rewrite andb_true_r; intros H; apply Ascii.eqb_eq in H; subst b.
  rewrite in_rev, E; left; reflexivity.
Qed.

Lemma existsb_eqb_free (a : ascii) (s : str) : ~ In a s -> existsb (Ascii.eqb a) s = false.
Proof.
  intros H; apply not_true_iff_false; intros E.
  apply existsb_exists in E as (x & Hx & Ex); apply Ascii.eqb_eq in Ex; subst; contradiction.
Qed.

Lemma take_while_app (f : ascii -> bool) (k : str) (d : ascii) (r : str) :
  forallb f k = true -> f d = false -> take_while f (k ++ d :: r) = k.
Proof.
  induction k as [|c k IH]; simpl; intros Hk Hd; [rewrite Hd; reflexivity|].
  apply andb_true_iff in Hk as [H1 H2]; rewrite H1, IH; auto.
Qed.

Lemma dict_get_set_same (k : str) (v : yval) (d : ydict) : dict_get k (dict_set k v d) = Some v.
Proof.
  induction d as [|[k' v'] d IH]; simpl; [rewrite str_eqb_refl; reflexivity|].
  destruct (str_eqb k k') eqn:E; simpl; [rewrite str_eqb_refl; reflexivity|rewrite E; exact IH].
Qed.

(** The key/value regex on ["key:" ++ v]. *)
Lemma match_key_value_line (k v : str) :
  k <> [] -> forallb is_word k = true -> ~ In nl v ->
  match_key_value (k ++ ":"%char :: v) = Some (k, strip v).
Proof.
  intros Hk Hw Hv; unfold match_key_value; cbv beta zeta.
  rewrite take_while_app by (exact Hw || reflexivity).
  destruct k as [|c k]; [congruence|].
  cbn [List.length skipn app].
  rewrite skipn_app, skipn_all, Nat.sub_diag; cbn [app skipn].
  change (Ascii.eqb ":"%char ":"%char) with true; cbv iota.
  destruct (endswith [nl] (lstrip v)) eqn:Ee.
  - exfalso; apply Hv, in_lstrip, endswith_single; exact Ee.
  - rewrite existsb_eqb_free by (intros H; apply Hv, in_lstrip; exact H).
    unfold strip; rewrite lstrip_idem; reflexivity.
Qed.

(** One step of the parser on a ["key:" ++ v] line. *)
Lemma yaml_step_key (d : ydict) (cur : option str) (k v : str) :
  k <> [] -> forallb is_word k = true -> ~ In nl v ->
  yaml_step (d, cur) (k ++ ":"%char :: v) =
  match strip v with
  | [] => (dict_set k (YList []) d, Some k)
  | _ => (dict_set k (YStr (unquote (strip v))) d, None)
  end.
Proof.
  intros Hk Hw Hv.
  destruct k as [|c k']; [congruence|].
  assert (Hc : is_word c = true) by (simpl in Hw; apply andb_true_iff in Hw; tauto).
  assert (Hs : strip ((c :: k') ++ ":"%char :: v) <> [])
    by (apply (strip_nonempty c); [left; reflexivity|apply word_not_space; exact Hc]).
  assert (Hn : startswith (lit "  - ") ((c :: k') ++ ":"%char :: v) = false).
  { cbn [lit list_ascii_of_string app startswith]; rewrite word_not_blank by exact Hc; reflexivity. }
  cbv beta iota zeta delta [yaml_step].
  destruct (strip ((c :: k') ++ ":"%char :: v)) eqn:Es; [congruence|].
  cbn [str_truthy negb]; rewrite Hn, match_key_value_line by assumption.
  destruct (strip v); reflexivity.
Qed.

(** One step of the parser on a ["  - " ++ it] line while a list is open. *)
Lemma yaml_step_item (d : ydict) (k : str) (l : list str) (it : str) :
  dict_get k d = Some (YList l) ->
  yaml_step (d, Some k) (lit "  - " ++ it) =
  (dict_set k (YList (l ++ [unquote (strip it)])) d, Some k).
Proof.
  intros Hd.
  assert (Hs : strip (lit "  - " ++ it) <> [])
    by (apply (strip_nonempty "-"%char); [simpl; auto|reflexivity]).
  cbv beta iota zeta delta [yaml_step].
  destruct (strip (lit "  - " ++ it)) eqn:Es; [congruence|].
  cbn [str_truthy negb]; rewrite startswith_app_self.
  change (skipn 4 (lit "  - " ++ it)) with it.
  rewrite Hd; reflexivity.
Qed.

Lemma parse_simple_yaml_app_line (t line : str) :
  ~ In nl line ->
  parse_simple_yaml (t ++ nl :: line) =
  fst (yaml_step (fold_left yaml_step (split_on nl t) ([], None)) line).
Proof.
  intros H; unfold parse_simple_yaml.
  rewrite split_on_app_sep, (split_on_free nl line H), fold_left_app; reflexivity.
Qed.

Lemma split_on_items (x p : str) (items : list str) :
  ~ In nl x -> ~ In nl p -> Forall (fun it => ~ In nl it) items ->
  split_on nl (x ++ List.concat (map (fun it => nl :: p ++ it) items)) =
  x :: map (fun it => p ++ it) items.
Proof.
  revert x; induction items as [|it items IH]; intros x Hx Hp Hf; simpl.
  - rewrite app_nil_r; apply split_on_free; exact Hx.
  - inversion Hf as [|? ? Hit Hits]; subst.
    rewrite split_on_app_sep, (split_on_free nl x Hx), IH; auto using not_in_app.
Qed.

Lemma yaml_items_fold (k : str) (d : ydict) (l : list str) (items : list str) :
  dict_get k d = Some (YList l) ->
  exists d', fold_left yaml_step (map (fun it => lit "  - " ++ it) items) (d, Some k) = (d', Some k)
             /\ dict_get k d' = Some (YList (l ++ map (fun it => unquote (strip it)) items)).
Proof.
  revert d l; induction items as [|it items IH]; intros d l Hd; cbn [map fold_left].
  - exists d; rewrite app_nil_r; auto.
  - rewrite (yaml_step_item d k l it Hd).
    destruct (IH (dict_set k (YList (l ++ [unquote (strip it)])) d) (l ++ [unquote (strip it)])
                 (dict_get_set_same _ _ _)) as (d' & E & G).
    exists d'; rewrite E, G, <- app_assoc; auto.
Qed.

(** In [_parse_simple_yaml] a later ["key: value"] line overrides
    whatever the key held before, a string or a list: the key ends up
    with the stripped value, with one pair of surrounding quotes
    removed. *)
Theorem parse_simple_yaml_last_assignment (t k v : str)
  (Hk : k <> []) (Hw : forallb is_word k = true) (Hv : ~ In nl v) (Hs : strip v <> []) :
  dict_get k (parse_simple_yaml (t ++ nl :: k ++ ":"%char :: v)) =
  Some (YStr (unquote (strip v))).
Proof.
  rewrite parse_simple_yaml_app_line.
  - destruct (fold_left yaml_step (split_on nl t) ([], None)) as [d cur].
    rewrite yaml_step_key by assumption.
    destruct (strip v); [congruence|]; apply dict_get_set_same.
  - apply not_in_app; [apply word_not_nl; exact Hw|].
    intros [E|E]; [vm_compute in E; discriminate E|exact (Hv E)].
Qed.

Lemma parse_simple_yaml_last_assignment_witness :
  let t := lit "id: sb-1234567" ++ [nl] ++ lit "tags:" ++ [nl] ++ lit "  - a" in
  lit "tags" <> [] /\ forallb is_word (lit "tags") = true /\ ~ In nl (lit " solo") /\
  strip (lit " solo") <> [] /\
  dict_get (lit "tags") (parse_simple_yaml (t ++ nl :: lit "tags" ++ ":"%char :: lit " solo")) =
  Some (YStr (lit "solo")).
Proof.
  intros t.
  assert (H1 : lit "tags" <> []) by discriminate.
  assert (H2 : forallb is_word (lit "tags") = true) by reflexivity.
  assert (H3 : ~ In nl (lit " solo")) by not_in_lit.
  assert (H4 : strip (lit " solo") <> []) by (vm_compute; discriminate).
  refine (conj H1 (conj H2 (conj H3 (conj H4 _)))).
  exact (parse_simple_yaml_last_assignment t (lit "tags") (lit " solo") H1 H2 H3 H4).
Defined.

(** A ["key:"] line with nothing after it opens a list, and each
    following ["  - item"] line appends the stripped item, with one pair
    of surrounding quotes removed, to that key's list, replacing whatever
    the key held before. *)
Theorem parse_simple_yaml_list_items (t k : str) (items : list str)
  (Hk : k <> []) (Hw : forallb is_word k = true)
  (Hf : Forall (fun it => ~ In nl it) items) :
  dict_get k (parse_simple_yaml
                (t ++ nl :: k ++ ":"%char :: List.concat (map (fun it => nl :: lit "  - " ++ it) items)))
  = Some (YList (map (fun it => unquote (strip it)) items)).
Proof.
  unfold parse_simple_yaml.
  replace (k ++ ":"%char :: List.concat (map (fun it => nl :: lit "  - " ++ it) items))
    with ((k ++ [":"%char]) ++ List.concat (map (fun it => nl :: lit "  - " ++ it) items))
    by (rewrite <- app_assoc; reflexivity).
  assert (Hkc : ~ In nl (k ++ [":"%char])).
  { apply not_in_app; [apply word_not_nl; exact Hw|not_in_lit]. }
  rewrite split_on_app_sep, split_on_items by (exact Hkc || not_in_lit || exact Hf).
  rewrite fold_left_app; cbn [fold_left].
  destruct (fold_left yaml_step (split_on nl t) ([], None)) as [d cur].
  rewrite (yaml_step_key d cur k []) by (assumption || intros []).
  change (strip []) with (@nil ascii); cbv iota.
  destruct (yaml_items_fold k (dict_set k (YList []) d) [] items (dict_get_set_same _ _ _))
    as (d' & E & G).
  rewrite E; exact G.
Qed.

Lemma parse_simple_yaml_list_items_witness :
  let t := lit "id: sb-1234567" ++ [nl] ++ lit "tags: none" in
  let items := [lit "home"; lit " " ++ [dq] ++ lit "budget" ++ [dq]] in
  lit "tags" <> [] /\ forallb is_word (lit "tags") = true /\
  Forall (fun it => ~ In nl it) items /\
  dict_get (lit "tags")
    (parse_simple_yaml
       (t ++ nl :: lit "tags" ++ ":"%char :: List.concat (map (fun it => nl :: lit "  - " ++ it) items)))
  = Some (YList [lit "home"; lit "budget"]).
Proof.
  intros t items.
  assert (H1 : lit "tags" <> []) by discriminate.
  assert (H2 : forallb is_word (lit "tags") = true) by reflexivity.
  assert (H3 : Forall (fun it => ~ In nl it) items)
    by (repeat constructor; not_in_lit).
  refine (conj H1 (conj H2 (conj H3 _))).
  exact (parse_simple_yaml_list_items t (lit "tags") items H1 H2 H3).
Defined.

(** ** Metadata extraction *)

Lemma split_on_parts_free (c : ascii) (s : str) : Forall (fun l => ~ In c l) (split_on c s).
Proof.
  induction s as [|d s IH]; simpl; [repeat constructor; intros []|].
  destruct (Ascii.eqb d c) eqn:E; [constructor; [intros []|exact IH]|].
  destruct (split_on c s) as [|r rs]; [repeat constructor; intros [H|[]]; subst; rewrite Ascii.eqb_refl in E; discriminate|].
  inversion IH as [|? ? Hr Hrs]; subst.
  constructor; [|exact Hrs].
  intros [H|H]; [subst; rewrite Ascii.eqb_refl in E; discriminate|exact (Hr H)].
Qed.

Lemma skipn_in (x : ascii) (n : nat) (s : str) : In x (skipn n s) -> In x s.
Proof. revert s; induction n as [|n IH]; intros [|c s]; simpl; auto. Qed.

Lemma removelast_in (x : ascii) (s : str) : In x (removelast s) -> In x s.
Proof.
  induction s as [|c s IH]; simpl; [auto|].
  destruct s as [|d s]; [intros []|intros [H|H]; auto].
Qed.

Lemma strip_in (x : ascii) (s : str) : In x (strip s) -> In x s.
Proof.
  unfold strip, rstrip; intros H.
  rewrite <- in_rev in H; apply in_lstrip in H; rewrite <- in_rev in H.
  apply in_lstrip in H; exact H.
Qed.

Lemma unquote_in (x : ascii) (s : str) : In x (unquote s) -> In x s.
Proof.
  unfold unquote; intros H.
  destruct (startswith [dq] s && endswith [dq] s);
    [|destruct (startswith [sq] s && endswith [sq] s)];
    try (apply removelast_in in H; destruct s; [destruct H|right; exact H]); exact H.
Qed.

Lemma match_key_value_free (line key value : str) :
  match_key_value line = Some (key, value) -> ~ In nl line -> ~ In nl value.
Proof.
  unfold match_key_value; cbv beta zeta; intros H Hl Hv.
  destruct (take_while is_word line) as [|a k]; [discriminate|].
  destruct (skipn (List.length (a :: k)) line) as [|c rest] eqn:Es; [discriminate|].
  destruct (Ascii.eqb c ":"%char); [|discriminate].
  destruct (existsb (Ascii.eqb nl) _); [discriminate|].
  injection H as _ <-.
  apply strip_in in Hv.
  assert (Hr : In nl rest).
  { destruct (endswith [nl] (lstrip rest)); [apply removelast_in in Hv|]; apply in_lstrip; exact Hv. }
  apply Hl, (skipn_in _ (List.length (a :: k))); rewrite Es; right; exact Hr.
Qed.

Lemma dict_set_free (k : str) (v : yval) (d : ydict) :
  Forall (fun kv => yval_free (snd kv)) d -> yval_free v ->
  Forall (fun kv => yval_free (snd kv)) (dict_set k v d).
Proof.
  induction d as [|[k' v'] d IH]; intros Hd Hv; simpl; [repeat constructor; exact Hv|].
  inversion Hd as [|? ? H1 H2]; subst.
  destruct (str_eqb k k'); constructor; auto.
Qed.

Lemma dict_get_free (k : str) (v : yval) (d : ydict) :
  Forall (fun kv => yval_free (snd kv)) d -> dict_get k d = Some v -> yval_free v.
Proof.
  induction d as [|[k' v'] d IH]; simpl; [discriminate|].
  intros Hd; inversion Hd as [|? ? H1 H2]; subst.
  destruct (str_eqb k k'); [intros E; injection E as <-; exact H1|auto].
Qed.

Lemma yaml_step_free (st : ydict * option str) (line : str) :
  ~ In nl line -> Forall (fun kv => yval_free (snd kv)) (fst st) ->
  Forall (fun kv => yval_free (snd kv)) (fst (yaml_step st line)).
Proof.
  destruct st as [d cur]; intros Hl Hd; unfold yaml_step.
  destruct (negb (str_truthy (Some (strip line)))); [exact Hd|].
  destruct (startswith (lit "  - ") line).
  - destruct cur as [k|]; [|exact Hd].
    destruct (dict_get k d) as [[s|l]|] eqn:E; try exact Hd.
    apply dict_set_free; [exact Hd|].
    apply Forall_app; split; [exact (dict_get_free k (YList l) d Hd E)|].
    constructor; [|constructor].
    intros H; apply unquote_in, strip_in, skipn_in in H; exact (Hl H).
  - destruct (match_key_value line) as [[key value]|] eqn:E; [|exact Hd].
    destruct value as [|c v]; apply dict_set_free; auto; simpl; [constructor|].
    intros H; apply unquote_in in H; exact (match_key_value_free line key (c :: v) E Hl H).
Qed.

(** Every value [_parse_simple_yaml] produces is free of newlines. *)
Lemma parse_simple_yaml_free (t : str) :
  Forall (fun kv => yval_free (snd kv)) (parse_simple_yaml t).
Proof.
  unfold parse_simple_yaml.
  assert (G : forall ls st, Forall (fun l => ~ In nl l) ls ->
              Forall (fun kv => yval_free (snd kv)) (fst st) ->
              Forall (fun kv => yval_free (snd kv)) (fst (fold_left yaml_step ls st))).
  { induction ls as [|l ls IH]; intros st Hls Hst; simpl; [exact Hst|].
    inversion Hls; subst; apply IH; auto using yaml_step_free. }
  apply G; [apply split_on_parts_free|constructor].
Qed.

Lemma parse_front_matter_free (c : str) (fm : ydict) :
  parse_front_matter c = Some fm -> Forall (fun kv => yval_free (snd kv)) fm.
Proof.
  unfold parse_front_matter; cbv zeta.
  destruct (negb (startswith (lit "---" ++ [nl]) c)); [discriminate|].
  destruct (search_before ([nl; nl] ++ lit "---" ++ [nl]) (skipn 4 c));
    [intros E; injection E as <-; apply parse_simple_yaml_free|].
  destruct (search_before ([nl] ++ lit "---" ++ [nl]) (skipn 4 c));
    [intros E; injection E as <-; apply parse_simple_yaml_free|discriminate].
Qed.

Lemma startswith_length (p s : str) : startswith p s = true -> List.length p <= List.length s.
Proof.
  revert s; induction p as [|a p IH]; intros [|b s] H; simpl in *; try lia; try discriminate.
  apply andb_true_iff in H as [_ H]; apply IH in H; lia.
Qed.

(** Without a newline, the identifier check admits exactly ["sb-"]
    followed by seven hex digits. *)
Lemma match_sb_id_shape (s : str) :
  match_sb_id s = true -> ~ In nl s ->
  List.length s = 10 /\ startswith (lit "sb-") s = true /\ forallb is_hex (skipn 3 s) = true.
Proof.
  unfold match_sb_id; cbv zeta; intros H Hn.
  apply andb_true_iff in H as [H H4]; apply andb_true_iff in H as [H H3];
    apply andb_true_iff in H as [H1 H2].
  apply Nat.leb_le in H2; apply startswith_length in H1 as L1; simpl in L1.
  destruct (skipn 7 (skipn 3 s)) as [|c [|c' r]] eqn:E7.
  - pose proof (length_skipn 7 (skipn 3 s)) as L7; rewrite E7 in L7; cbn [List.length] in L7.
    pose proof (length_skipn 3 s) as L3.
    split; [lia|split; [exact H1|]].
    rewrite <- (firstn_skipn 7 (skipn 3 s)), E7, app_nil_r; exact H3.
  - apply Ascii.eqb_eq in H4; subst c.
    exfalso; apply Hn, (skipn_in _ 3), (skipn_in _ 7); rewrite E7; left; reflexivity.
  - discriminate.
Qed.

Ltac destruct_all_matches_in H :=
  repeat match type of H with
         | context [match ?x with _ => _ end] => let E := fresh "E" in destruct x eqn:E
         end.

(** The only exception [extract_item_metadata] lets escape is the
    [TypeError] of [re.match] on a list, and it is raised only when the
    header parses and its [id] is a YAML list. *)
Theorem extract_item_metadata_raises_only_on_list_id (p c : str) (e : exn)
  (H : extract_item_metadata p c = PyExc e) :
  e = re_type_error /\
  exists fm l, parse_front_matter c = Some fm /\ dict_get (lit "id") fm = Some (YList l).
Proof.
  unfold extract_item_metadata in H.
  destruct (parse_front_matter c) as [fm|] eqn:Ep; [|discriminate].
  destruct fm as [|kv fm]; [discriminate|].
  cbv zeta in H.
  destruct_all_matches_in H; try discriminate.
  all: injection H as <-; split; [reflexivity|do 2 eexists; split; [reflexivity|eassumption]].
Qed.

Lemma extract_item_metadata_raises_only_on_list_id_witness :
  extract_item_metadata (lit "10-ideas/a.md") header_list_id = PyExc re_type_error /\
  re_type_error = re_type_error /\
  exists fm l, parse_front_matter header_list_id = Some fm /\
               dict_get (lit "id") fm = Some (YList l).
Proof.
  assert (H : extract_item_metadata (lit "10-ideas/a.md") header_list_id = PyExc re_type_error)
    by (vm_compute; reflexivity).
  exact (conj H (extract_item_metadata_raises_only_on_list_id _ _ _ H)).
Defined.

(** Metadata returned by [extract_item_metadata] carries the given path,
    an identifier of exactly ten characters (["sb-"] and seven lowercase
    hex digits, never the trailing newline the regex's [$] would allow),
    and a non-empty title and type. *)
Theorem extract_item_metadata_result_shape (p c : str) (m : ItemMetadata)
  (H : extract_item_metadata p c = PyOk (Some m)) :
  path m = p /\ List.length (sb_id m) = 10 /\ startswith (lit "sb-") (sb_id m) = true /\
  forallb is_hex (skipn 3 (sb_id m)) = true /\
  truthy (Some (title m)) = true /\ truthy (Some (item_type m)) = true.
Proof.
  unfold extract_item_metadata in H.
  destruct (parse_front_matter c) as [fm|] eqn:Ep; [|discriminate].
  pose proof (parse_front_matter_free c fm Ep) as Hfree.
  destruct fm as [|kv fm]; [discriminate|].
  cbv zeta in H.
  destruct_all_matches_in H; try discriminate.
  all: injection H as <-; cbn [path sb_id title item_type].
  all: match goal with
       | Eid : dict_get (lit "id") _ = Some (YStr ?sid), Ema : negb (match_sb_id ?sid) = false |- _ =>
           apply negb_false_iff in Ema;
           pose proof (dict_get_free _ _ _ Hfree Eid) as Hn; cbn [yval_free] in Hn;
           destruct (match_sb_id_shape sid Ema Hn) as (L & S & X)
       end.
  all: match goal with
       | Et : negb (truthy _ && truthy _ && truthy _) = false |- _ =>
           apply negb_false_iff in Et; apply andb_true_iff in Et as [Et Ety];
           apply andb_true_iff in Et as [_ Eti]
       end.
  all: repeat split; assumption.
Qed.

Lemma extract_item_metadata_result_shape_witness :
  let c := lines ["---"; "id: sb-1234567"; "title: T"; "type: idea"; "---"; ""]%string in
  let m := mkItem (lit "sb-1234567") (YStr (lit "T")) (YStr (lit "idea")) (lit "10-ideas/a.md")
                  [] None in
  extract_item_metadata (lit "10-ideas/a.md") c = PyOk (Some m) /\
  path m = lit "10-ideas/a.md" /\ List.length (sb_id m) = 10 /\
  startswith (lit "sb-") (sb_id m) = true /\ forallb is_hex (skipn 3 (sb_id m)) = true /\
  truthy (Some (title m)) = true /\ truthy (Some (item_type m)) = true.
Proof.
  intros c m.
  assert (H : extract_item_metadata (lit "10-ideas/a.md") c = PyOk (Some m))
    by (vm_compute; reflexivity).
  exact (conj H (extract_item_metadata_result_shape _ _ _ H)).
Defined.

(** ** Change sets *)

Lemma filter_some_In {A B} (f : A -> option B) (l : list A) (y : B) :
  In y (filter_some f l) -> exists x, In x l /\ f x = Some y.
Proof.
  induction l as [|x l IH]; simpl; [intros []|].
  destruct (f x) eqn:E; [intros [<-|H]; [exists x; auto|]|intros H];
    destruct (IH H) as (x' & Hx & Ex); exists x'; auto.
Qed.

Lemma filter_some_In_intro {A B} (f : A -> option B) (l : list A) (x : A) (y : B) :
  In x l -> f x = Some y -> In y (filter_some f l).
Proof.
  induction l as [|x' l IH]; simpl; [intros []|].
  intros [<-|H] E.
  - rewrite E; left; reflexivity.
  - destruct (f x'); [right|]; apply IH; assumption.
Qed.

Lemma diff_entry_some (d : Difference) (f : ChangedFile) :
  diff_entry d = Some f ->
  existsb (fun folder => startswith folder (cf_path f)) ITEM_FOLDERS = true /\
  endswith (lit ".md") (cf_path f) = true /\
  ((after_blob d = Some (cf_path f) /\ (cf_change_type f = lit "A" \/ cf_change_type f = lit "M")) \/
   (after_blob d = None /\ before_blob d = Some (cf_path f) /\ cf_change_type f = lit "D")).
Proof.
  unfold diff_entry; cbv zeta; intros H.
  destruct (after_blob d) as [pa|] eqn:Ea;
    [|destruct (before_blob d) as [pb|] eqn:Eb; [|discriminate H]].
  - destruct (existsb (fun folder => startswith folder pa) ITEM_FOLDERS && endswith (lit ".md") pa)
      eqn:Ef; [|discriminate H].
    injection H as <-; apply andb_true_iff in Ef as [F1 F2]; cbn [cf_path cf_change_type].
    split; [exact F1|split; [exact F2|left; split; [reflexivity|]]].
    destruct (opt_str_eqb _ _); [left|right]; reflexivity.
  - destruct (existsb (fun folder => startswith folder pb) ITEM_FOLDERS && endswith (lit ".md") pb)
      eqn:Ef; [|discriminate H].
    injection H as <-; apply andb_true_iff in Ef as [F1 F2]; cbn [cf_path cf_change_type].
    split; [exact F1|split; [exact F2|right; auto]].
Qed.

(** A delta change set from [get_changed_files] lists only [.md] files
    under the three item folders, and every such file a difference names
    is listed.  A difference with an [afterBlob] (an add, a modification,
    or a rename or move, which has both blobs) is listed under its new
    path as [A] or [M]; a difference with only a [beforeBlob] is listed as
    [D]; a file is listed as [D] only for a difference without an
    [afterBlob], so the old path of a rename is never reported deleted by
    that difference. *)
Theorem get_changed_files_delta_entries (old new_commit : str) (env : Env) (w : World)
  (ds : list Difference) (Hd : cc_differences env old new_commit = Some ds) :
  exists fs, snd (get_changed_files (Some old) new_commit env w) = PyOk fs /\
  (forall f, In f fs ->
     existsb (fun folder => startswith folder (cf_path f)) ITEM_FOLDERS = true /\
     endswith (lit ".md") (cf_path f) = true /\
     exists d, In d ds /\
       ((after_blob d = Some (cf_path f) /\
         (cf_change_type f = lit "A" \/ cf_change_type f = lit "M")) \/
        (after_blob d = None /\ before_blob d = Some (cf_path f) /\
         cf_change_type f = lit "D"))) /\
  (forall d p, In d ds -> after_blob d = Some p ->
     existsb (fun folder => startswith folder p) ITEM_FOLDERS && endswith (lit ".md") p = true ->
     exists ct, In (mkChangedFile p ct) fs /\ (ct = lit "A" \/ ct = lit "M")) /\
  (forall d p, In d ds -> after_blob d = None -> before_blob d = Some p ->
     existsb (fun folder => startswith folder p) ITEM_FOLDERS && endswith (lit ".md") p = true ->
     In (mkChangedFile p (lit "D")) fs).
Proof.
  unfold get_changed_files, bind, log, ask, ret; cbv beta iota zeta.
  rewrite Hd; cbn [snd].
  exists (filter_some diff_entry ds); split; [reflexivity|split; [|split]].
  - intros f Hf; apply filter_some_In in Hf as (d & Hin & Ed).
    destruct (diff_entry_some d f Ed) as (F1 & F2 & F3).
    split; [exact F1|split; [exact F2|exists d; split; assumption]].
  - intros d p Hin Ea Hp.
    exists (if opt_str_eqb (change_type_of d) (Some (lit "A")) then lit "A" else lit "M").
    split; [|destruct (opt_str_eqb _ _); [left|right]; reflexivity].
    apply (filter_some_In_intro diff_entry ds d); [exact Hin|].
    unfold diff_entry; rewrite Ea; cbv beta iota zeta; rewrite Hp; reflexivity.
  - intros d p Hin Ea Eb Hp.
    apply (filter_some_In_intro diff_entry ds d); [exact Hin|].
    unfold diff_entry; rewrite Ea, Eb; cbv beta iota zeta; rewrite Hp; reflexivity.
Qed.

Lemma get_changed_files_delta_entries_witness :
  let old_path := lit "10-ideas/2025-01-20__garden__sb-1234567.md" in
  let new_path := lit "30-projects/2025-01-20__garden__sb-1234567.md" in
  let ds := [mkDifference (Some new_path) (Some old_path) (Some (lit "M"))] in
  let env := env_with (Some head0) (Some ds) no_files true in
  cc_differences env old0 head0 = Some ds /\
  snd (get_changed_files (Some old0) head0 env (world_at (Some old0))) =
    PyOk [mkChangedFile new_path (lit "M")] /\
  exists fs, snd (get_changed_files (Some old0) head0 env (world_at (Some old0))) = PyOk fs /\
  (forall f, In f fs ->
     existsb (fun folder => startswith folder (cf_path f)) ITEM_FOLDERS = true /\
     endswith (lit ".md") (cf_path f) = true /\
     exists d, In d ds /\
       ((after_blob d = Some (cf_path f) /\
         (cf_change_type f = lit "A" \/ cf_change_type f = lit "M")) \/
        (after_blob d = None /\ before_blob d = Some (cf_path f) /\
         cf_change_type f = lit "D"))) /\
  (forall d p, In d ds -> after_blob d = Some p ->
     existsb (fun folder => startswith folder p) ITEM_FOLDERS && endswith (lit ".md") p = true ->
     exists ct, In (mkChangedFile p ct) fs /\ (ct = lit "A" \/ ct = lit "M")) /\
  (forall d p, In d ds -> after_blob d = None -> before_blob d = Some p ->
     existsb (fun folder => startswith folder p) ITEM_FOLDERS && endswith (lit ".md") p = true ->
     In (mkChangedFile p (lit "D")) fs).
Proof.
  intros old_path new_path ds env.
  assert (H : cc_differences env old0 head0 = Some ds) by reflexivity.
  split; [exact H|split; [vm_compute; reflexivity|]].
  exact (get_changed_files_delta_entries old0 head0 env (world_at (Some old0)) ds H).
Defined.

Lemma md_not_gitkeep (p : str) :
  endswith (lit ".md") p = true -> endswith (lit ".gitkeep") p = false.
Proof.
  unfold endswith.
  change (rev (lit ".md")) with ("d"%char :: lit "m.").
  change (rev (lit ".gitkeep")) with ("p"%char :: lit "eektig.").
  destruct (rev p) as [|a r]; [discriminate|]; cbn [startswith].
  intros H; apply andb_true_iff in H as [H _]; apply Ascii.eqb_eq in H; subst a; reflexivity.
Qed.

Lemma all_item_files_loop_spec (c : str) (folders : list str) (env : Env) (w : World) :
  exists fs,
    get_all_item_files_loop c folders env w =
      (mkWorld (ssm_param w) (calls w ++ map (fun f => CallGetFolder (rstrip_slash f) c) folders),
       PyOk fs) /\
    forall f, In f fs <->
      (cf_change_type f = lit "A" /\ endswith (lit ".md") (cf_path f) = true /\
       exists folder ps, In folder folders /\ cc_folder env (rstrip_slash folder) c = FolderFiles ps
                         /\ In (cf_path f) ps).
Proof.
  revert w; induction folders as [|fo fos IH]; intros w.
  - exists []; split; [destruct w; cbn; rewrite app_nil_r; reflexivity|].
    intros f; split; [intros []|intros (_ & _ & fo & ps & [] & _)].
  - cbn [get_all_item_files_loop]; cbv beta zeta delta [bind log ask ret].
    destruct (IH (mkWorld (ssm_param w) (calls w ++ [CallGetFolder (rstrip_slash fo) c])))
      as (fs & E & G).
    rewrite E; cbv beta iota.
    eexists; split; [cbn [map calls ssm_param]; rewrite <- app_assoc; reflexivity|].
    intros f; rewrite in_app_iff, G; split.
    + intros [H|(Ha & Hm & fo' & ps & Hin & Ef & Hq)].
      * destruct (cc_folder env (rstrip_slash fo) c) as [ps| |] eqn:Ef; [|destruct H|destruct H].
        apply in_map_iff in H as (q & <- & Hq); apply filter_In in Hq as [Hq Hp].
        apply andb_true_iff in Hp as [Hmd _]; cbn [cf_path cf_change_type].
        split; [reflexivity|split; [exact Hmd|exists fo, ps; split; [left; reflexivity|auto]]].
      * split; [exact Ha|split; [exact Hm|exists fo', ps; split; [right; exact Hin|auto]]].
    + intros (Ha & Hm & fo' & ps & [<-|Hin] & Ef & Hq).
      * left; rewrite Ef; apply in_map_iff; exists (cf_path f); split.
        -- destruct f as [fp ft]; cbn in Ha |- *; subst; reflexivity.
        -- apply filter_In; split; [exact Hq|rewrite Hm, md_not_gitkeep by exact Hm; reflexivity].
      * right; split; [exact Ha|split; [exact Hm|exists fo', ps; auto]].
Qed.

Lemma get_all_item_files_spec (c : str) (env : Env) (w : World) :
  exists fs,
    get_all_item_files c env w =
      (mkWorld (ssm_param w)
         (calls w ++ [CallGetFolder (lit "10-ideas") c; CallGetFolder (lit "20-decisions") c;
                      CallGetFolder (lit "30-projects") c]),
       PyOk fs) /\
    forall f, In f fs <->
      (cf_change_type f = lit "A" /\ endswith (lit ".md") (cf_path f) = true /\
       exists folder ps, In folder [lit "10-ideas"; lit "20-decisions"; lit "30-projects"] /\
                         cc_folder env folder c = FolderFiles ps /\ In (cf_path f) ps).
Proof.
  destruct (all_item_files_loop_spec c ITEM_FOLDERS env w) as (fs & E & G).
  exists fs; split; [exact E|].
  intros f; rewrite G; split; intros (Ha & Hm & fo & ps & Hin & Ef & Hq);
    (split; [exact Ha|split; [exact Hm|]]).
  - exists (rstrip_slash fo), ps; split; [|split; assumption].
    destruct Hin as [<-|[<-|[<-|[]]]]; [left|right; left|right; right; left]; reflexivity.
  - destruct Hin as [<-|[<-|[<-|[]]]];
      [exists (lit "10-ideas/")|exists (lit "20-decisions/")|exists (lit "30-projects/")];
      exists ps; (split; [cbn [ITEM_FOLDERS In]; auto|split; assumption]).
Qed.

(** [_get_all_item_files] lists the three item folders in order, with
    their trailing slash removed, and returns, typed [A], exactly the
    [.md] paths those listings contain. A folder that does not exist or
    whose listing fails contributes nothing and does not stop the
    others. *)
Theorem get_all_item_files_lists_md (c : str) (env : Env) (w : World) :
  exists fs,
    get_all_item_files c env w =
      (mkWorld (ssm_param w)
         (calls w ++ [CallGetFolder (lit "10-ideas") c; CallGetFolder (lit "20-decisions") c;
                      CallGetFolder (lit "30-projects") c]),
       PyOk fs) /\
    forall f, In f fs <->
      (cf_change_type f = lit "A" /\ endswith (lit ".md") (cf_path f) = true /\
       exists folder ps, In folder [lit "10-ideas"; lit "20-decisions"; lit "30-projects"] /\
                         cc_folder env folder c = FolderFiles ps /\ In (cf_path f) ps).
Proof. exact (get_all_item_files_spec c env w). Qed.

(** ** Full syncs *)


Lemma full_sync_run (actor h : str) (env : Env) (w : World)
  (Hh : cc_branch env = Some h) (Hne : h <> [])
  (Hm : ssm_param w = None \/ ssm_param w = Some (lit "initial") \/ ssm_get_ok env = false) :
  let w1 := mkWorld (ssm_param w) (calls w ++ [CallGetBranch; CallGetParameter]) in
  let w2 := mkWorld (ssm_param w)
              (calls w1 ++ [CallGetFolder (lit "10-ideas") h; CallGetFolder (lit "20-decisions") h;
                            CallGetFolder (lit "30-projects") h]) in
  exists fs,
    get_all_item_files h env w1 = (w2, PyOk fs) /\
    (forall f, In f fs <->
       (cf_change_type f = lit "A" /\ endswith (lit ".md") (cf_path f) = true /\
        exists folder ps, In folder [lit "10-ideas"; lit "20-decisions"; lit "30-projects"] /\
                          cc_folder env folder h = FolderFiles ps /\ In (cf_path f) ps)) /\
    sync_items actor env w =
      match full_loop actor h fs 0 env w2 with
      | (w3, PyOk n) =>
          (fst (set_sync_marker h env w3), PyOk (mkSyncResult true n 0 (Some h) None))
      | (w3, PyExc e) => (w3, PyOk (sync_failure (exn_str e)))
      end.
Proof.
  intros w1 w2.
  destruct (get_all_item_files_spec h env w1) as (fs & E & G).
  exists fs; split; [exact E|split; [exact G|]].
  unfold sync_items, try_catch, sync_items_body, get_codecommit_head, get_sync_marker,
    bind, log, ask, ret.
  cbv beta iota zeta.
  rewrite Hh; destruct h as [|c h]; [congruence|].
  assert (Hv : (if ssm_get_ok env
                then match ssm_param w with
                     | Some value => if str_eqb value (lit "initial") then None else Some value
                     | None => None
                     end
                else None) = None)
    by (destruct Hm as [H|[H|H]]; rewrite H; [destruct (ssm_get_ok env)|destruct (ssm_get_ok env)|];
        reflexivity).
  cbn [ssm_param calls]; rewrite Hv.
  cbv beta iota zeta delta [str_truthy opt_str_eqb andb negb].
  rewrite <- app_assoc.
  change (mkWorld (ssm_param w) (calls w ++ [CallGetBranch] ++ [CallGetParameter])) with w1.
  change (get_all_item_files (c :: h) env w1 = (w2, PyOk fs)) in E.
  rewrite E; cbv beta iota.
  destruct (full_loop actor (c :: h) fs 0 env w2) as [w3 [e|n]]; [reflexivity|].
  unfold set_sync_marker, bind, log; destruct (ssm_put_ok env); reflexivity.
Qed.

(** A stored marker of ["initial"] counts as no marker: with a HEAD
    commit [h], [sync_items] then runs a full sync, like a first sync or a
    failed marker read.  After reading HEAD and the marker it lists the
    three item folders at [h] (the listing holds exactly the [.md] paths
    of those folders), runs the full sync loop over that listing, then
    writes [h] as the marker and reports the synced count, no deletions
    and [h]; an exception in the loop becomes a failed result. *)
Theorem sync_items_initial_marker_full_sync (actor h : str) (env : Env) (w : World)
  (Hh : cc_branch env = Some h) (Hne : h <> [])
  (Hm : ssm_param w = None \/ ssm_param w = Some (lit "initial") \/ ssm_get_ok env = false) :
  let w1 := mkWorld (ssm_param w) (calls w ++ [CallGetBranch; CallGetParameter]) in
  let w2 := mkWorld (ssm_param w)
              (calls w1 ++ [CallGetFolder (lit "10-ideas") h; CallGetFolder (lit "20-decisions") h;
                            CallGetFolder (lit "30-projects") h]) in
  exists fs,
    get_all_item_files h env w1 = (w2, PyOk fs) /\
    (forall f, In f fs <->
       (cf_change_type f = lit "A" /\ endswith (lit ".md") (cf_path f) = true /\
        exists folder ps, In folder [lit "10-ideas"; lit "20-decisions"; lit "30-projects"] /\
                          cc_folder env folder h = FolderFiles ps /\ In (cf_path f) ps)) /\
    sync_items actor env w =
      match full_loop actor h fs 0 env w2 with
      | (w3, PyOk n) =>
          (fst (set_sync_marker h env w3), PyOk (mkSyncResult true n 0 (Some h) None))
      | (w3, PyExc e) => (w3, PyOk (sync_failure (exn_str e)))
      end.
Proof. exact (full_sync_run actor h env w Hh Hne Hm). Qed.

Lemma sync_items_initial_marker_full_sync_witness :
  let env := env_with (Some head0) (Some [mkDifference None (Some deleted_path0) (Some (lit "D"))])
                      no_files true in
  let w := world_at (Some (lit "initial")) in
  let w1 := mkWorld (ssm_param w) (calls w ++ [CallGetBranch; CallGetParameter]) in
  let w2 := mkWorld (ssm_param w)
              (calls w1 ++ [CallGetFolder (lit "10-ideas") head0;
                            CallGetFolder (lit "20-decisions") head0;
                            CallGetFolder (lit "30-projects") head0]) in
  exists fs,
    get_all_item_files head0 env w1 = (w2, PyOk fs) /\
    (forall f, In f fs <->
       (cf_change_type f = lit "A" /\ endswith (lit ".md") (cf_path f) = true /\
        exists folder ps, In folder [lit "10-ideas"; lit "20-decisions"; lit "30-projects"] /\
                          cc_folder env folder head0 = FolderFiles ps /\ In (cf_path f) ps)) /\
    sync_items actor0 env w =
      match full_loop actor0 head0 fs 0 env w2 with
      | (w3, PyOk n) =>
          (fst (set_sync_marker head0 env w3), PyOk (mkSyncResult true n 0 (Some head0) None))
      | (w3, PyExc e) => (w3, PyOk (sync_failure (exn_str e)))
      end.
Proof.
  intros env w.
  exact (sync_items_initial_marker_full_sync actor0 head0 env w eq_refl
           ltac:(discriminate) (or_intror (or_introl eq_refl))).
Defined.



(** ** Counted results and the calls behind them *)

Lemma count_batch_app (a b : list Call) : count_batch (a ++ b) = count_batch a + count_batch b.
Proof. unfold count_batch; rewrite filter_app, length_app; reflexivity. Qed.

Lemma count_marked_app (a b : list Call) : count_marked (a ++ b) = count_marked a + count_marked b.
Proof. unfold count_marked; rewrite filter_app, length_app; reflexivity. Qed.

Lemma read_only_counts (l : list Call) :
  Forall read_only_call l -> count_batch l = 0 /\ count_marked l = 0.
Proof.
  induction 1 as [|c l Hc _ [IHb IHm]]; [split; reflexivity|].
  destruct c; cbn [read_only_call] in Hc; try contradiction;
    unfold count_batch, count_marked in *; cbn [filter List.length]; split; assumption.
Qed.

Lemma ro_run_counts {A} (m : M A) env w :
  stays (logs_only read_only_call) m ->
  exists new, calls (fst (m env w)) = calls w ++ new /\ count_batch new = 0 /\ count_marked new = 0.
Proof.
  intros H; destruct (H env w) as (new & E & F); exists new; split; [exact E|].
  apply read_only_counts, F.
Qed.

Lemma ro_get_sync_marker : stays (logs_only read_only_call) get_sync_marker.
Proof. apply stays_get_sync_marker; lo_hyps. Qed.

Lemma ro_get_changed_files (o : option str) (n : str) :
  stays (logs_only read_only_call) (get_changed_files o n).
Proof. apply stays_get_changed_files; lo_hyps. Qed.

Lemma ro_get_all_item_files (c : str) : stays (logs_only read_only_call) (get_all_item_files c).
Proof. apply stays_get_all_item_files; lo_hyps. Qed.

Lemma sync_file_counts (a p h : str) env w :
  exists new, calls (fst (sync_file a p h env w)) = calls w ++ new /\ count_marked new = 0 /\
              (snd (sync_file a p h env w) = PyOk true -> 1 <= count_batch new).
Proof.
  unfold sync_file, get_file_content, store_item_in_memory, memory_client, bind, log, ask,
    lift, ret.
  cbv beta iota zeta.
  repeat match goal with |- context [match ?x with _ => _ end] => destruct x end;
    (eexists; split; [cbn [calls]; first [reflexivity|rewrite <- app_assoc; reflexivity]|]);
    (split; [reflexivity|]); cbn [snd]; intros H; try discriminate H;
    unfold count_batch; cbn; lia.
Qed.

Lemma delta_loop_counts (a h : str) (fs : list ChangedFile) :
  forall s d env w,
  exists new, calls (fst (delta_loop a h fs s d env w)) = calls w ++ new /\
    forall s' d', snd (delta_loop a h fs s d env w) = PyOk (s', d') ->
                  s' <= s + count_batch new /\ d' = d + count_marked new.
Proof.
  induction fs as [|f fs IH]; intros s d env w.
  - exists []; rewrite app_nil_r; split; [reflexivity|].
    intros s' d' H; injection H as <- <-; cbn; lia.
  - cbn [delta_loop]; cbv zeta.
    destruct (str_eqb (cf_change_type f) (lit "D"));
      [destruct (startswith (lit "sb-") (deleted_sb_id (cf_path f)))|].
    + unfold delete_item_from_memory, bind, log, ret; cbv beta iota.
      destruct (IH s (S d) env
                  (mkWorld (ssm_param w) (calls w ++ [CallMarkDeleted a (deleted_sb_id (cf_path f))])))
        as (n & En & Hn).
      exists (CallMarkDeleted a (deleted_sb_id (cf_path f)) :: n).
      rewrite En; cbn [calls]; rewrite <- app_assoc; split; [reflexivity|].
      intros s' d' H; specialize (Hn s' d' H).
      unfold count_batch, count_marked in *; cbn [filter List.length]; lia.
    + exact (IH s d env w).
    + unfold bind.
      destruct (sync_file_counts a (cf_path f) h env w) as (n1 & E1 & M1 & B1).
      destruct (sync_file a (cf_path f) h env w) as [w1 [e|ok]]; cbn [fst snd] in E1, B1; cbv beta iota.
      * exists n1; split; [exact E1|intros s' d' H; discriminate H].
      * destruct (IH (if ok then S s else s) d env w1) as (n2 & E2 & H2).
        exists (n1 ++ n2); rewrite E2, E1, <- app_assoc; split; [reflexivity|].
        intros s' d' H; specialize (H2 s' d' H).
        rewrite count_batch_app, count_marked_app, M1.
        destruct ok; [specialize (B1 eq_refl)|]; lia.
Qed.

Lemma full_loop_counts (a h : str) (fs : list ChangedFile) :
  forall s env w,
  exists new, calls (fst (full_loop a h fs s env w)) = calls w ++ new /\ count_marked new = 0 /\
    forall s', snd (full_loop a h fs s env w) = PyOk s' -> s' <= s + count_batch new.
Proof.
  induction fs as [|f fs IH]; intros s env w.
  - exists []; rewrite app_nil_r; split; [reflexivity|split; [reflexivity|]].
    intros s' H; injection H as <-; cbn; lia.
  - cbn [full_loop]; unfold bind.
    destruct (sync_file_counts a (cf_path f) h env w) as (n1 & E1 & M1 & B1).
    destruct (sync_file a (cf_path f) h env w) as [w1 [e|ok]]; cbn [fst snd] in E1, B1; cbv beta iota.
    + exists n1; split; [exact E1|split; [exact M1|intros s' H; discriminate H]].
    + destruct (IH (if ok then S s else s) env w1) as (n2 & E2 & M2 & H2).
      exists (n1 ++ n2); rewrite E2, E1, <- app_assoc; split; [reflexivity|].
      rewrite count_marked_app, M1, M2; split; [reflexivity|].
      intros s' H; specialize (H2 s' H); rewrite count_batch_app.
      destruct ok; [specialize (B1 eq_refl)|]; lia.
Qed.

Ltac ro_destruct m env0 w0 H :=
  let n := fresh "n" in let E := fresh "E" in let B := fresh "B" in let Mk := fresh "Mk" in
  destruct (ro_run_counts m env0 w0 H) as (n & E & B & Mk);
  let w1 := fresh "w" in let e1 := fresh "e" in let a1 := fresh "a" in
  destruct (m env0 w0) as [w1 [e1|a1]]; cbn [fst] in E.

Ltac count_run :=
  repeat (cbv beta iota zeta;
    match goal with
    | |- context [get_sync_marker ?e ?w0] =>
        ro_destruct get_sync_marker e w0 ro_get_sync_marker
    | |- context [get_changed_files ?o ?c ?e ?w0] =>
        ro_destruct (get_changed_files o c) e w0 (ro_get_changed_files o c)
    | |- context [get_all_item_files ?c ?e ?w0] =>
        ro_destruct (get_all_item_files c) e w0 (ro_get_all_item_files c)
    | |- context [delta_loop ?a ?h ?fs ?s ?d ?e ?w0] =>
        let n := fresh "n" in let E := fresh "E" in let Hd := fresh "Hd" in
        destruct (delta_loop_counts a h fs s d e w0) as (n & E & Hd);
        let w1 := fresh "w" in let e1 := fresh "e" in let s1 := fresh "s" in let d1 := fresh "d" in
        destruct (delta_loop a h fs s d e w0) as [w1 [e1|[s1 d1]]]; cbn [fst snd] in E, Hd
    | |- context [full_loop ?a ?h ?fs ?s ?e ?w0] =>
        let n := fresh "n" in let E := fresh "E" in let Mk := fresh "Mk" in
        let Hf := fresh "Hf" in
        destruct (full_loop_counts a h fs s e w0) as (n & E & Mk & Hf);
        let w1 := fresh "w" in let e1 := fresh "e" in let s1 := fresh "s" in
        destruct (full_loop a h fs s e w0) as [w1 [e1|s1]]; cbn [fst snd] in E, Hf
    | |- context [if ?b then _ else _] => destruct b
    end).

Ltac calls_chain :=
  cbn [fst snd calls] in *;
  repeat match goal with H : calls _ = _ |- _ => rewrite H; clear H end;
  rewrite <- ?app_assoc; reflexivity.

Lemma sync_items_body_counts (actor : str) env w :
  exists new, calls (fst (sync_items_body actor env w)) = calls w ++ new /\
    forall res, snd (sync_items_body actor env w) = PyOk res ->
      items_synced res <= count_batch new /\ items_deleted res = count_marked new.
Proof.
  unfold sync_items_body, get_codecommit_head, set_sync_marker, bind, log, ask, ret.
  cbv beta iota zeta.
  destruct (cc_branch env) as [[|c hd]|];
    [exists [CallGetBranch]; split; [reflexivity|intros res H; injection H as <-; cbn; lia]| |
     exists [CallGetBranch]; split; [reflexivity|intros res H; injection H as <-; cbn; lia]].
  count_run.
  all: eexists; split; [calls_chain|].
  all: intros res H; cbn [fst snd] in H; try discriminate H; injection H as <-.
  all: repeat match goal with
              | Hd : forall s' d', PyOk _ = PyOk (s', d') -> _ |- _ => specialize (Hd _ _ eq_refl)
              | Hf : forall s', PyOk _ = PyOk s' -> _ |- _ => specialize (Hf _ eq_refl)
              end.
  all: cbn [items_synced items_deleted fst snd];
    rewrite ?count_batch_app, ?count_marked_app; cbn [count_batch count_marked filter List.length] in *.
  all: repeat match goal with H : _ /\ _ |- _ => destruct H end; split; lia.
Qed.

(** Every count [sync_items] reports is backed by calls it made: the
    synced count never exceeds the Memory writes it issued and the deleted
    count never exceeds the deletion marks it issued. On success the
    deleted count is exactly the number of deletion marks. *)
Theorem sync_items_counts_match_calls (actor : str) (env : Env) (w : World) :
  exists new res,
    calls (fst (sync_items actor env w)) = calls w ++ new /\
    snd (sync_items actor env w) = PyOk res /\
    items_synced res <= count_batch new /\ items_deleted res <= count_marked new /\
    (success res = true -> items_deleted res = count_marked new).
Proof.
  destruct (sync_items_body_counts actor env w) as (new & E & H).
  unfold sync_items, try_catch, ret.
  destruct (sync_items_body actor env w) as [w1 [e|res]]; cbn [fst snd] in E, H |- *.
  - exists new, (sync_failure (exn_str e)); cbn; repeat split; [exact E|lia|lia|discriminate].
  - destruct (H res eq_refl) as [Hs Hd].
    exists new, res; repeat split; [exact E|exact Hs|lia|intros _; exact Hd].
Qed.

(** ** The sync marker read back *)

(** Reading the marker right after writing [commit_id] gives
    [commit_id] back, except that the value ["initial"] reads as no
    marker at all. If the SSM write fails, the read returns what it
    returned before the write. *)
Theorem sync_marker_set_then_get (commit_id : str) (env : Env) (w : World)
  (Hget : ssm_get_ok env = true) :
  snd ((_ <- set_sync_marker commit_id ;; get_sync_marker) env w) =
  if ssm_put_ok env
  then PyOk (if str_eqb commit_id (lit "initial") then None else Some commit_id)
  else snd (get_sync_marker env w).
Proof.
  unfold set_sync_marker, get_sync_marker, bind, log; cbv beta iota.
  rewrite Hget; destruct (ssm_put_ok env); reflexivity.
Qed.

Lemma sync_marker_set_then_get_witness :
  ssm_get_ok (env_with (Some head0) None no_files true) = true /\
  snd ((_ <- set_sync_marker (lit "initial") ;; get_sync_marker)
         (env_with (Some head0) None no_files true) (world_at (Some old0))) = PyOk None /\
  snd ((_ <- set_sync_marker (lit "initial") ;; get_sync_marker)
         (env_with (Some head0) None no_files true) (world_at (Some old0))) =
  (if ssm_put_ok (env_with (Some head0) None no_files true)
   then PyOk (if str_eqb (lit "initial") (lit "initial") then None else Some (lit "initial"))
   else snd (get_sync_marker (env_with (Some head0) None no_files true) (world_at (Some old0)))).
Proof.
  split; [reflexivity|split; [vm_compute; reflexivity|]].
  apply sync_marker_set_then_get; reflexivity.
Defined.

(** ** Missing request fields *)

(** [sync_handler.handler] answers a [sync_item] request without a
    non-empty [item_path] or [item_content], and a [delete_item] request
    without a non-empty [sb_id], with an error response, and makes no
    call. *)
Theorem handler_missing_fields_rejected (memory_id : str) (event : SyncHandler.Event)
  (env : Env) (w : World)
  (Hactor : str_truthy (SyncHandler.actor_id event) = true) (Hmem : memory_id <> [])
  (Hmiss :
     (SyncHandler.operation event = Some (lit "sync_item") /\
      (str_truthy (SyncHandler.item_path event) = false \/
       str_truthy (SyncHandler.item_content event) = false)) \/
     (SyncHandler.operation event = Some (lit "delete_item") /\
      str_truthy (SyncHandler.sb_id event) = false)) :
  exists msg, SyncHandler.handler memory_id event env w = (w, PyOk (error_response msg)).
Proof.
  destruct memory_id as [|x m]; [contradiction|].
  unfold SyncHandler.handler; cbv zeta; rewrite Hactor.
  destruct Hmiss as [[Eo Hp]|[Eo Hs]]; rewrite Eo.
  - change (is_op (Some (lit "sync_item")) "sync_item") with true.
    change (str_truthy (Some (lit "sync_item"))) with true; cbn [negb str_truthy].
    unfold SyncHandler.handle_sync_item; cbv zeta.
    destruct Hp as [Hp|Hp]; rewrite Hp;
      [|destruct (str_truthy (SyncHandler.item_path event))]; eexists; reflexivity.
  - change (is_op (Some (lit "delete_item")) "sync_item") with false.
    change (is_op (Some (lit "delete_item")) "sync_all") with false.
    change (is_op (Some (lit "delete_item")) "delete_item") with true.
    change (str_truthy (Some (lit "delete_item"))) with true; cbn [negb str_truthy].
    unfold SyncHandler.handle_delete_item; cbv zeta; rewrite Hs; eexists; reflexivity.
Qed.

Lemma handler_missing_fields_rejected_witness :
  exists msg,
    SyncHandler.handler (lit "mem-1")
      (SyncHandler.mkEvent (Some (lit "sync_item")) (Some actor0) None (Some (lit "body"))
                           None false)
      (env_with (Some head0) None no_files true) (world_at None)
    = (world_at None, PyOk (error_response msg)).
Proof.
  apply handler_missing_fields_rejected; [reflexivity|discriminate|].
  left; split; [reflexivity|left; reflexivity].
Defined.

(** [classifier.handle_sync_operation], with the sync module available,
    answers a [sync_item] request without a non-empty [item_path] or
    [item_content], and a [delete_item] request without a non-empty
    [sb_id], with an error response, and makes no call. *)
Theorem classifier_missing_fields_rejected (payload : Classifier.Payload) (env : Env) (w : World)
  (Hmiss :
     (Classifier.sync_operation payload = Some (lit "sync_item") /\
      (str_truthy (Classifier.item_path payload) = false \/
       str_truthy (Classifier.item_content payload) = false)) \/
     (Classifier.sync_operation payload = Some (lit "delete_item") /\
      str_truthy (Classifier.sb_id payload) = false)) :
  exists msg, Classifier.handle_sync_operation true payload env w = (w, PyOk (error_response msg)).
Proof.
  unfold Classifier.handle_sync_operation; cbv zeta; cbn [negb].
  destruct Hmiss as [[Eo Hp]|[Eo Hs]]; rewrite Eo.
  - change (is_op (Some (lit "sync_item")) "health_check") with false.
    change (is_op (Some (lit "sync_item")) "sync_item") with true.
    change (str_truthy (Some (lit "sync_item"))) with true; cbn [negb].
    unfold Classifier.handle_sync_item.
    destruct Hp as [Hp|Hp]; rewrite Hp; cbn [negb orb];
      [|rewrite orb_true_r]; eexists; reflexivity.
  - change (is_op (Some (lit "delete_item")) "health_check") with false.
    change (is_op (Some (lit "delete_item")) "sync_item") with false.
    change (is_op (Some (lit "delete_item")) "sync_all") with false.
    change (is_op (Some (lit "delete_item")) "delete_item") with true.
    change (str_truthy (Some (lit "delete_item"))) with true; cbn [negb].
    unfold Classifier.handle_delete_item; rewrite Hs; eexists; reflexivity.
Qed.

Lemma classifier_missing_fields_rejected_witness :
  exists msg,
    Classifier.handle_sync_operation true
      (Classifier.mkPayload (Some (lit "delete_item")) (Some actor0) None None None
                            (Some []) false)
      (env_with (Some head0) None no_files true) (world_at None) =
    (world_at None, PyOk (error_response msg)).
Proof.
  apply classifier_missing_fields_rejected; right; split; reflexivity.
Defined.

(** ** The CodeCommit item scan of the health check *)

Lemma codecommit_items_loop_raise_run (hc : str) (bad : ChangedFile) (post : list ChangedFile)
  (items : list ItemMetadata) (env : Env) (w : World) (c : str) (e : exn)
  (Hc : cc_file env (cf_path bad) hc = Some c) (Hne : c <> [])
  (Hx : extract_item_metadata (cf_path bad) c = PyExc e) :
  codecommit_items_loop hc (bad :: post) items env w =
  (logged w (CallGetFile (cf_path bad) hc), PyOk items).
Proof.
  cbn [codecommit_items_loop].
  unfold get_file_content, bind, log, ask, attempt, lift, ret; cbv beta iota zeta.
  rewrite Hc; destruct c as [|ch c]; [contradiction|].
  cbv iota; rewrite Hx; reflexivity.
Qed.

(** In [get_all_codecommit_items], a file whose front matter makes
    [extract_item_metadata] raise (an [id] given as a list) ends the scan:
    the items returned are those of the files before it, and the files
    after it are never read. *)
Theorem codecommit_items_loop_stops_at_raise (hc : str) (pre : list ChangedFile)
  (bad : ChangedFile) (post : list ChangedFile) (items : list ItemMetadata)
  (env : Env) (w : World) (c : str) (e : exn)
  (Hc : cc_file env (cf_path bad) hc = Some c) (Hne : c <> [])
  (Hx : extract_item_metadata (cf_path bad) c = PyExc e) :
  snd (codecommit_items_loop hc (pre ++ bad :: post) items env w) =
  snd (codecommit_items_loop hc pre items env w) /\
  forall post', codecommit_items_loop hc (pre ++ bad :: post') items env w =
                codecommit_items_loop hc (pre ++ bad :: post) items env w.
Proof.
  revert items w; induction pre as [|f pre IH]; intros items w.
  - cbn [app]; rewrite (codecommit_items_loop_raise_run hc bad post items env w c e Hc Hne Hx).
    split; [reflexivity|intros post'].
    rewrite (codecommit_items_loop_raise_run hc bad post' items env w c e Hc Hne Hx); reflexivity.
  - cbn [app codecommit_items_loop].
    unfold get_file_content, bind, log, ask, attempt, lift, ret; cbv beta iota zeta.
    destruct (cc_file env (cf_path f) hc) as [[|ch c']|]; cbv iota; [apply IH| |apply IH].
    destruct (extract_item_metadata (cf_path f) (ch :: c')) as [e'|[m|]]; cbv beta iota;
      [split; reflexivity|apply IH|apply IH].
Qed.

Lemma codecommit_items_loop_stops_at_raise_witness :
  let bad := mkChangedFile (lit "10-ideas/a.md") (lit "A") in
  let good := mkChangedFile (lit "10-ideas/b.md") (lit "A") in
  let env := env_with (Some head0) None (fun _ => Some header_list_id) true in
  cc_file env (cf_path bad) head0 = Some header_list_id /\
  extract_item_metadata (cf_path bad) header_list_id = PyExc re_type_error /\
  snd (codecommit_items_loop head0 ([] ++ bad :: [good]) [] env (world_at None)) =
  snd (codecommit_items_loop head0 [] [] env (world_at None)) /\
  forall post', codecommit_items_loop head0 ([] ++ bad :: post') [] env (world_at None) =
                codecommit_items_loop head0 ([] ++ bad :: [good]) [] env (world_at None).
Proof.
  intros bad good env.
  assert (Hx : extract_item_metadata (cf_path bad) header_list_id = PyExc re_type_error)
    by (vm_compute; reflexivity).
  split; [reflexivity|split; [exact Hx|]].
  apply (codecommit_items_loop_stops_at_raise head0 [] bad [good] [] env (world_at None)
           header_list_id re_type_error); [reflexivity|discriminate|exact Hx].
Defined.

(** ** The classifier's sync before and after classification *)

Lemma nf_delta_loop (actor h : str) (fs : list ChangedFile) (s d : nat) :
  stays (logs_only no_folder_call) (delta_loop actor h fs s d).
Proof. apply stays_delta_loop; lo_hyps. Qed.

Create HintDb nofolder.
#[local] Hint Resolve nf_delta_loop : nofolder.

Ltac nf_run :=
  repeat (cbv beta iota zeta;
    match goal with
    | |- context [?m ?env0 ?w0] =>
        is_var env0;
        let Hn := fresh "Hn" in
        assert (Hn : logs_only no_folder_call env0 w0 (fst (m env0 w0)))
          by (apply run_stays; eauto with nofolder);
        let w1 := fresh "w" in let e1 := fresh "e" in let a1 := fresh "a" in
        destruct (m env0 w0) as [w1 [e1|a1]]; simpl in Hn
    | |- context [if ?b then _ else _] => destruct b
    end).

(** With a usable marker for a commit other than HEAD, [sync_items]
    takes the delta path: after reading HEAD and the marker it asks
    CodeCommit for the differences, and it never lists an item folder. *)
Lemma sync_items_delta_path (actor : str) (env : Env) (w : World) (old head : str)
  (Hb : cc_branch env = Some head) (Hh : head <> []) (Hp : ssm_param w = Some old)
  (Ho : old <> []) (Hg : ssm_get_ok env = true) (Hi : str_eqb old (lit "initial") = false)
  (Hne : str_eqb old head = false) :
  exists rest,
    calls (fst (sync_items actor env w)) =
      calls w ++ [CallGetBranch; CallGetParameter; CallGetDifferences old head] ++ rest /\
    Forall no_folder_call rest.
Proof.
  destruct head as [|h0 hd]; [contradiction|]; destruct old as [|o old']; [contradiction|].
  unfold sync_items, try_catch, sync_items_body, get_codecommit_head, get_sync_marker,
    get_changed_files, set_sync_marker, bind, log, ask, ret.
  cbv beta iota zeta.
  rewrite Hb; cbv iota; cbn [ssm_param calls]; rewrite Hg, Hp, Hi.
  cbv beta iota zeta delta [str_truthy opt_str_eqb andb negb].
  rewrite Hne; cbv iota.
  destruct (cc_differences env (o :: old') (h0 :: hd)); nf_run; cbn [fst snd]; lo_finish.
Qed.

(** [ensure_memory_initialized] and [run_delta_sync], with the sync
    module available and a memory id set, run a delta sync whenever a
    usable marker for a commit other than HEAD is stored: they ask
    CodeCommit for the differences and never list the item folders. So,
    despite the comment of [ensure_memory_initialized] ("Always performs
    a full sync"), items unchanged since the marker are not re-sent to
    Memory. *)
Theorem classifier_presync_is_delta (memory_id actor : str) (env : Env) (w : World)
  (old head : str) (Hmem : memory_id <> [])
  (Hb : cc_branch env = Some head) (Hh : head <> []) (Hp : ssm_param w = Some old)
  (Ho : old <> []) (Hg : ssm_get_ok env = true) (Hi : str_eqb old (lit "initial") = false)
  (Hne : str_eqb old head = false) :
  (exists rest,
     calls (fst (Classifier.ensure_memory_initialized true memory_id actor env w)) =
       calls w ++ [CallGetBranch; CallGetParameter; CallGetDifferences old head] ++ rest /\
     Forall no_folder_call rest) /\
  (exists rest,
     calls (fst (Classifier.run_delta_sync true memory_id actor env w)) =
       calls w ++ [CallGetBranch; CallGetParameter; CallGetDifferences old head] ++ rest /\
     Forall no_folder_call rest).
Proof.
  destruct memory_id as [|x m]; [contradiction|].
  destruct (sync_items_delta_path actor env w old head Hb Hh Hp Ho Hg Hi Hne) as (rest & E & F).
  unfold Classifier.ensure_memory_initialized, Classifier.run_delta_sync, try_catch, bind, ret.
  cbn [negb orb str_truthy].
  destruct (sync_items actor env w) as [w1 [e|r]]; cbn [fst] in E |- *;
    split; exists rest; split; assumption.
Qed.

Lemma classifier_presync_is_delta_witness :
  let env := env_with (Some head0) (Some []) no_files true in
  (exists rest,
     calls (fst (Classifier.ensure_memory_initialized true (lit "mem-1") actor0 env
                   (world_at (Some old0)))) =
       calls (world_at (Some old0))
       ++ [CallGetBranch; CallGetParameter; CallGetDifferences old0 head0] ++ rest /\
     Forall no_folder_call rest) /\
  (exists rest,
     calls (fst (Classifier.run_delta_sync true (lit "mem-1") actor0 env
                   (world_at (Some old0)))) =
       calls (world_at (Some old0))
       ++ [CallGetBranch; CallGetParameter; CallGetDifferences old0 head0] ++ rest /\
     Forall no_folder_call rest).
Proof.
  intros env.
  apply (classifier_presync_is_delta (lit "mem-1") actor0 env (world_at (Some old0)) old0 head0);
    first [reflexivity|discriminate].
Defined.

(** ** The classifier's CodeCommit fallback *)

Lemma all_item_files_loop_snd (c : str) (folders : list str) (env : Env) (w w' : World) :
  snd (get_all_item_files_loop c folders env w) = snd (get_all_item_files_loop c folders env w').
Proof.
  revert w w'; induction folders as [|fo fos IH]; intros w w'; [reflexivity|].
  cbn [get_all_item_files_loop]; cbv beta iota zeta delta [bind log ask ret].
  match goal with
  | |- context [get_all_item_files_loop c fos env ?x] =>
      match goal with
      | |- context [get_all_item_files_loop c fos env ?y] =>
          assert_fails (constr_eq x y);
          specialize (IH x y);
          destruct (get_all_item_files_loop c fos env x) as [w1 [e1|a1]];
          destruct (get_all_item_files_loop c fos env y) as [w2 [e2|a2]]
      end
  end; cbv beta iota; cbn [snd] in IH |- *; congruence.
Qed.

Lemma read_items_loop_raise (h : str) (pre : list ChangedFile) (bad : ChangedFile)
  (post : list ChangedFile) (env : Env) (c : str) (e : exn)
  (Hc : cc_file env (cf_path bad) h = Some c) (Hne : c <> [])
  (Hx : extract_item_metadata (cf_path bad) c = PyExc e) :
  forall items w, exists w' e',
    Classifier.read_items_loop h (pre ++ bad :: post) items env w = (w', PyExc e').
Proof.
  induction pre as [|f pre IH]; intros items w.
  - cbn [app Classifier.read_items_loop].
    unfold get_file_content, bind, log, ask, lift, ret; cbv beta iota zeta.
    rewrite Hc; destruct c as [|ch c]; [contradiction|].
    cbv iota; rewrite Hx; eexists; eexists; reflexivity.
  - cbn [app Classifier.read_items_loop].
    unfold get_file_content, bind, log, ask, lift, ret; cbv beta iota zeta.
    destruct (cc_file env (cf_path f) h) as [[|ch c']|]; cbv iota; [apply IH| |apply IH].
    destruct (extract_item_metadata (cf_path f) (ch :: c')) as [e'|[m|]]; cbv beta iota;
      [eexists; eexists; reflexivity|apply IH|apply IH].
Qed.

(** [read_items_from_codecommit], the classifier's fallback when Memory
    is unavailable, returns no item at all as soon as one listed item file
    makes [extract_item_metadata] raise (an [id] given as a list): the
    exception ends the whole read, and the items read before that file are
    dropped with the rest. *)
Theorem read_items_from_codecommit_all_or_nothing (env : Env) (w : World) (h : str)
  (pre : list ChangedFile) (bad : ChangedFile) (post : list ChangedFile) (c : str) (e : exn)
  (Hb : cc_branch env = Some h) (Hh : h <> [])
  (Hl : snd (get_all_item_files h env w) = PyOk (pre ++ bad :: post))
  (Hc : cc_file env (cf_path bad) h = Some c) (Hne : c <> [])
  (Hx : extract_item_metadata (cf_path bad) c = PyExc e) :
  snd (Classifier.read_items_from_codecommit true env w) = PyOk [].
Proof.
  unfold Classifier.read_items_from_codecommit, get_codecommit_head, try_catch, bind, log, ask, ret.
  cbv beta iota zeta delta [negb]; rewrite Hb.
  destruct h as [|h0 hd]; [contradiction|]; cbv iota.
  set (w1 := mkWorld (ssm_param w) (calls w ++ [CallGetBranch])).
  assert (Hl1 : snd (get_all_item_files (h0 :: hd) env w1) = PyOk (pre ++ bad :: post))
    by (unfold get_all_item_files in *; rewrite (all_item_files_loop_snd _ _ env w1 w); exact Hl).
  destruct (get_all_item_files (h0 :: hd) env w1) as [w2 r]; cbn [snd] in Hl1; subst r.
  destruct (read_items_loop_raise (h0 :: hd) pre bad post env c e Hc Hne Hx [] w2)
    as (w3 & e3 & E).
  rewrite E; reflexivity.
Qed.

Lemma read_items_from_codecommit_all_or_nothing_witness :
  let good := lit "---
id: sb-0000001
title: Kept
type: idea
---
" in
  let files (p : str) := if str_eqb p (lit "10-ideas/a.md") then Some good
                         else Some header_list_id in
  let env := mkEnv (Some head0) (fun _ _ => None)
               (fun f _ => if str_eqb f (lit "10-ideas")
                           then FolderFiles [lit "10-ideas/a.md"; lit "10-ideas/b.md"]
                           else FolderDoesNotExist)
               (fun p _ => files p) (PyOk true) (fun _ _ => true) (Some []) true true in
  snd (get_all_item_files head0 env (world_at None)) =
    PyOk ([mkChangedFile (lit "10-ideas/a.md") (lit "A")] ++
          mkChangedFile (lit "10-ideas/b.md") (lit "A") :: []) /\
  extract_item_metadata (lit "10-ideas/a.md") good <> PyOk None /\
  snd (Classifier.read_items_from_codecommit true env (world_at None)) = PyOk [].
Proof.
  intros good files env.
  assert (Hl : snd (get_all_item_files head0 env (world_at None)) =
               PyOk ([mkChangedFile (lit "10-ideas/a.md") (lit "A")] ++
                     mkChangedFile (lit "10-ideas/b.md") (lit "A") :: []))
    by (vm_compute; reflexivity).
  split; [exact Hl|split; [vm_compute; discriminate|]].
  apply (read_items_from_codecommit_all_or_nothing env (world_at None) head0
           [mkChangedFile (lit "10-ideas/a.md") (lit "A")]
           (mkChangedFile (lit "10-ideas/b.md") (lit "A")) [] header_list_id re_type_error);
    first [reflexivity|discriminate|exact Hl|vm_compute; reflexivity].
Defined.
